(** * Choropleth scripts: the join, the warnings and the rendering pipeline

    A shallow embedding of [scripts/coloring-countries/color_world_map.py]
    and [scripts/pain-to-map.py].  Both scripts are straight-line programs
    over pandas / geopandas tables; the embedding keeps their statement
    order, their exceptions and exits, and the messages they emit. *)

From Stdlib Require Import ZArith QArith Ascii String List.
From stdpp Require Import gmap strings list sorting pretty.

Open Scope Z_scope.

(* ===================================================================== *)
(** ** Python [str] methods used on country codes

    Strings are byte strings; the methods below are the ASCII restriction
    of Python's [str.upper], [str.lower] and [str.strip], which is where
    ISO-3 and sovereignty codes live. *)
(* ===================================================================== *)

Module PyStr.

Definition is_lower (a : ascii) : bool :=
  let n := N_of_ascii a in ((97 <=? n) && (n <=? 122))%N.

Definition is_upper (a : ascii) : bool :=
  let n := N_of_ascii a in ((65 <=? n) && (n <=? 90))%N.

Definition upper_char (a : ascii) : ascii :=
  if is_lower a then ascii_of_N (N_of_ascii a - 32) else a.

Definition lower_char (a : ascii) : ascii :=
  if is_upper a then ascii_of_N (N_of_ascii a + 32) else a.

Definition swapcase_char (a : ascii) : ascii :=
  if is_lower a then upper_char a else lower_char a.

Fixpoint upper (s : string) : string :=
  match s with
  | EmptyString => EmptyString
  | String a s' => String (upper_char a) (upper s')
  end.

Fixpoint lower (s : string) : string :=
  match s with
  | EmptyString => EmptyString
  | String a s' => String (lower_char a) (lower s')
  end.

(** [str.isspace] on one ASCII character: TAB, LF, VT, FF, CR, the four
    separators FS GS RS US, and the blank. *)
Definition isspace (a : ascii) : bool :=
  let n := N_of_ascii a in
  (((9 <=? n) && (n <=? 13)) || ((28 <=? n) && (n <=? 32)))%N.

Fixpoint lstrip (s : string) : string :=
  match s with
  | EmptyString => EmptyString
  | String a s' => if isspace a then lstrip s' else s
  end.

Fixpoint rstrip (s : string) : string :=
  match s with
  | EmptyString => EmptyString
  | String a s' =>
      match rstrip s' with
      | EmptyString => if isspace a then EmptyString else String a EmptyString
      | t => String a t
      end
  end.

Definition strip (s : string) : string := rstrip (lstrip s).

(** A string made of whitespace only. *)
Fixpoint blank (s : string) : bool :=
  match s with
  | EmptyString => true
  | String a s' => isspace a && blank s'
  end.

(** Re-spelling of the letters of [s]: position [i] has its case swapped
    when the [i]-th flag is set (missing flags count as unset). *)
Fixpoint recase (flags : list bool) (s : string) : string :=
  match s with
  | EmptyString => EmptyString
  | String a s' =>
      match flags with
      | [] => s
      | b :: flags' =>
          String (if b then swapcase_char a else a) (recase flags' s')
      end
  end.

(** [s.startswith(p)] and [s.endswith(p)] *)
Fixpoint startswith (s p : string) : bool :=
  match p, s with
  | EmptyString, _ => true
  | String a p', String b s' =>
      if Ascii.eqb a b then startswith s' p' else false
  | String _ _, EmptyString => false
  end.

Definition endswith (s p : string) : bool :=
  startswith (String.rev s) (String.rev p).




End PyStr.

(* ===================================================================== *)
(** ** Tables: the part of pandas the scripts call

    A table keeps its column labels (so that [c in df.columns] can be asked
    of a table without rows) and its rows, each a finite map from label to
    cell.  Missing data ([NaN] / [None]) is the cell [NA]. *)
(* ===================================================================== *)

Module Pandas.

Inductive cell : Type :=
| NA
| Text (s : string)
| Num (z : Z)
| Shape (wkt : string).

#[global] Instance cell_eq_dec : EqDecision cell.
Proof. solve_decision. Defined.

#[global] Instance cell_inhabited : Inhabited cell := populate NA.

(** Exceptions that the calls below raise. *)
Inductive exn : Type :=
| KeyError (label : string)
| ValueError (what : string)
| MergeError
| TypeError
| AttributeError (attr : string)
| LibraryError (what : string).

#[global] Instance exn_eq_dec : EqDecision exn.
Proof. solve_decision. Defined.

Record DataFrame : Type := mkFrame {
  columns : list string;
  rows : list (gmap string cell)
}.

Definition Series : Type := list cell.

(** [df[c]] *)
Definition getitem (df : DataFrame) (c : string) : exn + Series :=
  if decide (c ∈ columns df) then inr ((λ r, r !!! c) <$> rows df)
  else inl (KeyError c).

Definition first_missing (df : DataFrame) (labels : list string)
  : option string :=
  head (filter (λ c, c ∉ columns df) labels).

Definition restrict (labels : list string) (r : gmap string cell)
  : gmap string cell :=
  filter (λ kv, kv.1 ∈ labels) r.

(** [df[[c1, ..., cn]]] *)
Definition select (df : DataFrame) (labels : list string)
  : exn + DataFrame :=
  match first_missing df labels with
  | Some c => inl (KeyError c)
  | None => inr (mkFrame labels (restrict labels <$> rows df))
  end.

(** [df[c] = s]; a new label goes last. *)
Definition setitem (df : DataFrame) (c : string) (s : Series)
  : exn + DataFrame :=
  if decide (length s = length (rows df)) then
    inr (mkFrame
           (if decide (c ∈ columns df) then columns df
            else columns df ++ [c])
           (zip_with (λ r v, <[c := v]> r) (rows df) s))
  else inl (ValueError "Length of values does not match length of index").

(** [s.astype(str)].  What becomes of a missing entry depends on the
    pandas at hand: before pandas 3 it is the string [na] that [str] makes
    of it ([Some "nan"] for NaN); from pandas 3 on the entry stays missing
    ([None]). *)
Definition astype_str_cell (na : option string) (v : cell) : cell :=
  match v with
  | NA => match na with Some s => Text s | None => NA end
  | Text s => Text s
  | Num z => Text (pretty z)
  | Shape wkt => Text wkt
  end.
Definition astype_str (na : option string) (s : Series) : Series :=
  astype_str_cell na <$> s.

(** [s.str.upper()] and [s.str.strip()]: entries that are not strings
    come out as missing. *)
Definition str_method (f : string → string) (s : Series) : Series :=
  (λ v, match v with Text t => Text (f t) | _ => NA end) <$> s.
Definition str_upper : Series → Series := str_method PyStr.upper.
Definition str_strip : Series → Series := str_method PyStr.strip.

(** [s.isna()], [~mask], [s == v], [s.dropna()], [s.unique()] *)
Definition isna (s : Series) : list bool :=
  (λ v, bool_decide (v = NA)) <$> s.
Definition invert (mask : list bool) : list bool := negb <$> mask.
Definition eq_mask (s : Series) (v : cell) : list bool :=
  (λ x, bool_decide (x = v)) <$> s.
Definition dropna (s : Series) : Series := filter (λ v, v ≠ NA) s.
Definition unique (s : Series) : Series := remove_dups s.

Fixpoint keep {A} (mask : list bool) (l : list A) : list A :=
  match mask, l with
  | b :: mask', x :: l' => if b then x :: keep mask' l' else keep mask' l'
  | _, _ => []
  end.

(** [df.loc[mask, c]] *)
Definition loc_getitem (df : DataFrame) (mask : list bool) (c : string)
  : exn + Series :=
  match getitem df c with
  | inl e => inl e
  | inr s => inr (keep mask s)
  end.

(** [df.loc[mask, c] = v].  Assigning to a label the table does not have
    creates the column, missing outside the mask. *)
Definition loc_setitem (df : DataFrame) (mask : list bool) (c : string)
    (v : cell) : DataFrame :=
  if decide (c ∈ columns df) then
    mkFrame (columns df)
      (zip_with (λ r (b : bool), if b then <[c := v]> r else r)
         (rows df) mask)
  else
    mkFrame (columns df ++ [c])
      (zip_with (λ r (b : bool), <[c := if b then v else NA]> r)
         (rows df) mask).

(** *** [left.merge(right, left_on=, right_on=, how="left")]

    Rows keep the order of [left]; a left row without a partner is kept
    once, with every right column missing.  Labels that occur on both
    sides get the suffixes [_x] and [_y].  Tables in which a label is
    repeated are not merged. *)

Definition relabel (f : string → string) (cols : list string)
    (r : gmap string cell) : gmap string cell :=
  list_to_map ((λ c, (f c, r !!! c)) <$> cols).

Definition nulls (cols : list string) : gmap string cell :=
  list_to_map ((λ c, (c, NA)) <$> cols).

Section labels.
Variables (lcols rcols : list string) (left_on right_on : string).

(** A key of the same name on both sides is kept once, from the left. *)
Definition right_columns : list string :=
  if decide (left_on = right_on)
  then filter (λ c, c ≠ right_on) rcols
  else rcols.

Definition shared (c : string) : bool :=
  bool_decide (c ∈ lcols ∧ c ∈ right_columns).

Definition left_label (c : string) : string :=
  if shared c then c +:+ "_x" else c.
Definition right_label (c : string) : string :=
  if shared c then c +:+ "_y" else c.

Definition merged_columns : list string :=
  (left_label <$> lcols) ++ (right_label <$> right_columns).

(** A left row with a partner, and a left row without one. *)
Definition joined (l r : gmap string cell) : gmap string cell :=
  relabel left_label lcols l ∪ relabel right_label right_columns r.

Definition unjoined (l : gmap string cell) : gmap string cell :=
  relabel left_label lcols l ∪ nulls (right_label <$> right_columns).
End labels.

Section merge.
Variables (left right : DataFrame) (left_on right_on : string).

Definition matches (l : gmap string cell) : list (gmap string cell) :=
  filter (λ r, l !!! left_on = r !!! right_on) (rows right).

Definition merge_rows (l : gmap string cell) : list (gmap string cell) :=
  match matches l with
  | [] => [unjoined (columns left) (columns right) left_on right_on l]
  | ms => joined (columns left) (columns right) left_on right_on l <$> ms
  end.

Definition merge : exn + DataFrame :=
  let labels := merged_columns (columns left) (columns right) left_on right_on in
  if decide (left_on ∈ columns left) then
    if decide (right_on ∈ columns right) then
      if decide (NoDup (columns right)) then
        if decide (NoDup labels) then
          inr (mkFrame labels (rows left ≫= merge_rows))
        else inl MergeError
      else inl (ValueError "The column label is not unique")
    else inl (KeyError right_on)
  else inl (KeyError left_on).
End merge.

(** *** [sorted(...)] on a list of cells: strings by code point, numbers
    by value; anything mixed does not compare.  A list of one element is
    returned without any comparison. *)
Definition text_of (v : cell) : option string :=
  match v with Text s => Some s | _ => None end.
Definition num_of (v : cell) : option Z :=
  match v with Num z => Some z | _ => None end.

Definition sorted (l : list cell) : exn + list cell :=
  match l with
  | [] | [_] => inr l
  | _ =>
      match mapM text_of l with
      | Some ss => inr (Text <$> merge_sort String.le ss)
      | None =>
          match mapM num_of l with
          | Some zs => inr (Num <$> merge_sort Z.le zs)
          | None => inl TypeError
          end
      end
  end.

End Pandas.

(* ===================================================================== *)
(** ** What a run can do: messages, library calls, exits

    A script is a computation over a [Machine]: the value table the
    variable [df] / [dataframe] points to (the scripts assign into it in
    place), and the log of everything the run emitted or asked of a
    library.  A computation ends normally, by [sys.exit], or with an
    exception that nothing caught. *)
(* ===================================================================== *)

Module Runtime.
Import Pandas.

Inductive warning : Type :=
| UnmatchedCodes (count : nat) (key_name : string) (codes : list cell)
| ProjectionFallback (projection : string) (e : exn)
| LabelFailure (e : exn).

Inductive message : Type :=
| CsvReadFailure (e : exn)
| MissingColumns (code_col value_col : string)
| NoNumericValues
| SaveFailure (e : exn)
| Saved (path : string)
| Printed (df : DataFrame)
| Usage (error : string)
| Help.

(** *** What [GeoDataFrame.plot] is given and what it draws *)

Record colormap : Type := mkCmap { cmap_name : string; cmap_lut : option nat }.

Inductive cmap_arg : Type :=
| ByName (name : string)
| ByObject (c : colormap).

Inductive paint : Type :=
| Mapped (c : option cmap_arg) (v : cell)
| Flat (color : string).

Record missing_style : Type := mkMissing {
  ms_color : string;
  ms_edgecolor : string;
  ms_hatch : option string;
  ms_linewidth : Q
}.

Record plot_kwargs : Type := mkPlot {
  pk_column : string;
  pk_cmap : option cmap_arg;
  pk_linewidth : option Q;
  pk_edgecolor : option string;
  pk_missing_kwds : option missing_style
}.

Record legend_kwds : Type := mkLegend {
  lg_loc : string; lg_title : string; lg_fmt : string
}.

Record patch : Type := mkPatch {
  outline : cell;
  fill : paint;
  edge : option string;
  stroke : option Q
}.

Inductive event : Type :=
| Warn (w : warning)
| Stderr (m : message)
| Stdout (m : message)
| ReadCsv (path : string)
| ReadFile (path : string)
| ToCrs (crs : string)
| Figure (width height : Q) (dpi : Z)
| Plot (drawn : list patch) (legend : option legend_kwds)
| AxisOff
| Aspect (mode : string)
| Title (text : string)
| Label (x y : Q) (text : string)
| Savefig (path : string) (dpi : Z).

Record Machine : Type := mkMachine {
  frame : DataFrame;
  log : list event
}.

Inductive Result (A : Type) : Type :=
| Done (a : A)
| SysExit (code : Z)
| Raised (e : exn).
Arguments Done {A} a.
Arguments SysExit {A} code.
Arguments Raised {A} e.

Definition Script (A : Type) : Type := Machine → Result A * Machine.

#[global] Instance script_ret : MRet Script := λ A a m, (Done a, m).

#[global] Instance script_bind : MBind Script := λ A B k c m,
  match c m with
  | (Done a, m') => k a m'
  | (SysExit code, m') => (SysExit code, m')
  | (Raised e, m') => (Raised e, m')
  end.

Definition raise {A} (e : exn) : Script A := λ m, (Raised e, m).
Definition sys_exit {A} (code : Z) : Script A := λ m, (SysExit code, m).

Definition lift {A} (x : exn + A) : Script A :=
  match x with inl e => raise e | inr a => mret a end.

Definition emit (e : event) : Script unit :=
  λ m, (Done (), mkMachine (frame m) (log m ++ [e])).

Definition get_frame : Script DataFrame := λ m, (Done (frame m), m).
Definition set_frame (df : DataFrame) : Script unit :=
  λ m, (Done (), mkMachine df (log m)).

(** [try: body except Exception as e: handler e]; [SystemExit] is not an
    [Exception] and passes through. *)
Definition try_except {A} (body : Script A) (handler : exn → Script A)
  : Script A :=
  λ m, match body m with
       | (Raised e, m') => handler e m'
       | r => r
       end.

Definition warn (w : warning) : Script unit := emit (Warn w).
Definition eprint (msg : message) : Script unit := emit (Stderr msg).
Definition print (msg : message) : Script unit := emit (Stdout msg).

Definition when (b : bool) (c : Script unit) : Script unit :=
  if b then c else mret ().

(** Python truth value of an optional string ([None] and the empty
    string are false). *)
Definition truthy (o : option string) : bool :=
  match o with
  | Some s => bool_decide (s ≠ EmptyString)
  | None => false
  end.

(** *** [GeoDataFrame.plot(column=..., cmap=..., missing_kwds=...)]

    Rows with a value are filled through the colormap ([None] stands
    for matplotlib's default one).  Rows whose value
    is missing are drawn with the style of [missing_kwds], which
    overrides the other style keywords; without [missing_kwds] they are
    not drawn.

    [plot] is what the call draws when it goes through, and the
    [KeyError] of a column that is not there.  Whatever else the call can
    raise (a colour or colormap name that matplotlib does not know, legend
    keywords that the colorbar refuses) is [plot_error] of the libraries
    below, which [draw] asks after the column was found. *)
Definition valued_patch (kw : plot_kwargs) (r : gmap string cell) : list patch :=
  let v := r !!! pk_column kw in
  if decide (v = NA) then []
  else [mkPatch (r !!! "geometry") (Mapped (pk_cmap kw) v)
          (pk_edgecolor kw) (pk_linewidth kw)].

Definition missing_patch (kw : plot_kwargs) (r : gmap string cell) : list patch :=
  let v := r !!! pk_column kw in
  if decide (v = NA) then
    match pk_missing_kwds kw with
    | Some ms => [mkPatch (r !!! "geometry") (Flat (ms_color ms))
                    (Some (ms_edgecolor ms)) (Some (ms_linewidth ms))]
    | None => []
    end
  else [].

Definition plot (df : DataFrame) (kw : plot_kwargs) : exn + list patch :=
  if decide (pk_column kw ∈ columns df) then
    inr ((rows df ≫= valued_patch kw) ++ (rows df ≫= missing_patch kw))
  else inl (KeyError (pk_column kw)).

(** *** [parser.parse_args()]

    argparse either returns the parsed arguments, or prints the usage and
    the error on stderr and exits with status 2, or, for [-h] and
    [--help], prints the help on stdout and exits with status 0.  Which
    command line gives which is argparse's business: the scripts' entry
    points below take it as a function [parse]. *)
Inductive parsed (A : Type) : Type :=
| Parsed (args : A)
| UsageError (error : string)
| HelpAsked.
Arguments Parsed {A} args.
Arguments UsageError {A} error.
Arguments HelpAsked {A}.

Definition parse_args {A} (parse : list string → parsed A)
    (argv : list string) : Script A :=
  match parse argv with
  | Parsed args => mret args
  | UsageError error => eprint (Usage error);; sys_exit 2
  | HelpAsked => print Help;; sys_exit 0
  end.

(** *** The libraries behind the scripts *)

Inductive classifier_spec : Type :=
| Quantiles (y : Series) (k : Z)
| EqualInterval (y : Series) (k : Z)
| NaturalBreaks (y : Series) (k : Z)
| StdMean (y : Series).

Record Classifier : Type := mkClassifier {
  spec : classifier_spec;
  bins : list Q
}.

Class Externals : Type := {
  os_sep : string;
  read_csv : string → exn + DataFrame;
  get_path : string → exn + string;
  read_file : string → exn + DataFrame;
  to_crs : DataFrame → string → exn + DataFrame;
  mc_fit : classifier_spec → exn + list Q;
  mc_call : Classifier → Series → exn + Series;
  get_cmap : string → option nat → exn + colormap;
  top_labels :
    DataFrame → Z → string → string → string → exn + list (Q * Q * string);
  savefig : string → Z → option exn;
  (* what [astype(str)] makes of a missing entry, see [astype_str_cell] *)
  str_of_na : option string;
  (* the exception of [plt.figure(figsize=(w, h), dpi=dpi)], if any *)
  figure_error : Q → Q → Z → option exn;
  (* the exception of [GeoDataFrame.plot] on a column that is there *)
  plot_error : DataFrame → plot_kwargs → option legend_kwds → option exn
}.

(** The same libraries over another file system content for the CSV. *)
Definition with_read_csv (E : Externals) (csv : string → exn + DataFrame)
  : Externals :=
  {| os_sep := @os_sep E; read_csv := csv;
     get_path := @get_path E; read_file := @read_file E;
     to_crs := @to_crs E; mc_fit := @mc_fit E; mc_call := @mc_call E;
     get_cmap := @get_cmap E; top_labels := @top_labels E;
     savefig := @savefig E; str_of_na := @str_of_na E;
     figure_error := @figure_error E; plot_error := @plot_error E |}.

End Runtime.

(* ===================================================================== *)
(** ** Steps that both scripts spell out in the same words *)
(* ===================================================================== *)

Module Steps.
Import Pandas Runtime.

Section steps.
Context `{Externals}.

(** [df[c] = df[c].astype(str).str.upper().str.strip()] *)
Definition clean_codes (c : string) : Script unit :=
  df ← get_frame;
  s ← lift (getitem df c);
  df' ← lift (setitem df c (str_strip (str_upper (astype_str str_of_na s))));
  set_frame df'.

(** The block under "Warn about codes that didn't match". *)
Definition provided_codes (codes : Series) : list cell := unique codes.
Definition matched_codes (keys : Series) : list cell := unique keys.

Definition warn_unmatched (merged : DataFrame)
    (code_col value_col key key_name : string) : Script unit :=
  df ← get_frame;
  codes ← lift (getitem df code_col);
  let provided := provided_codes codes in
  vals ← lift (getitem merged value_col);
  keys ← lift (loc_getitem merged (invert (isna vals)) key);
  let matched := matched_codes keys in
  missing_codes ← lift (sorted (list_difference provided matched));
  when (bool_decide (missing_codes ≠ []))
    (warn (UnmatchedCodes (length missing_codes) key_name missing_codes)).

(** [merged.to_crs(crs)] *)
Definition reproject (merged : DataFrame) (crs : string)
  : Script DataFrame :=
  emit (ToCrs crs);;
  lift (to_crs merged crs).

(** [merged.plot(ax=ax, **kw)], with [legend=True, legend_kwds=...] when
    [legend] is given *)
Definition draw (merged : DataFrame) (kw : plot_kwargs)
    (legend : option legend_kwds) : Script unit :=
  drawn ← lift (plot merged kw);
  match plot_error merged kw legend with
  | Some e => raise e
  | None => emit (Plot drawn legend)
  end.

(** [plt.figure(figsize=(w, h), dpi=dpi)] *)
Definition figure (w h : Q) (dpi : Z) : Script unit :=
  match figure_error w h dpi with
  | Some e => raise e
  | None => emit (Figure w h dpi)
  end.

(** [plt.savefig(path, bbox_inches="tight", dpi=dpi, ...)] *)
Definition save (path : string) (dpi : Z) : Script unit :=
  emit (Savefig path dpi);;
  match savefig path dpi with
  | Some e => raise e
  | None => mret ()
  end.
End steps.

(** Projections map (easy names -> EPSG/PROJ strings), the same in both
    scripts. *)
Definition PROJECTION_ITEMS : list (string * string) :=
  [ ("PlateCarree", "EPSG:4326");
    ("Mercator", "EPSG:3395");
    ("Robinson",
     "+proj=robin +lon_0=0 +x_0=0 +y_0=0 +datum=WGS84 +units=m +no_defs");
    ("Mollweide",
     "+proj=moll +lon_0=0 +x_0=0 +y_0=0 +datum=WGS84 +units=m +no_defs");
    ("EqualEarth", "+proj=eqearth +lon_0=0 +datum=WGS84 +units=m +no_defs");
    ("WinkelTripel", "+proj=wintri +lon_0=0 +datum=WGS84 +units=m +no_defs")
  ].

Definition PROJECTIONS : gmap string string := list_to_map PROJECTION_ITEMS.

(** [d[key]] on a dict *)
Definition dict_getitem (d : gmap string string) (key : string)
  : exn + string :=
  match d !! key with
  | Some v => inr v
  | None => inl (KeyError key)
  end.

(** [os.path.join(a, *p)] with the separator [sep] of the platform, as
    [posixpath.join] computes it: a component that starts with the
    separator starts the path afresh, and no separator is added after an
    empty path or after one that ends with it.  [ntpath.join] gives the
    same on components that carry no drive and no root after the first,
    which is all the scripts join. *)
Definition join_step (sep path b : string) : string :=
  if PyStr.startswith b sep then b
  else if bool_decide (path = EmptyString) || PyStr.endswith path sep
       then path +:+ b
       else path +:+ sep +:+ b.

Definition os_path_join (sep a : string) (p : list string) : string :=
  foldl (join_step sep) a p.

End Steps.

(* ===================================================================== *)
(** ** scripts/coloring-countries/color_world_map.py *)
(* ===================================================================== *)

Module ColorWorldMap.
Import Pandas Runtime Steps.

Record Args : Type := mkArgs {
  data : string;
  out : string;
  code_col : string;
  value_col : string;
  name_col : option string;
  title : option string;
  cmap : string;
  missing_color : string;
  edge_color : string;
  edge_width : Q;
  projection : string;
  dpi : Z;
  width : Q;
  height : Q;
  scheme : option string;
  k : Z;
  legend : bool;
  legend_title : option string;
  label_topn : Z;
  format_values : string
}.

(** The parser's defaults; [--data] and [--out] are required. *)
Definition default_args (data out : string) : Args :=
  {| data := data; out := out;
     code_col := "iso_a3"; value_col := "value";
     name_col := None; title := None;
     cmap := "viridis"; missing_color := "#EEEEEE";
     edge_color := "#FFFFFF"; edge_width := (1 # 4)%Q;
     projection := "Robinson"; dpi := 300;
     width := (12 # 1)%Q; height := (13 # 2)%Q;
     scheme := None; k := 5;
     legend := false; legend_title := None;
     label_topn := 0; format_values := ".2f" |}.

(** [choices=list(PROJECTIONS.keys())] for [--projection]. *)
Definition projection_choices : list string := PROJECTION_ITEMS.*1.

Section script.
Context `{Externals}.

Definition load_world : Script DataFrame :=
  path ← lift (get_path "naturalearth_lowres");
  emit (ReadFile path);;
  world ← lift (read_file path);
  names ← lift (getitem world "name");
  let world :=
    loc_setitem world (eq_mask names (Text "France")) "iso_a3" (Text "FRA") in
  names ← lift (getitem world "name");
  let world :=
    loc_setitem world (eq_mask names (Text "Norway")) "iso_a3" (Text "NOR") in
  names ← lift (getitem world "name");
  let world :=
    loc_setitem world (eq_mask names (Text "Somaliland")) "iso_a3"
      (Text "SOL") in
  mret world.

(** [mc.Quantiles(series, k=k)] and the like: the classifier is fitted
    when it is built. *)
Definition construct (s : classifier_spec) : Script (option Classifier) :=
  b ← lift (mc_fit s);
  mret (Some (mkClassifier s b)).

Definition classify_values (series : Series) (scheme : option string)
    (k : Z) : Script (option Classifier) :=
  let scheme := PyStr.lower (default EmptyString scheme) in
  if decide (scheme ∈ ["quantiles"; "quantile"; "q"]) then
    construct (Quantiles series k)
  else if decide (scheme ∈ ["equal_interval"; "equalinterval"; "equal"; "ei"]) then
    construct (EqualInterval series k)
  else if decide (scheme ∈ ["natural_breaks"; "jenks"; "nb"]) then
    construct (NaturalBreaks series k)
  else if decide (scheme ∈ ["std_mean"; "std"; "zscore"]) then
    construct (StdMean series)
  else mret None.

(** *** [main], block by block, under the script's own comment lines *)

(* Load data *)
Definition load_data (args : Args) : Script unit :=
  df ← try_except
         (emit (ReadCsv (data args));; lift (read_csv (data args)))
         (λ e, eprint (CsvReadFailure e);; sys_exit 1);
  set_frame df;;
  if bool_decide (code_col args ∉ columns df ∨ value_col args ∉ columns df)
  then
    eprint (MissingColumns (code_col args) (value_col args));;
    sys_exit 1
  else mret ().

(* Merge *)
Definition merge_labels (args : Args) : list string :=
  [code_col args; value_col args]
    ++ (if truthy (name_col args) then [default EmptyString (name_col args)] else []).

Definition merge_block (args : Args) (world : DataFrame)
  : Script DataFrame :=
  df ← get_frame;
  right ← lift (select df (merge_labels args));
  lift (merge world right "iso_a3" (code_col args)).

(* Projection *)
Definition projection_block (args : Args) (merged : DataFrame)
  : Script DataFrame :=
  let crs := default "EPSG:4326" (PROJECTIONS !! projection args) in
  try_except (reproject merged crs)
    (λ e, warn (ProjectionFallback (projection args) e);;
          fallback ← lift (dict_getitem PROJECTIONS "PlateCarree");
          reproject merged fallback).

(* Prepare classification or continuous mapping *)
Definition classification_block (args : Args) (merged : DataFrame)
  : Script (colormap * DataFrame * string) :=
  values ← lift (getitem merged (value_col args));
  if truthy (scheme args) then
    let valid := dropna values in
    if decide (length valid = 0%nat) then
      eprint NoNumericValues;; sys_exit 1
    else
      classifier ← classify_values valid (scheme args) (k args);
      bins ← match classifier with
             | Some c => mret (bins c)
             | None => raise (AttributeError "bins")
             end;
      cmap ← lift (get_cmap (cmap args) (Some (length bins)));
      classes ← match classifier with
                | Some c => lift (mc_call c values)
                | None => raise TypeError
                end;
      merged ← lift (setitem merged "_class" classes);
      mret (cmap, merged, "_class")
  else
    cmap ← lift (get_cmap (cmap args) None);
    mret (cmap, merged, value_col args).

(* Plot *)
Definition plot_kwargs (args : Args) (cmap : colormap)
    (column_to_plot : string) : Runtime.plot_kwargs :=
  mkPlot column_to_plot (Some (ByObject cmap))
    (Some (edge_width args)) (Some (edge_color args))
    (Some (mkMissing (missing_color args) (edge_color args) None
             (edge_width args))).

Definition plot_block (args : Args) (cmap : colormap)
    (merged : DataFrame) (column_to_plot : string) : Script unit :=
  let legend_kwds :=
    mkLegend "lower left"
      (if truthy (legend_title args) then default EmptyString (legend_title args)
       else value_col args)
      (format_values args) in
  figure (width args) (height args) (dpi args);;
  draw merged (plot_kwargs args cmap column_to_plot) None;;
  emit AxisOff;;
  emit (Aspect "equal");;
  when (truthy (title args)) (emit (Title (default EmptyString (title args))));;
  when (legend args)
    (draw merged (plot_kwargs args cmap column_to_plot) (Some legend_kwds)).

(* Label top-N countries *)
Definition label_block (args : Args) (merged : DataFrame) : Script unit :=
  when (bool_decide (0 < label_topn args))
    (try_except
       (labels ← lift (top_labels merged (label_topn args) (value_col args)
                         (code_col args) (format_values args));
        foldr (λ '(x, y, text) rest, emit (Label x y text);; rest)
          (mret ()) labels)
       (λ e, warn (LabelFailure e))).

(* Save *)
Definition save_block (args : Args) : Script unit :=
  try_except
    (save (out args) (dpi args);; print (Saved (out args)))
    (λ e, eprint (SaveFailure e);; sys_exit 1).

(** Everything up to and including "# Merge". *)
Definition join_stage (args : Args) : Script DataFrame :=
  load_data args;;
  clean_codes (code_col args);;
  world ← load_world;
  merge_block args world.

(** Everything from "# Prepare classification" on. *)
Definition draw_stage (args : Args) (merged : DataFrame) : Script unit :=
  '(cmap, merged, column_to_plot) ← classification_block args merged;
  plot_block args cmap merged column_to_plot;;
  label_block args merged;;
  save_block args.

(** [main] from the line after [parser.parse_args()] on. *)
Definition main (args : Args) : Script unit :=
  merged ← join_stage args;
  warn_unmatched merged (code_col args) (value_col args) "iso_a3" "ISO-3";;
  merged ← projection_block args merged;
  draw_stage args merged.

(** [main()] as the script calls it: the command line is parsed first. *)
Definition main_of_argv (parse : list string → parsed Args)
    (argv : list string) : Script unit :=
  args ← parse_args parse argv;
  main args.
End script.

End ColorWorldMap.

(* ===================================================================== *)
(** ** scripts/pain-to-map.py *)
(* ===================================================================== *)

Module PainToMap.
Import Pandas Runtime Steps.

Definition USED_PROJECTION : string := "PlateCarree".
Definition CODE_COLUMN : string := "SOV_A3".
Definition EDGE_WIDTH : Q := (9 # 4)%Q.
Definition DPI_VALUE : Z := 100.
Definition HEIGHT_VALUE : Z := 128.
Definition WIDTH_VALUE : Z := HEIGHT_VALUE * 2 / 1.
Definition args_edge_color : string := "#00FF37".
Definition args_missing_color : string := "#EEEEEE".

Section script.
Context `{Externals}.

Definition _load_world (file_path : string) (verbose : bool)
  : Script DataFrame :=
  emit (ReadFile file_path);;
  world ← lift (read_file file_path);
  when verbose (print (Printed world));;
  sov ← lift (getitem world "SOVEREIGNT");
  let world :=
    loc_setitem world (eq_mask sov (Text "France")) "sov_a3" (Text "FRA") in
  sov ← lift (getitem world "SOVEREIGNT");
  let world :=
    loc_setitem world (eq_mask sov (Text "Norway")) "sov_a3" (Text "NOR") in
  sov ← lift (getitem world "SOVEREIGNT");
  let world :=
    loc_setitem world (eq_mask sov (Text "Somaliland")) "sov_a3"
      (Text "SOL") in
  mret world.

(** *** [generate_map], block by block *)

(* Merge *)
Definition merge_block (args_value_col args_code_col : string)
    (world : DataFrame) : Script DataFrame :=
  dataframe ← get_frame;
  right ← lift (select dataframe [args_code_col; args_value_col]);
  lift (merge world right CODE_COLUMN args_code_col).

(* Projection *)
Definition projection_block (merged : DataFrame) : Script DataFrame :=
  try_except
    (match PROJECTIONS !! USED_PROJECTION with
     | Some crs => reproject merged crs
     | None => raise (ValueError "Must pass either crs or epsg.")
     end)
    (λ e, warn (ProjectionFallback USED_PROJECTION e);;
          fallback ← lift (dict_getitem PROJECTIONS "PlateCarree");
          reproject merged fallback).

(* Plot.  [plot_kwargs] is built, but the call that took it is
   commented out in the script; the call that is made names its
   keywords itself. *)
Definition plot_kwargs (column_to_plot : string) : Runtime.plot_kwargs :=
  mkPlot column_to_plot None (Some EDGE_WIDTH) (Some args_edge_color)
    (Some (mkMissing args_missing_color args_edge_color None EDGE_WIDTH)).

Definition plot_block (cmap : string) (merged : DataFrame)
    (args_value_col : string) : Script unit :=
  let column_to_plot := args_value_col in
  let legend_kwds := mkLegend "lower left" "TODO" ".2f" in
  emit (Figure (inject_Z WIDTH_VALUE) (inject_Z HEIGHT_VALUE) DPI_VALUE);;
  let plot_kwargs := plot_kwargs column_to_plot in
  draw merged (mkPlot "value" (Some (ByName cmap)) None None None) None;;
  emit AxisOff;;
  emit (Aspect "equal");;
  emit (Title "TODO Title").

(* Save *)
Definition save_block (output_path : string) : Script (option bool) :=
  try_except
    (save output_path DPI_VALUE;;
     print (Saved output_path);;
     mret (Some true))
    (λ e, eprint (SaveFailure e);; mret (Some false)).

(** From "# Clean codes" to "# Merge". *)
Definition join_stage (world_path args_value_col args_code_col : string)
  : Script DataFrame :=
  clean_codes args_code_col;;
  world ← _load_world world_path false;
  merge_block args_value_col args_code_col world.

(** From "# Plot" on. *)
Definition draw_stage (cmap : string) (merged : DataFrame)
    (args_value_col output_path : string) : Script (option bool) :=
  plot_block cmap merged args_value_col;;
  save_block output_path.

(** The caller's [dataframe] is the machine's frame.  The result is
    [None] for the bare [return], [Some true] / [Some false] for
    [return True] / [return False]. *)
Definition generate_map (world_path : string) (output_path : option string)
    (cmap : string) (args_value_col args_code_col : string)
  : Script (option bool) :=
  let output_path :=
    default (".." +:+ os_sep +:+ "data" +:+ os_sep +:+ "world.png")
      output_path in
  (* Load data *)
  dataframe ← get_frame;
  if bool_decide (args_code_col ∉ columns dataframe
                  ∨ args_value_col ∉ columns dataframe)
  then
    eprint (MissingColumns args_code_col args_value_col);;
    mret None
  else
    merged ← join_stage world_path args_value_col args_code_col;
    warn_unmatched merged args_code_col args_value_col
      CODE_COLUMN CODE_COLUMN;;
    merged ← projection_block merged;
    draw_stage cmap merged args_value_col output_path.

(** The call with every optional argument left out. *)
Definition generate_map_default (world_path : string)
  : Script (option bool) :=
  generate_map world_path None "Greys" "value" "sov_a3".

(** *** The block under [if __name__ == "__main__"] *)

Definition BASE_PATH : string :=
  os_path_join os_sep ("D:" +:+ String (ascii_of_nat 92) EmptyString)
    ["Workspaces"; "vscode-workspace"; "ai_x_medicine"; "data"].

Definition WORLD_PATH : string :=
  os_path_join os_sep BASE_PATH ["countries_map.zip"].

Definition sov_data (file : string) : string :=
  os_path_join os_sep BASE_PATH ["out"; "sov_data"; file].

Definition INPUT_ITEMS : list (string * string) :=
  [ ("socio-eco", sov_data "socioeconomic-pain-sov.csv");
    ("emo", sov_data "emo-sov.csv");
    ("physical", sov_data "physical-sov.csv");
    ("env", sov_data "env-sov.csv");
    ("fire", sov_data "env-fire-sov.csv");
    ("water", sov_data "env-water-sov.csv");
    ("earth", sov_data "env-earth-sov.csv");
    ("wood", sov_data "env-wood-sov.csv");
    ("metal", sov_data "env-metal-sov.csv") ].

Definition INPUT_PATHS : gmap string string := list_to_map INPUT_ITEMS.

Definition CMAP_ITEMS : list (string * string) :=
  [ ("socio-eco", "YlOrBr");
    ("emo", "Blues");
    ("physical", "RdPu");
    ("env", "Greys");
    ("fire", "Reds");
    ("water", "Blues");
    ("earth", "Greens");
    ("wood", "Greens");
    ("metal", "Reds") ].

Definition CMAPS : gmap string string := list_to_map CMAP_ITEMS.

(** The run for [--mode DATA_MODE], from the line after
    [parser.parse_args()] on; the table read becomes the
    [dataframe] that [generate_map] is given. *)
Definition run_as_script (DATA_MODE : string) : Script (option bool) :=
  path ← lift (dict_getitem INPUT_PATHS DATA_MODE);
  emit (ReadCsv path);;
  df_pain ← lift (read_csv path);
  set_frame df_pain;;
  let output_path :=
    os_path_join os_sep BASE_PATH
      ["out"; "maps"; "map-" +:+ DATA_MODE +:+ ".png"] in
  cmap ← lift (dict_getitem CMAPS DATA_MODE);
  generate_map WORLD_PATH (Some output_path) cmap "value" "sov_a3".

(** The whole block: [--mode] is parsed first. *)
Definition script_of_argv (parse : list string → parsed string)
    (argv : list string) : Script (option bool) :=
  DATA_MODE ← parse_args parse argv;
  run_as_script DATA_MODE.
End script.

End PainToMap.

(* ===================================================================== *)
(** ** Vocabulary of the statements *)
(* ===================================================================== *)

Module Vocabulary.
Import Pandas Runtime Steps.




(** What [astype(str)], [str.upper()] and [str.strip()] make of one entry,
    and of a whole column [c]. *)
Definition clean_code `{Externals} (v : cell) : cell :=
  match astype_str_cell str_of_na v with
  | Text s => Text (PyStr.strip (PyStr.upper s))
  | _ => NA
  end.

Definition cleaned `{Externals} (c : string) (df : DataFrame) : DataFrame :=
  mkFrame (columns df) ((λ r, <[c := clean_code (r !!! c)]> r) <$> rows df).

(** No code of column [c] is missing, unless [astype(str)] makes a string
    of a missing entry anyway. *)
Definition codes_present `{Externals} (c : string) (df : DataFrame) : Prop :=
  str_of_na = None → Forall (λ r, r !!! c ≠ NA) (rows df).

#[global] Instance codes_present_dec `{Externals} c df :
  Decision (codes_present c df).
Proof. unfold codes_present. apply _. Defined.

Definition is_text (v : cell) : Prop :=
  match v with Text _ => True | _ => False end.

(** The pairs (geometry row, value row) with equal keys, geometry rows
    first, and the geometry rows that have no partner. *)
Definition matching_pairs (left right : DataFrame) (left_on right_on : string)
  : list (gmap string cell * gmap string cell) :=
  l ← rows left;
  r ← rows right;
  if decide (l !!! left_on = r !!! right_on) then [(l, r)] else [].

Definition partnerless (left right : DataFrame) (left_on right_on : string)
  : list (gmap string cell) :=
  filter (λ l, Forall (λ r, l !!! left_on ≠ r !!! right_on) (rows right))
    (rows left).

(** [merged] is a left join of [world] with the columns [labels] of
    [values], on [key] = [code_col]: every geometry row appears; every
    merged row is a geometry row, with the value of a partner if it has one
    and a missing value otherwise; and a merged row whose key no value row
    carries has a missing value.  Columns are found under the labels the
    merge gave them. *)
Definition left_join (world values : DataFrame) (labels : list string)
    (key code_col value_col : string) (merged : DataFrame) : Prop :=
  let lbl := left_label (columns world) labels key code_col in
  let vlabel := right_label (columns world) labels key code_col value_col in
  (∀ g, g ∈ rows world →
     ∃ m, m ∈ rows merged ∧
       ∀ c, c ∈ columns world → m !! lbl c = Some (g !!! c))
  ∧ (∀ m, m ∈ rows merged →
       ∃ g, g ∈ rows world ∧
         (∀ c, c ∈ columns world → m !! lbl c = Some (g !!! c)) ∧
         ((∃ r, r ∈ rows values ∧ r !!! code_col = g !!! key ∧
                m !! vlabel = Some (r !!! value_col))
          ∨ ((∀ r, r ∈ rows values → r !!! code_col ≠ g !!! key) ∧
             m !! vlabel = Some NA)))
  ∧ (∀ m, m ∈ rows merged →
       (∀ r, r ∈ rows values → r !!! code_col ≠ m !!! lbl key) →
       m !! vlabel = Some NA).

(** [merged] has one row per pair of a geometry row and a value row with
    the same key, and one row per geometry row without partner; nothing
    else, and nothing twice. *)
Definition one_row_per_pair (world values : DataFrame) (labels : list string)
    (key code_col : string) (merged : DataFrame) : Prop :=
  rows merged ≡ₚ
    ((λ p, joined (columns world) labels key code_col p.1 p.2)
       <$> matching_pairs world values key code_col)
    ++ (unjoined (columns world) labels key code_col
          <$> partnerless world values key code_col).

(** What the warning block appends to the log for the list [missing]. *)
Definition unmatched_warning (key_name : string) (missing : list cell)
  : list event :=
  if decide (missing = []) then []
  else [Warn (UnmatchedCodes (length missing) key_name missing)].

(** The value table provides the code [c]; the merged table has a row
    with key [c] and a value. *)
Definition provides (values : DataFrame) (code_col : string) (c : cell) : Prop :=
  ∃ r, r ∈ rows values ∧ r !!! code_col = c.

Definition has_value_for (merged : DataFrame) (key value_col : string)
    (c : cell) : Prop :=
  ∃ row, row ∈ rows merged ∧ row !!! key = c ∧ row !!! value_col ≠ NA.

(** The CRS string that [--projection] selects. *)
Definition selected_crs (projection : string) : string :=
  default "EPSG:4326" (PROJECTIONS !! projection).

(** What a run logs when the first reprojection raised [e]. *)
Definition fallback_trail (crs projection : string) (e : exn) : list event :=
  [ToCrs crs; Warn (ProjectionFallback projection e); ToCrs "EPSG:4326"].

Definition logged (m : Machine) (t : list event) : Machine :=
  mkMachine (frame m) (log m ++ t).

(** The three corrections on one row: the code under [code_label] is set
    by the name under [name_label]. *)
Definition corrected (name_label code_label : string) (r : gmap string cell)
  : gmap string cell :=
  if decide (r !!! name_label = Text "France") then
    <[code_label := Text "FRA"]> r
  else if decide (r !!! name_label = Text "Norway") then
    <[code_label := Text "NOR"]> r
  else if decide (r !!! name_label = Text "Somaliland") then
    <[code_label := Text "SOL"]> r
  else r.

(** Events of a log. *)
Definition is_plot (e : event) : Prop :=
  match e with Plot _ _ => True | _ => False end.
Definition is_unmatched_warning (e : event) : Prop :=
  match e with Warn (UnmatchedCodes _ _ _) => True | _ => False end.

#[global] Instance is_plot_dec e : Decision (is_plot e).
Proof. destruct e; simpl; apply _. Defined.
#[global] Instance is_unmatched_warning_dec e :
  Decision (is_unmatched_warning e).
Proof. destruct e as [[]| | | | | | | | | | | |]; simpl; apply _. Defined.

(** A computation that only appends events satisfying [P] to the log. *)
Definition emits {A} (P : event → Prop) (c : Script A) : Prop :=
  ∀ m, ∃ t, log (c m).2 = log m ++ t ∧ Forall P t.

(** A computation that leaves the value table alone. *)
Definition keeps_frame {A} (c : Script A) : Prop :=
  ∀ m, frame (c m).2 = frame m.

(** A computation that ends by [sys.exit] with a status of [codes] only;
    with no status to choose from, it never exits. *)
Definition exits_only {A} (codes : list Z) (c : Script A) : Prop :=
  ∀ m code, (c m).1 = SysExit code → code ∈ codes.

(** The names that [classify_values] knows, in lower case. *)
Definition scheme_names : list string :=
  ["quantiles"; "quantile"; "q";
   "equal_interval"; "equalinterval"; "equal"; "ei";
   "natural_breaks"; "jenks"; "nb";
   "std_mean"; "std"; "zscore"].

(** Events of the label block. *)
Definition is_label (e : event) : Prop :=
  match e with Label _ _ _ | Warn (LabelFailure _) => True | _ => False end.

(** Codes in the order of [sorted]. *)
Definition code_le (v w : cell) : Prop :=
  match v, w with
  | Text s, Text t => String.le s t
  | _, _ => False
  end.

(** What the plot block of color_world_map.py appends to the log when
    [plot] draws [drawn]: the figure with the map, and the title if there
    is one; then, with [--legend], the map again with the keywords of the
    legend. *)
Definition cwm_legend (args : ColorWorldMap.Args) : legend_kwds :=
  mkLegend "lower left"
    (default (ColorWorldMap.value_col args)
       (if truthy (ColorWorldMap.legend_title args)
        then ColorWorldMap.legend_title args else None))
    (ColorWorldMap.format_values args).

Definition cwm_opening (args : ColorWorldMap.Args) : event :=
  Figure (ColorWorldMap.width args) (ColorWorldMap.height args)
    (ColorWorldMap.dpi args).

Definition cwm_map (args : ColorWorldMap.Args) (drawn : list patch)
  : list event :=
  [cwm_opening args; Plot drawn None; AxisOff; Aspect "equal"]
  ++ match ColorWorldMap.title args with
     | Some t => if decide (t = EmptyString) then [] else [Title t]
     | None => []
     end.

Definition cwm_layers (args : ColorWorldMap.Args) (drawn : list patch)
  : list event :=
  cwm_map args drawn
  ++ (if ColorWorldMap.legend args
      then [Plot drawn (Some (cwm_legend args))] else []).

(** How the plot block of color_world_map.py ends, by what the libraries
    raise: the figure, the plot, and with [--legend] the second plot. *)
Definition cwm_plot_outcome `{Externals} (args : ColorWorldMap.Args)
    (cmap : colormap) (merged : DataFrame) (col : string) (m : Machine)
  : Result unit * Machine :=
  let kw := ColorWorldMap.plot_kwargs args cmap col in
  match figure_error (ColorWorldMap.width args) (ColorWorldMap.height args)
          (ColorWorldMap.dpi args) with
  | Some e => (Raised e, m)
  | None =>
      match plot merged kw with
      | inl e => (Raised e, logged m [cwm_opening args])
      | inr drawn =>
          match plot_error merged kw None with
          | Some e => (Raised e, logged m [cwm_opening args])
          | None =>
              if ColorWorldMap.legend args then
                match plot_error merged kw (Some (cwm_legend args)) with
                | Some e => (Raised e, logged m (cwm_map args drawn))
                | None => (Done (), logged m (cwm_layers args drawn))
                end
              else (Done (), logged m (cwm_map args drawn))
          end
      end
  end.

(** What a call of [generate_map] that saves its figure appends to the
    log after the join. *)
Definition ptm_trail (missing : list cell) (drawn : list patch)
    (output_path : string) : list event :=
  unmatched_warning PainToMap.CODE_COLUMN missing
  ++ [ToCrs "EPSG:4326";
      Figure (inject_Z PainToMap.WIDTH_VALUE) (inject_Z PainToMap.HEIGHT_VALUE)
        PainToMap.DPI_VALUE;
      Plot drawn None; AxisOff; Aspect "equal"; Title "TODO Title";
      Savefig output_path PainToMap.DPI_VALUE;
      Stdout (Saved output_path)].

(** The patch that color_world_map.py draws for one row of the plotted
    column [col]. *)
Definition patch_of (args : ColorWorldMap.Args) (cmap : colormap)
    (col : string) (r : gmap string cell) : patch :=
  mkPatch (r !!! "geometry")
    (if decide (r !!! col = NA) then Flat (ColorWorldMap.missing_color args)
     else Mapped (Some (ByObject cmap)) (r !!! col))
    (Some (ColorWorldMap.edge_color args))
    (Some (ColorWorldMap.edge_width args)).

(** A row given the column [c], missing, if it has none. *)
Definition with_column (c : string) (cols : list string)
    (r : gmap string cell) : gmap string cell :=
  if decide (c ∈ cols) then r else <[c := NA]> r.

(** Number of classes a classifier was asked for when it was built. *)
Definition requested_classes (s : classifier_spec) : option Z :=
  match s with
  | Quantiles _ k | EqualInterval _ k | NaturalBreaks _ k => Some k
  | StdMean _ => None
  end.

Definition fitted_on (s : classifier_spec) : Series :=
  match s with
  | Quantiles y _ | EqualInterval y _ | NaturalBreaks y _ | StdMean y => y
  end.

(** How the classification block of color_world_map.py ends once the
    classifier [s] is chosen, by what the libraries return: the classifier
    is fitted, the colormap is asked for with one entry per bin, the
    classifier is called on all the values, and its answer becomes the
    column [_class]. *)
Definition cwm_classes_outcome `{Externals} (args : ColorWorldMap.Args)
    (merged : DataFrame) (values : Series) (s : classifier_spec) (m : Machine)
  : Result (colormap * DataFrame * string) * Machine :=
  match mc_fit s with
  | inl e => (Raised e, m)
  | inr b =>
      match get_cmap (ColorWorldMap.cmap args) (Some (length b)) with
      | inl e => (Raised e, m)
      | inr cmap =>
          match mc_call (mkClassifier s b) values with
          | inl e => (Raised e, m)
          | inr classes =>
              match setitem merged "_class" classes with
              | inl e => (Raised e, m)
              | inr merged2 => (Done (cmap, merged2, "_class"), m)
              end
          end
      end
  end.

End Vocabulary.

(* ===================================================================== *)
(** ** Small worlds to run the scripts in *)
(* ===================================================================== *)

Module Fixture.
Import Pandas Runtime Steps.

Definition country (name_label code_label name code shape : string)
  : gmap string cell :=
  list_to_map
    [(name_label, Text name); (code_label, Text code);
     ("geometry", Shape shape)].

(** A few rows in the shape of the Natural Earth low-resolution table. *)
Definition natural_earth : DataFrame :=
  mkFrame ["name"; "iso_a3"; "geometry"]
    [ country "name" "iso_a3" "Fiji" "FJI" "POLYGON(fiji)";
      country "name" "iso_a3" "France" "-99" "POLYGON(france)";
      country "name" "iso_a3" "Germany" "DEU" "POLYGON(germany)";
      country "name" "iso_a3" "Norway" "-99" "POLYGON(norway)" ].

(** A few rows in the shape of the admin-0 countries table. *)
Definition countries_map : DataFrame :=
  mkFrame ["SOVEREIGNT"; "SOV_A3"; "geometry"]
    [ country "SOVEREIGNT" "SOV_A3" "Fiji" "FJI" "POLYGON(fiji)";
      country "SOVEREIGNT" "SOV_A3" "France" "FR1" "POLYGON(france)";
      country "SOVEREIGNT" "SOV_A3" "Germany" "DEU" "POLYGON(germany)" ].

Definition entry (code_label code : string) (value : cell)
  : gmap string cell :=
  list_to_map [(code_label, Text code); ("value", value)].

Definition values_csv : DataFrame :=
  mkFrame ["iso_a3"; "value"]
    [ entry "iso_a3" "FRA" (Num 3);
      entry "iso_a3" "DEU" (Num 4);
      entry "iso_a3" "XXX" (Num 5);
      entry "iso_a3" "DEU" (Num 6) ].



Definition pain_csv : DataFrame :=
  mkFrame ["sov_a3"; "value"]
    [ entry "sov_a3" "FRA" (Num 3);
      entry "sov_a3" "DEU" (Num 4) ].


(** Reprojection leaves a mark on every geometry, so that one can tell
    which table was drawn. *)
Definition stamp (crs : string) (r : gmap string cell) : gmap string cell :=
  match r !! "geometry" with
  | Some (Shape wkt) => <["geometry" := Shape (wkt +:+ " in " +:+ crs)]> r
  | _ => r
  end.

Definition libraries (csv : DataFrame)
    (project : DataFrame → string → exn + DataFrame) : Externals :=
  {| os_sep := "/";
     read_csv := λ _, inr csv;
     get_path := λ name, inr name;
     read_file := λ path,
       inr (if decide (path = "naturalearth_lowres") then natural_earth
            else countries_map);
     to_crs := project;
     mc_fit := λ s,
       match s with
       | StdMean _ => inr [(1 # 1)%Q; (2 # 1)%Q; (3 # 1)%Q; (4 # 1)%Q; (5 # 1)%Q]
       | Quantiles _ k | EqualInterval _ k | NaturalBreaks _ k =>
           inr (replicate (Z.to_nat k) (1 # 1)%Q)
       end;
     (* [classifier(y=values)]: the call hands its positional arguments,
        of which there is none, to [find_bin] *)
     mc_call := λ _ _, inl TypeError;
     get_cmap := λ name lut, inr (mkCmap name lut);
     top_labels := λ _ _ _ _ _, inr [];
     savefig := λ _ _, None;
     (* pandas 3: a missing entry stays missing *)
     str_of_na := None;
     figure_error := λ _ _ dpi,
       if decide (dpi ≤ 0) then Some (ValueError "dpi must be positive")
       else None;
     (* the colorbar does not take the keywords [loc], [title], [fmt] *)
     plot_error := λ _ _ legend,
       match legend with Some _ => Some TypeError | None => None end |}.

Definition projecting : DataFrame → string → exn + DataFrame :=
  λ df crs, inr (mkFrame (columns df) (stamp crs <$> rows df)).

(** A reprojection that knows EPSG codes only. *)
Definition epsg_only : DataFrame → string → exn + DataFrame :=
  λ df crs,
    if PyStr.startswith crs "EPSG:" then projecting df crs
    else inl (LibraryError "Invalid projection").

Definition no_crs : DataFrame → string → exn + DataFrame :=
  λ _ _, inl (LibraryError "Cannot transform naive geometries").

Definition fresh (df : DataFrame) : Machine := mkMachine df [].
Definition nothing : DataFrame := mkFrame [] [].

(** The result of a run that ended normally, and of a call that did not
    raise (the other argument stands in otherwise). *)
Definition returned {A} (otherwise : A) (r : Result A) : A :=
  match r with Done a => a | _ => otherwise end.
Definition given {A} (otherwise : A) (x : exn + A) : A :=
  match x with inr a => a | inl _ => otherwise end.

(** Further tables: a geometry table without names, a value table whose
    values are all missing, one whose value column is called [score]. *)
Definition nameless_earth : DataFrame :=
  mkFrame ["iso_a3"; "geometry"]
    [ list_to_map [("iso_a3", Text "FJI"); ("geometry", Shape "POLYGON(fiji)")] ].

Definition null_csv : DataFrame :=
  mkFrame ["iso_a3"; "value"]
    [ entry "iso_a3" "FRA" NA; entry "iso_a3" "DEU" NA ].

Definition score_csv : DataFrame :=
  mkFrame ["sov_a3"; "score"]
    [ list_to_map [("sov_a3", Text "DEU"); ("score", Num 4)] ].

(** The libraries [E] with one of them replaced. *)
Definition with_read_file (E : Externals) (geo : string → exn + DataFrame)
  : Externals :=
  {| os_sep := @os_sep E; read_csv := @read_csv E;
     get_path := @get_path E; read_file := geo;
     to_crs := @to_crs E; mc_fit := @mc_fit E; mc_call := @mc_call E;
     get_cmap := @get_cmap E; top_labels := @top_labels E;
     savefig := @savefig E; str_of_na := @str_of_na E;
     figure_error := @figure_error E; plot_error := @plot_error E |}.

Definition with_top_labels (E : Externals)
    (labels : DataFrame → Z → string → string → string
              → exn + list (Q * Q * string)) : Externals :=
  {| os_sep := @os_sep E; read_csv := @read_csv E;
     get_path := @get_path E; read_file := @read_file E;
     to_crs := @to_crs E; mc_fit := @mc_fit E; mc_call := @mc_call E;
     get_cmap := @get_cmap E; top_labels := labels;
     savefig := @savefig E; str_of_na := @str_of_na E;
     figure_error := @figure_error E; plot_error := @plot_error E |}.

Definition with_savefig (E : Externals) (save : string → Z → option exn)
  : Externals :=
  {| os_sep := @os_sep E; read_csv := @read_csv E;
     get_path := @get_path E; read_file := @read_file E;
     to_crs := @to_crs E; mc_fit := @mc_fit E; mc_call := @mc_call E;
     get_cmap := @get_cmap E; top_labels := @top_labels E;
     savefig := save; str_of_na := @str_of_na E;
     figure_error := @figure_error E; plot_error := @plot_error E |}.

Definition with_get_path (E : Externals) (locate : string → exn + string)
  : Externals :=
  {| os_sep := @os_sep E; read_csv := @read_csv E;
     get_path := locate; read_file := @read_file E;
     to_crs := @to_crs E; mc_fit := @mc_fit E; mc_call := @mc_call E;
     get_cmap := @get_cmap E; top_labels := @top_labels E;
     savefig := @savefig E; str_of_na := @str_of_na E;
     figure_error := @figure_error E; plot_error := @plot_error E |}.

Definition with_str_of_na (E : Externals) (na : option string) : Externals :=
  {| os_sep := @os_sep E; read_csv := @read_csv E;
     get_path := @get_path E; read_file := @read_file E;
     to_crs := @to_crs E; mc_fit := @mc_fit E; mc_call := @mc_call E;
     get_cmap := @get_cmap E; top_labels := @top_labels E;
     savefig := @savefig E; str_of_na := na;
     figure_error := @figure_error E; plot_error := @plot_error E |}.

(** Value tables in which one code is missing, next to a code that no
    geometry carries. *)
Definition gappy_csv : DataFrame :=
  mkFrame ["iso_a3"; "value"]
    [ entry "iso_a3" "DEU" (Num 4);
      list_to_map [("iso_a3", NA); ("value", Num 7)];
      entry "iso_a3" "XXX" (Num 5) ].

Definition gappy_pain_csv : DataFrame :=
  mkFrame ["sov_a3"; "value"]
    [ entry "sov_a3" "DEU" (Num 4);
      list_to_map [("sov_a3", NA); ("value", Num 7)];
      entry "sov_a3" "XXX" (Num 5) ].

(** Libraries that work, and libraries whose reprojection always raises
    or goes through for EPSG codes only. *)
Definition friendly : Externals := libraries values_csv projecting.
Definition stuck : Externals := libraries values_csv no_crs.
Definition wary : Externals := libraries values_csv epsg_only.
Definition gappy : Externals := libraries gappy_csv projecting.

(** Libraries without the data set [naturalearth_lowres]. *)
Definition offline : Externals :=
  with_get_path friendly
    (λ name, inl (ValueError "No matching item found for the query")).

(** The same with a pandas before version 3. *)
Definition pandas2 (E : Externals) : Externals :=
  with_str_of_na E (Some "nan").





Definition plain_args : ColorWorldMap.Args :=
  ColorWorldMap.default_args "values.csv" "map.png".

(** A missing CSV file, a read-only output directory, a geometry file
    without names, and label placement that works or raises. *)
Definition unreadable : Externals :=
  with_read_csv friendly (λ _, inl (LibraryError "No such file or directory")).
Definition read_only : Externals :=
  with_savefig friendly (λ _ _, Some (LibraryError "Permission denied")).
Definition nameless : Externals :=
  with_read_file friendly (λ _, inr nameless_earth).
Definition labelling : Externals :=
  with_top_labels friendly
    (λ _ _ _ _ _, inr [((0 # 1)%Q, (0 # 1)%Q, "Germany (6.00)");
                       ((1 # 1)%Q, (2 # 1)%Q, "France (3.00)")]).
Definition mislabelling : Externals :=
  with_top_labels friendly (λ _ _ _ _ _, inl (KeyError "name")).

(** The defaults with a title, a legend and labels asked for. *)
Definition decorated (title : option string) (legend : bool) (topn : Z)
  : ColorWorldMap.Args :=
  let a := plain_args in
  ColorWorldMap.mkArgs (ColorWorldMap.data a) (ColorWorldMap.out a)
    (ColorWorldMap.code_col a) (ColorWorldMap.value_col a)
    (ColorWorldMap.name_col a) title
    (ColorWorldMap.cmap a) (ColorWorldMap.missing_color a)
    (ColorWorldMap.edge_color a) (ColorWorldMap.edge_width a)
    (ColorWorldMap.projection a) (ColorWorldMap.dpi a)
    (ColorWorldMap.width a) (ColorWorldMap.height a)
    (ColorWorldMap.scheme a) (ColorWorldMap.k a)
    legend (ColorWorldMap.legend_title a)
    topn (ColorWorldMap.format_values a).

(** The defaults with another value column; a geometry table and a value
    table that both carry the column [pop_est]. *)
Definition with_value_col (value_col : string) : ColorWorldMap.Args :=
  let a := plain_args in
  ColorWorldMap.mkArgs (ColorWorldMap.data a) (ColorWorldMap.out a)
    (ColorWorldMap.code_col a) value_col
    (ColorWorldMap.name_col a) (ColorWorldMap.title a)
    (ColorWorldMap.cmap a) (ColorWorldMap.missing_color a)
    (ColorWorldMap.edge_color a) (ColorWorldMap.edge_width a)
    (ColorWorldMap.projection a) (ColorWorldMap.dpi a)
    (ColorWorldMap.width a) (ColorWorldMap.height a)
    (ColorWorldMap.scheme a) (ColorWorldMap.k a)
    (ColorWorldMap.legend a) (ColorWorldMap.legend_title a)
    (ColorWorldMap.label_topn a) (ColorWorldMap.format_values a).

(** The defaults with [--name-col]. *)
Definition with_name_col (name_col : string) : ColorWorldMap.Args :=
  let a := plain_args in
  ColorWorldMap.mkArgs (ColorWorldMap.data a) (ColorWorldMap.out a)
    (ColorWorldMap.code_col a) (ColorWorldMap.value_col a)
    (Some name_col) (ColorWorldMap.title a)
    (ColorWorldMap.cmap a) (ColorWorldMap.missing_color a)
    (ColorWorldMap.edge_color a) (ColorWorldMap.edge_width a)
    (ColorWorldMap.projection a) (ColorWorldMap.dpi a)
    (ColorWorldMap.width a) (ColorWorldMap.height a)
    (ColorWorldMap.scheme a) (ColorWorldMap.k a)
    (ColorWorldMap.legend a) (ColorWorldMap.legend_title a)
    (ColorWorldMap.label_topn a) (ColorWorldMap.format_values a).

Definition census_earth : DataFrame :=
  mkFrame ["name"; "iso_a3"; "pop_est"; "geometry"]
    [ list_to_map [("name", Text "Fiji"); ("iso_a3", Text "FJI");
                   ("pop_est", Num 889953); ("geometry", Shape "POLYGON(fiji)")];
      list_to_map [("name", Text "Germany"); ("iso_a3", Text "DEU");
                   ("pop_est", Num 83132799);
                   ("geometry", Shape "POLYGON(germany)")] ].

Definition census_csv : DataFrame :=
  mkFrame ["iso_a3"; "pop_est"]
    [ list_to_map [("iso_a3", Text "DEU"); ("pop_est", Num 84358845)] ].

Definition with_scheme (scheme : string) (k : Z) : ColorWorldMap.Args :=
  let a := plain_args in
  ColorWorldMap.mkArgs (ColorWorldMap.data a) (ColorWorldMap.out a)
    (ColorWorldMap.code_col a) (ColorWorldMap.value_col a)
    (ColorWorldMap.name_col a) (ColorWorldMap.title a)
    (ColorWorldMap.cmap a) (ColorWorldMap.missing_color a)
    (ColorWorldMap.edge_color a) (ColorWorldMap.edge_width a)
    (ColorWorldMap.projection a) (ColorWorldMap.dpi a)
    (ColorWorldMap.width a) (ColorWorldMap.height a)
    (Some scheme) k
    (ColorWorldMap.legend a) (ColorWorldMap.legend_title a)
    (ColorWorldMap.label_topn a) (ColorWorldMap.format_values a).

End Fixture.

(* ===================================================================== *)
(** ** Facts about the string methods *)
(* ===================================================================== *)

Module PyStrFacts.
Import PyStr.

Example upper_fra : PyStr.upper "fra" = "FRA".
Proof. reflexivity. Qed.

Example strip_fra : PyStr.strip "  fr a	 " = "fr a".
Proof. reflexivity. Qed.

Example recase_fra : PyStr.recase [true; false; true] "fRA" = "FRa".
Proof. reflexivity. Qed.

Lemma app_cons a s t : String a s +:+ t = String a (s +:+ t).
Proof. reflexivity. Qed.












Lemma blank_app s t : blank (s +:+ t) = blank s && blank t.
Proof.
  induction s as [|a s IH]; [reflexivity|].
  rewrite ?app_cons. simpl. by rewrite IH, andb_assoc.
Qed.



Lemma lower_char_swapcase a : lower_char (swapcase_char a) = lower_char a.
Proof. destruct a as [[] [] [] [] [] [] [] []]; reflexivity. Qed.

Lemma lower_recase flags s : lower (recase flags s) = lower s.
Proof.
  revert flags. induction s as [|a s IH]; intros [|b flags]; simpl; try reflexivity.
  rewrite IH. destruct b; [by rewrite lower_char_swapcase | reflexivity].
Qed.

Lemma upper_char_idemp a : upper_char (upper_char a) = upper_char a.
Proof. destruct a as [[] [] [] [] [] [] [] []]; reflexivity. Qed.

Lemma isspace_upper_char a : isspace (upper_char a) = isspace a.
Proof. destruct a as [[] [] [] [] [] [] [] []]; reflexivity. Qed.

Lemma upper_idemp s : upper (upper s) = upper s.
Proof. induction s as [|a s IH]; simpl; [done|]. by rewrite upper_char_idemp, IH. Qed.

Lemma upper_lstrip s : upper (lstrip s) = lstrip (upper s).
Proof.
  induction s as [|a s IH]; simpl; [done|].
  rewrite isspace_upper_char. by destruct (isspace a).
Qed.

Lemma upper_rstrip s : upper (rstrip s) = rstrip (upper s).
Proof.
  induction s as [|a s IH]; simpl; [done|].
  rewrite <- IH, isspace_upper_char.
  destruct (rstrip s) as [|b t]; simpl; [by destruct (isspace a)|done].
Qed.

Lemma upper_strip s : upper (strip s) = strip (upper s).
Proof. unfold strip. by rewrite upper_rstrip, upper_lstrip. Qed.

(** A string that does not begin with whitespace. *)
Lemma lstrip_fixed s : lstrip (lstrip s) = lstrip s.
Proof.
  induction s as [|a s IH]; simpl; [done|].
  destruct (isspace a) eqn:Ha; [done|]. simpl. by rewrite Ha.
Qed.

Lemma rstrip_fixed s : rstrip (rstrip s) = rstrip s.
Proof.
  induction s as [|a s IH]; simpl; [done|].
  destruct (rstrip s) as [|b t] eqn:Hs.
  - destruct (isspace a) eqn:Ha; simpl; [done|]. by rewrite Ha.
  - change (rstrip (String a (String b t)))
      with (match rstrip (String b t) with
            | EmptyString => if isspace a then EmptyString else String a EmptyString
            | u => String a u
            end).
    by rewrite IH.
Qed.

Lemma lstrip_rstrip s : lstrip (rstrip (lstrip s)) = rstrip (lstrip s).
Proof.
  induction s as [|a s IH]; simpl; [done|].
  destruct (isspace a) eqn:Ha; [done|].
  simpl. destruct (rstrip s) as [|b t]; rewrite ?Ha; simpl; by rewrite Ha.
Qed.

Lemma strip_idemp s : strip (strip s) = strip s.
Proof. unfold strip. by rewrite lstrip_rstrip, rstrip_fixed. Qed.

(** Cleaning a cleaned code changes nothing. *)
Lemma clean_idemp s : strip (upper (strip (upper s))) = strip (upper s).
Proof. by rewrite upper_strip, upper_idemp, strip_idemp. Qed.






End PyStrFacts.

(* ===================================================================== *)
(** ** Running computations *)
(* ===================================================================== *)

Module RunFacts.
Import Pandas Runtime Steps Vocabulary.

Section run.
Context {A B : Type}.

Lemma run_bind (c : Script A) (k : A → Script B) m :
  (c ≫= k) m =
  match c m with
  | (Done a, m') => k a m'
  | (SysExit code, m') => (SysExit code, m')
  | (Raised e, m') => (Raised e, m')
  end.
Proof. reflexivity. Qed.

Lemma run_bind_done (c : Script A) (k : A → Script B) m a m' :
  c m = (Done a, m') → (c ≫= k) m = k a m'.
Proof. intros Hc. by rewrite run_bind, Hc. Qed.

Lemma run_bind_raised (c : Script A) (k : A → Script B) m e m' :
  c m = (Raised e, m') → (c ≫= k) m = (Raised e, m').
Proof. intros Hc. by rewrite run_bind, Hc. Qed.

Lemma run_bind_exit (c : Script A) (k : A → Script B) m code m' :
  c m = (SysExit code, m') → (c ≫= k) m = (SysExit code, m').
Proof. intros Hc. by rewrite run_bind, Hc. Qed.

(** A run of [c ≫= k] that ends normally went through a normal end of
    [c]. *)
Lemma run_bind_inv (c : Script A) (k : A → Script B) m b m2 :
  (c ≫= k) m = (Done b, m2) →
  ∃ a m1, c m = (Done a, m1) ∧ k a m1 = (Done b, m2).
Proof.
  rewrite run_bind. destruct (c m) as [[a|code|e] m1]; [eauto | done..].
Qed.
End run.

Lemma run_lift_inv {A} (x : exn + A) m a m' :
  lift x m = (Done a, m') → x = inr a ∧ m' = m.
Proof. destruct x; cbv; intros; by simplify_eq. Qed.

(** *** Computations that only append to the log *)
Section emits.
Context {A B : Type} (P : event → Prop).

Lemma emits_ret (a : A) : emits P (mret a : Script A).
Proof. intros m. exists []. by rewrite app_nil_r. Qed.

Lemma emits_raise (e : exn) : emits P (raise e : Script A).
Proof. intros m. exists []. by rewrite app_nil_r. Qed.

Lemma emits_exit code : emits P (sys_exit code : Script A).
Proof. intros m. exists []. by rewrite app_nil_r. Qed.

Lemma emits_lift (x : exn + A) : emits P (lift x).
Proof. destruct x; [apply emits_raise | apply emits_ret]. Qed.

Lemma emits_bind (c : Script A) (k : A → Script B) :
  emits P c → (∀ a, emits P (k a)) → emits P (c ≫= k).
Proof.
  intros Hc Hk m. rewrite run_bind.
  destruct (Hc m) as (t1 & Ht1 & HP1).
  destruct (c m) as [[a|code|e] m1]; simpl in *; [|by eauto..].
  destruct (Hk a m1) as (t2 & Ht2 & HP2).
  exists (t1 ++ t2). split; [|by apply Forall_app].
  by rewrite Ht2, Ht1, app_assoc.
Qed.

Lemma emits_try (c : Script A) (h : exn → Script A) :
  emits P c → (∀ e, emits P (h e)) → emits P (try_except c h).
Proof.
  intros Hc Hh m. unfold try_except.
  destruct (Hc m) as (t1 & Ht1 & HP1).
  destruct (c m) as [[a|code|e] m1]; simpl in *; [by eauto..|].
  destruct (Hh e m1) as (t2 & Ht2 & HP2).
  exists (t1 ++ t2). split; [|by apply Forall_app].
  by rewrite Ht2, Ht1, app_assoc.
Qed.
End emits.

Lemma emits_emit P e : P e → emits P (emit e).
Proof. intros He m. exists [e]. split; [done | by constructor]. Qed.

Lemma emits_get_frame P : emits P get_frame.
Proof. intros m. exists []. by rewrite app_nil_r. Qed.

Lemma emits_set_frame P df : emits P (set_frame df).
Proof. intros m. exists []. by rewrite app_nil_r. Qed.

Lemma emits_when P b c : emits P c → emits P (when b c).
Proof. destruct b; [done | intros _; apply emits_ret]. Qed.

Lemma emits_weaken {A} (P Q : event → Prop) (c : Script A) :
  (∀ e, P e → Q e) → emits P c → emits Q c.
Proof.
  intros HPQ Hc m. destruct (Hc m) as (t & Ht & HP).
  exists t. split; [done | by eapply Forall_impl].
Qed.

(** *** Computations that leave the value table alone *)
Section keeps.
Context {A B : Type}.

Lemma keeps_ret (a : A) : keeps_frame (mret a : Script A).
Proof. done. Qed.
Lemma keeps_raise e : keeps_frame (raise e : Script A).
Proof. done. Qed.
Lemma keeps_lift (x : exn + A) : keeps_frame (lift x).
Proof. by destruct x. Qed.
Lemma keeps_bind (c : Script A) (k : A → Script B) :
  keeps_frame c → (∀ a, keeps_frame (k a)) → keeps_frame (c ≫= k).
Proof.
  intros Hc Hk m. rewrite run_bind. specialize (Hc m).
  destruct (c m) as [[a|code|e] m1]; simpl in *; [|done..].
  by rewrite Hk.
Qed.
End keeps.

Lemma keeps_emit e : keeps_frame (emit e).
Proof. done. Qed.
Lemma keeps_get_frame : keeps_frame get_frame.
Proof. done. Qed.
Lemma keeps_when b c : keeps_frame c → keeps_frame (when b c).
Proof. by destruct b. Qed.

Lemma keeps_exit {A} code : keeps_frame (sys_exit code : Script A).
Proof. done. Qed.

Lemma keeps_try {A} (c : Script A) (h : exn → Script A) :
  keeps_frame c → (∀ e, keeps_frame (h e)) → keeps_frame (try_except c h).
Proof.
  intros Hc Hh m. unfold try_except. specialize (Hc m).
  destruct (c m) as [[a|code|e] m1]; simpl in *; [done..|].
  by rewrite Hh.
Qed.

(** *** Computations and the status they exit with *)
Section exits.
Context {A B : Type} (codes : list Z).

Lemma exits_ret (a : A) : exits_only codes (mret a : Script A).
Proof. by intros m code. Qed.

Lemma exits_raise (e : exn) : exits_only codes (raise e : Script A).
Proof. by intros m code. Qed.

Lemma exits_lift (x : exn + A) : exits_only codes (lift x).
Proof. destruct x; [apply exits_raise | apply exits_ret]. Qed.

Lemma exits_exit code : code ∈ codes → exits_only codes (sys_exit code : Script A).
Proof. intros Hc m code' [= <-]. done. Qed.

Lemma exits_bind (c : Script A) (k : A → Script B) :
  exits_only codes c → (∀ a, exits_only codes (k a)) →
  exits_only codes (c ≫= k).
Proof.
  intros Hc Hk m code. rewrite run_bind. specialize (Hc m).
  destruct (c m) as [[a|code'|e] m1]; simpl in *; [apply Hk| |done].
  intros [= <-]. by apply Hc.
Qed.

Lemma exits_try (c : Script A) (h : exn → Script A) :
  exits_only codes c → (∀ e, exits_only codes (h e)) →
  exits_only codes (try_except c h).
Proof.
  intros Hc Hh m code. unfold try_except. specialize (Hc m).
  destruct (c m) as [[a|code'|e] m1]; simpl in *; [done|apply Hc|apply Hh].
Qed.
End exits.

Lemma exits_emit codes e : exits_only codes (emit e).
Proof. by intros m code. Qed.
Lemma exits_get_frame codes : exits_only codes get_frame.
Proof. by intros m code. Qed.
Lemma exits_set_frame codes df : exits_only codes (set_frame df).
Proof. by intros m code. Qed.
Lemma exits_when codes b c : exits_only codes c → exits_only codes (when b c).
Proof. destruct b; [done | intros _; apply exits_ret]. Qed.

(** A run that appends the list [t] to the log, one event at a time. *)
Lemma logged_logged m t u : logged (logged m t) u = logged m (t ++ u).
Proof. unfold logged. simpl. by rewrite app_assoc. Qed.

Lemma logged_nil m : logged m [] = m.
Proof. unfold logged. rewrite app_nil_r. by destruct m. Qed.

Lemma emit_logged e m : emit e m = (Done (), logged m [e]).
Proof. reflexivity. Qed.

End RunFacts.

Create HintDb keeps discriminated.
#[export] Hint Resolve RunFacts.keeps_ret RunFacts.keeps_raise
  RunFacts.keeps_lift RunFacts.keeps_bind RunFacts.keeps_emit
  RunFacts.keeps_get_frame RunFacts.keeps_when : keeps.

(* ===================================================================== *)
(** ** Facts about tables *)
(* ===================================================================== *)

Module PandasFacts.
Import Pandas Runtime Steps Vocabulary.

Lemma getitem_inr df c :
  c ∈ columns df → getitem df c = inr ((λ r, r !!! c) <$> rows df).
Proof. intros Hc. unfold getitem. by rewrite decide_True. Qed.

Lemma getitem_inv df c s :
  getitem df c = inr s → c ∈ columns df ∧ s = (λ r, r !!! c) <$> rows df.
Proof. unfold getitem. case_decide; intros; by simplify_eq. Qed.

Lemma clean_series `{Externals} s :
  str_strip (str_upper (astype_str str_of_na s)) = clean_code <$> s.
Proof.
  unfold str_strip, str_upper, str_method, astype_str.
  rewrite <- !list_fmap_compose. apply list_fmap_ext. intros i v _. simpl.
  unfold clean_code. by destruct (astype_str_cell str_of_na v).
Qed.


Lemma clean_codes_run `{Externals} c m :
  c ∈ columns (frame m) →
  clean_codes c m = (Done (), mkMachine (cleaned c (frame m)) (log m)).
Proof.
  intros Hc. unfold clean_codes.
  rewrite RunFacts.run_bind. cbn [get_frame].
  rewrite RunFacts.run_bind, (getitem_inr _ _ Hc). cbn [lift mret script_ret].
  rewrite RunFacts.run_bind, clean_series.
  unfold setitem. rewrite decide_True by by rewrite !length_fmap.
  rewrite decide_True by done. cbn [lift mret script_ret set_frame].
  unfold cleaned. do 2 f_equal.
  rewrite !zip_with_fmap_r, zip_with_diag. reflexivity.
Qed.



(** *** [select] *)

Lemma select_inv df labels right :
  select df labels = inr right →
  columns right = labels ∧
  rows right = restrict labels <$> rows df ∧
  (∀ c, c ∈ labels → c ∈ columns df).
Proof.
  unfold select, first_missing.
  destruct (filter _ labels) as [|c0 rest] eqn:Hf; simpl; [|done].
  intros [= <-]. simpl. repeat split.
  intros c Hc. destruct (decide (c ∈ columns df)) as [|Hn]; [done|].
  assert (c ∈ filter (λ c, c ∉ columns df) labels) as Hin
    by by apply list_elem_of_filter.
  rewrite Hf in Hin. by apply elem_of_nil in Hin.
Qed.

Lemma select_columns_only df df' labels right :
  columns df' = columns df → select df labels = inr right →
  select df' labels = inr (mkFrame labels (restrict labels <$> rows df')).
Proof.
  unfold select, first_missing. intros ->.
  by destruct (filter _ labels).
Qed.

Lemma restrict_lookup (labels : list string) (r : gmap string cell) c :
  c ∈ labels → restrict labels r !!! c = r !!! c.
Proof.
  intros Hc. unfold restrict. rewrite !lookup_total_alt. f_equal.
  rewrite map_lookup_filter. destruct (r !! c) as [v|]; simpl; [|done].
  by rewrite option_guard_True.
Qed.

(** *** [merge] *)

Lemma relabel_lookup f cols (r : gmap string cell) c :
  NoDup (f <$> cols) → c ∈ cols → relabel f cols r !! f c = Some (r !!! c).
Proof.
  intros Hnd Hc. unfold relabel. apply elem_of_list_to_map_1.
  - by rewrite <- list_fmap_compose.
  - apply list_elem_of_fmap. by exists c.
Qed.

Lemma relabel_lookup_None f cols (r : gmap string cell) x :
  x ∉ f <$> cols → relabel f cols r !! x = None.
Proof.
  intros Hx. unfold relabel. apply not_elem_of_list_to_map_1.
  by rewrite <- list_fmap_compose.
Qed.

Lemma nulls_lookup cols c : c ∈ cols → nulls cols !! c = Some NA.
Proof.
  intros Hc. unfold nulls.
  destruct (list_to_map _ !! c) as [v|] eqn:Hv.
  - apply elem_of_list_to_map_2, list_elem_of_fmap in Hv as (c' & [= -> ->] & _).
    done.
  - apply not_elem_of_list_to_map_2 in Hv. rewrite <- list_fmap_compose in Hv.
    destruct Hv. apply list_elem_of_fmap. by exists c.
Qed.

Section label_facts.
Variables (lcols rcols : list string) (left_on right_on : string).
Hypothesis labels_distinct :
  NoDup (merged_columns lcols rcols left_on right_on).

Lemma joined_left g r c :
  c ∈ lcols → joined lcols rcols left_on right_on g r !! left_label lcols rcols left_on right_on c = Some (g !!! c).
Proof.
  intros Hc. unfold joined. apply lookup_union_Some_l, relabel_lookup; [|done].
  by apply NoDup_app in labels_distinct as (? & _ & _).
Qed.

Lemma unjoined_left g c :
  c ∈ lcols → unjoined lcols rcols left_on right_on g !! left_label lcols rcols left_on right_on c = Some (g !!! c).
Proof.
  intros Hc. unfold unjoined. apply lookup_union_Some_l, relabel_lookup; [|done].
  by apply NoDup_app in labels_distinct as (? & _ & _).
Qed.

Lemma right_label_fresh c :
  c ∈ right_columns rcols left_on right_on → right_label lcols rcols left_on right_on c
    ∉ left_label lcols rcols left_on right_on <$> lcols.
Proof.
  intros Hc Hin.
  apply NoDup_app in labels_distinct as (_ & Hdisj & _).
  apply (Hdisj _ Hin). by apply list_elem_of_fmap_2.
Qed.

Lemma joined_right g r c :
  c ∈ right_columns rcols left_on right_on →
  joined lcols rcols left_on right_on g r !! right_label lcols rcols left_on right_on c = Some (r !!! c).
Proof.
  intros Hc. unfold joined.
  rewrite lookup_union_r by by apply relabel_lookup_None, right_label_fresh.
  apply relabel_lookup; [|done].
  by apply NoDup_app in labels_distinct as (_ & _ & ?).
Qed.

Lemma unjoined_right g c :
  c ∈ right_columns rcols left_on right_on →
  unjoined lcols rcols left_on right_on g !! right_label lcols rcols left_on right_on c = Some NA.
Proof.
  intros Hc. unfold unjoined.
  rewrite lookup_union_r by by apply relabel_lookup_None, right_label_fresh.
  by apply nulls_lookup, list_elem_of_fmap_2.
Qed.

(** Only the columns named by [labels] of a right row reach the join. *)
Lemma joined_restrict g r :
  joined lcols rcols left_on right_on g (restrict rcols r)
  = joined lcols rcols left_on right_on g r.
Proof.
  unfold joined, relabel. do 2 f_equal.
  apply list_fmap_ext. intros i c Hc. f_equal.
  apply restrict_lookup. apply list_elem_of_lookup_2 in Hc.
  unfold right_columns in Hc. case_decide; [|done].
  by apply list_elem_of_filter in Hc as [_ ?].
Qed.
End label_facts.

Lemma merge_inv left right left_on right_on merged :
  merge left right left_on right_on = inr merged →
  left_on ∈ columns left ∧ right_on ∈ columns right ∧ NoDup (columns right) ∧
  NoDup (merged_columns (columns left) (columns right) left_on right_on) ∧
  columns merged = merged_columns (columns left) (columns right) left_on right_on ∧
  rows merged = rows left ≫= merge_rows left right left_on right_on.
Proof.
  unfold merge. cbv zeta. repeat case_decide; try done.
  intros [= <-]. done.
Qed.

(** Whether a merge goes through is a matter of labels, not of rows. *)
Lemma merge_columns_only left right left_on right_on merged rows' :
  merge left right left_on right_on = inr merged →
  merge left (mkFrame (columns right) rows') left_on right_on
  = inr (mkFrame (columns merged)
           (rows left ≫=
              merge_rows left (mkFrame (columns right) rows') left_on right_on)).
Proof.
  intros (Hl & Hr & Hnd & Hnd' & -> & _)%merge_inv.
  unfold merge. cbv zeta. simpl. by rewrite !decide_True.
Qed.

Lemma merge_rows_cases left right left_on right_on g m :
  m ∈ merge_rows left right left_on right_on g →
  (m = unjoined (columns left) (columns right) left_on right_on g ∧
     Forall (λ r, g !!! left_on ≠ r !!! right_on) (rows right))
  ∨ (∃ r, r ∈ rows right ∧ g !!! left_on = r !!! right_on ∧
       m = joined (columns left) (columns right) left_on right_on g r).
Proof.
  unfold merge_rows, matches.
  destruct (filter _ (rows right)) as [|r0 ms] eqn:Hf.
  - intros ->%list_elem_of_singleton. left. split; [done|].
    apply Forall_forall. intros r Hr Heq.
    assert (r ∈ filter (λ r, g !!! left_on = r !!! right_on) (rows right)) as Hin
      by by apply list_elem_of_filter.
    rewrite Hf in Hin. by apply elem_of_nil in Hin.
  - rewrite <- Hf. intros (r & -> & [Hk Hr]%list_elem_of_filter)%list_elem_of_fmap.
    right. eauto.
Qed.

Lemma merge_rows_nonempty left right left_on right_on g :
  ∃ m, m ∈ merge_rows left right left_on right_on g ∧
    (m = unjoined (columns left) (columns right) left_on right_on g ∨
     ∃ r, m = joined (columns left) (columns right) left_on right_on g r).
Proof.
  unfold merge_rows. destruct (matches _ _ _ g) as [|r ms].
  - eexists. split; [apply list_elem_of_here | by left].
  - eexists. split; [apply list_elem_of_here | right; by eexists].
Qed.

(** The merge of the scripts: the right table is a selection of columns
    of the value table. *)
Lemma merge_left_join world df labels right key code_col value_col merged :
  select df labels = inr right →
  merge world right key code_col = inr merged →
  code_col ∈ labels → value_col ∈ labels → code_col ≠ value_col →
  left_join world df labels key code_col value_col merged.
Proof.
  intros (Hcols & Hrows & Hsub)%select_inv
         (Hkey & _ & _ & Hnd & _ & Hmrows)%merge_inv Hcode Hvalue Hne.
  rewrite Hcols in *.
  assert (value_col ∈ right_columns labels key code_col) as Hv.
  { unfold right_columns. case_decide; [|done].
    apply list_elem_of_filter. split; [congruence | done]. }
  assert (∀ r, r ∈ rows right →
            ∃ r0, r0 ∈ rows df ∧ r !!! code_col = r0 !!! code_col
                  ∧ r !!! value_col = r0 !!! value_col) as Hback.
  { intros r Hr. rewrite Hrows in Hr.
    apply list_elem_of_fmap in Hr as (r0 & -> & Hr0).
    exists r0. by rewrite !restrict_lookup. }
  assert (∀ r0, r0 ∈ rows df →
            ∃ r, r ∈ rows right ∧ r !!! code_col = r0 !!! code_col) as Hforth.
  { intros r0 Hr0. exists (restrict labels r0).
    split; [rewrite Hrows; by apply list_elem_of_fmap_2 | by apply restrict_lookup]. }
  assert (∀ m, m ∈ rows merged →
       ∃ g, g ∈ rows world ∧
         (∀ c, c ∈ columns world →
            m !! left_label (columns world) labels key code_col c = Some (g !!! c)) ∧
         ((∃ r, r ∈ rows df ∧ r !!! code_col = g !!! key ∧
                m !! right_label (columns world) labels key code_col value_col
                  = Some (r !!! value_col))
          ∨ ((∀ r, r ∈ rows df → r !!! code_col ≠ g !!! key) ∧
             m !! right_label (columns world) labels key code_col value_col
               = Some NA))) as Hall.
  { intros m Hm. rewrite Hmrows in Hm.
    apply list_elem_of_bind in Hm as (g & Hm & Hg).
    exists g. split; [done|].
    apply merge_rows_cases in Hm as [[-> Hnone] | (r & Hr & Heq & ->)].
    - split; [intros c Hc; rewrite <- Hcols; apply unjoined_left; by rewrite ?Hcols|].
      right. split.
      + intros r0 Hr0 Heq. destruct (Hforth r0 Hr0) as (r & Hr & Hrc).
        rewrite Forall_forall in Hnone. apply (Hnone r Hr). congruence.
      + rewrite <- Hcols. apply unjoined_right; by rewrite ?Hcols.
    - split; [intros c Hc; rewrite <- Hcols; apply joined_left; by rewrite ?Hcols|].
      left. destruct (Hback r Hr) as (r0 & Hr0 & Hc0 & Hv0).
      exists r0. split; [done|]. split; [congruence|].
      rewrite <- Hv0, <- Hcols. apply joined_right; by rewrite ?Hcols. }
  split; [|split; [done|]].
  - intros g Hg.
    destruct (merge_rows_nonempty world right key code_col g) as (m & Hm & Hshape).
    exists m. split.
    + rewrite Hmrows. apply list_elem_of_bind. eauto.
    + intros c Hc. rewrite <- Hcols.
      destruct Hshape as [-> | [r ->]];
        [apply unjoined_left | apply joined_left]; by rewrite ?Hcols.
  - intros m Hm Hnone.
    destruct (Hall m Hm) as (g & Hg & Hleft & [(r & Hr & Heq & _) | [_ Hna]]);
      [|done].
    destruct (Hnone r Hr). rewrite Heq.
    by rewrite (lookup_total_correct _ _ _ (Hleft key Hkey)).
Qed.


Lemma pairs_of_row (g : gmap string cell) (rs : list (gmap string cell))
    (key code_col : string) :
  (rs ≫= λ r, if decide (g !!! key = r !!! code_col) then [(g, r)] else [])
  = pair g <$> filter (λ r, g !!! key = r !!! code_col) rs.
Proof.
  induction rs as [|r rs IH]; [done|].
  rewrite bind_cons, filter_cons, IH. by case_decide.
Qed.

Lemma filter_fmap {A B} (f : A → B) (P : B → Prop) `{!∀ y, Decision (P y)}
    (l : list A) :
  filter P (f <$> l) = f <$> filter (λ x, P (f x)) l.
Proof.
  induction l as [|x l IH]; [done|].
  rewrite fmap_cons, !filter_cons, IH. by case_decide.
Qed.

Lemma matches_select df labels key code_col g :
  code_col ∈ labels →
  matches (mkFrame labels (restrict labels <$> rows df)) key code_col g
  = restrict labels <$> filter (λ r, g !!! key = r !!! code_col) (rows df).
Proof.
  intros Hc. unfold matches. simpl. rewrite filter_fmap.
  f_equal. apply list_filter_iff. intros r. simpl.
  by rewrite restrict_lookup.
Qed.

Lemma merge_one_row_per_pair world df labels right key code_col merged :
  select df labels = inr right →
  merge world right key code_col = inr merged →
  code_col ∈ labels →
  one_row_per_pair world df labels key code_col merged.
Proof.
  intros (Hcols & Hrows & _)%select_inv (_ & _ & _ & _ & _ & Hmrows)%merge_inv Hc.
  destruct right as [rc rr]. simpl in *. subst rc rr.
  unfold one_row_per_pair, matching_pairs, partnerless.
  rewrite Hmrows. clear Hmrows.
  induction (rows world) as [|g gs IH]; [done|].
  rewrite !bind_cons, filter_cons, fmap_app, IH, pairs_of_row. clear IH.
  unfold merge_rows at 1. rewrite matches_select by done. simpl.
  destruct (filter (λ r, g !!! key = r !!! code_col) (rows df))
    as [|r0 ms] eqn:Hf.
  - rewrite decide_True.
    + simpl. apply Permutation_middle.
    + apply Forall_forall. intros r Hr Heq.
      assert (r ∈ filter (λ r, g !!! key = r !!! code_col) (rows df)) as Hin
        by by apply list_elem_of_filter.
      rewrite Hf in Hin. by apply elem_of_nil in Hin.
  - rewrite decide_False.
    + assert (∀ l : list (gmap string cell),
        joined (columns world) labels key code_col g <$> (restrict labels <$> l)
        = (λ p, joined (columns world) labels key code_col p.1 p.2)
            <$> (pair g <$> l)) as Hjoin.
      { intros l. rewrite <- !list_fmap_compose.
        apply list_fmap_ext. intros i r _. simpl. apply joined_restrict. }
      rewrite <- Hjoin, <- app_assoc. reflexivity.
    + intros Hall. rewrite Forall_forall in Hall.
      assert (r0 ∈ filter (λ r, g !!! key = r !!! code_col) (rows df)) as Hin
        by (rewrite Hf; apply list_elem_of_here).
      apply list_elem_of_filter in Hin as [Heq Hin]. by apply (Hall r0).
Qed.


Lemma clean_code_idemp `{Externals} v : clean_code (clean_code v) = clean_code v.
Proof.
  unfold clean_code.
  destruct v; simpl; destruct str_of_na; simpl;
    by rewrite ?PyStrFacts.clean_idemp.
Qed.

End PandasFacts.

(* ===================================================================== *)
(** ** Facts about the blocks of the scripts *)
(* ===================================================================== *)

Module BlockFacts.
Import Pandas Runtime Steps Vocabulary PandasFacts RunFacts.

(** Inversion of a run that ended normally, one bind at a time. *)
Tactic Notation "run_inv" hyp(H) "as" ident(a) ident(m) ident(H1) :=
  apply run_bind_inv in H as (a & m & H1 & H).

Lemma emit_run e m : emit e m = (Done (), mkMachine (frame m) (log m ++ [e])).
Proof. reflexivity. Qed.

Lemma load_world_keeps `{Externals} : keeps_frame ColorWorldMap.load_world.
Proof. unfold ColorWorldMap.load_world. auto 20 with keeps. Qed.

Lemma _load_world_keeps `{Externals} path verbose :
  keeps_frame (PainToMap._load_world path verbose).
Proof. unfold PainToMap._load_world, print. auto 20 with keeps. Qed.

Lemma load_data_run `{Externals} args df m :
  read_csv (ColorWorldMap.data args) = inr df →
  ColorWorldMap.code_col args ∈ columns df →
  ColorWorldMap.value_col args ∈ columns df →
  ColorWorldMap.load_data args m
  = (Done (), mkMachine df (log m ++ [ReadCsv (ColorWorldMap.data args)])).
Proof.
  intros Hcsv Hcode Hvalue. unfold ColorWorldMap.load_data.
  rewrite run_bind. unfold try_except. rewrite run_bind, emit_run, Hcsv.
  cbn [lift mret script_ret]. rewrite run_bind. cbn [set_frame log].
  rewrite bool_decide_false; [done|]. intros [?|?]; done.
Qed.

Lemma load_data_inv `{Externals} args m m' :
  ColorWorldMap.load_data args m = (Done (), m') →
  ∃ df, read_csv (ColorWorldMap.data args) = inr df ∧
        ColorWorldMap.code_col args ∈ columns df ∧
        ColorWorldMap.value_col args ∈ columns df ∧
        m' = mkMachine df (log m ++ [ReadCsv (ColorWorldMap.data args)]).
Proof.
  unfold ColorWorldMap.load_data. intros Hrun. run_inv Hrun as df' mr Hread.
  unfold try_except in Hread. rewrite run_bind, emit_run in Hread.
  destruct (read_csv _) as [e|df] eqn:Hcsv; [done|].
  cbn in Hread. injection Hread as <- <-.
  rewrite run_bind in Hrun. cbn [set_frame log] in Hrun.
  case_bool_decide as Hcols; [done|]. injection Hrun as <-.
  exists df. repeat split; try done.
  - destruct (decide (ColorWorldMap.code_col args ∈ columns df)); [done|].
    destruct Hcols. by left.
  - destruct (decide (ColorWorldMap.value_col args ∈ columns df)); [done|].
    destruct Hcols. by right.
Qed.

Lemma cwm_merge_block_inv args world m merged m' :
  ColorWorldMap.merge_block args world m = (Done merged, m') →
  m' = m ∧
  ∃ right, select (frame m) (ColorWorldMap.merge_labels args) = inr right ∧
           merge world right "iso_a3" (ColorWorldMap.code_col args) = inr merged.
Proof.
  unfold ColorWorldMap.merge_block. intros Hrun.
  run_inv Hrun as df ma Hget. injection Hget as <- <-.
  run_inv Hrun as right mb Hsel. apply run_lift_inv in Hsel as [Hsel ->].
  apply run_lift_inv in Hrun as [Hmerge ->]. eauto.
Qed.

Lemma ptm_merge_block_inv vcol ccol world m merged m' :
  PainToMap.merge_block vcol ccol world m = (Done merged, m') →
  m' = m ∧
  ∃ right, select (frame m) [ccol; vcol] = inr right ∧
           merge world right PainToMap.CODE_COLUMN ccol = inr merged.
Proof.
  unfold PainToMap.merge_block. intros Hrun.
  run_inv Hrun as df ma Hget. injection Hget as <- <-.
  run_inv Hrun as right mb Hsel. apply run_lift_inv in Hsel as [Hsel ->].
  apply run_lift_inv in Hrun as [Hmerge ->]. eauto.
Qed.

(** What a normal end of the join stage went through. *)
Lemma cwm_join_stage_inv `{Externals} args m0 merged m1 :
  ColorWorldMap.join_stage args m0 = (Done merged, m1) →
  ∃ df world ma mb,
    read_csv (ColorWorldMap.data args) = inr df ∧
    ColorWorldMap.code_col args ∈ columns df ∧
    ColorWorldMap.value_col args ∈ columns df ∧
    ColorWorldMap.load_world ma = (Done world, mb) ∧
    frame m1 = cleaned (ColorWorldMap.code_col args) df ∧
    ColorWorldMap.merge_block args world m1 = (Done merged, m1).
Proof.
  unfold ColorWorldMap.join_stage. intros Hrun.
  run_inv Hrun as u ma Hload. destruct u.
  apply load_data_inv in Hload as (df & Hcsv & Hcode & Hvalue & ->).
  run_inv Hrun as u mb Hclean. rewrite clean_codes_run in Hclean by done.
  injection Hclean as <- <-.
  run_inv Hrun as world mc Hworld.
  pose proof (load_world_keeps (mkMachine
    (cleaned (ColorWorldMap.code_col args) df)
    (log m0 ++ [ReadCsv (ColorWorldMap.data args)]))) as Hkeep.
  rewrite Hworld in Hkeep. simpl in Hkeep.
  pose proof Hrun as [-> _]%cwm_merge_block_inv.
  exists df, world. do 2 eexists. repeat split; eauto.
Qed.

Lemma clean_codes_inv `{Externals} c m m' :
  clean_codes c m = (Done (), m') →
  c ∈ columns (frame m) ∧ m' = mkMachine (cleaned c (frame m)) (log m).
Proof.
  intros Hrun. assert (c ∈ columns (frame m)) as Hc.
  { unfold clean_codes in Hrun. run_inv Hrun as df ma Hget.
    injection Hget as <- <-. run_inv Hrun as s mb Hitem.
    by apply run_lift_inv in Hitem as [[? _]%getitem_inv _]. }
  split; [done|]. rewrite clean_codes_run in Hrun by done. by injection Hrun.
Qed.

Lemma ptm_join_stage_inv `{Externals} path vcol ccol m0 merged m1 :
  PainToMap.join_stage path vcol ccol m0 = (Done merged, m1) →
  ccol ∈ columns (frame m0) ∧ vcol ∈ columns (frame m0) ∧
  ∃ world ma mb,
    PainToMap._load_world path false ma = (Done world, mb) ∧
    frame m1 = cleaned ccol (frame m0) ∧
    PainToMap.merge_block vcol ccol world m1 = (Done merged, m1).
Proof.
  unfold PainToMap.join_stage. intros Hrun.
  run_inv Hrun as u mb Hclean. destruct u.
  apply clean_codes_inv in Hclean as [Hcode ->].
  run_inv Hrun as world mc Hworld.
  pose proof (_load_world_keeps path false (mkMachine
    (cleaned ccol (frame m0)) (log m0))) as Hkeep.
  rewrite Hworld in Hkeep. simpl in Hkeep.
  pose proof Hrun as [-> (right & (_ & _ & Hsub)%select_inv & _)]%ptm_merge_block_inv.
  split; [done|]. split.
  - rewrite Hkeep in Hsub. apply (Hsub vcol).
    apply list_elem_of_further, list_elem_of_here.
  - exists world. do 2 eexists. repeat split; eauto.
Qed.


Lemma cwm_merge_block_run args world m right merged :
  select (frame m) (ColorWorldMap.merge_labels args) = inr right →
  merge world right "iso_a3" (ColorWorldMap.code_col args) = inr merged →
  ColorWorldMap.merge_block args world m = (Done merged, m).
Proof.
  intros Hsel Hmerge. unfold ColorWorldMap.merge_block.
  rewrite run_bind. cbn [get_frame]. rewrite run_bind, Hsel.
  cbn [lift mret script_ret]. by rewrite Hmerge.
Qed.

Lemma ptm_merge_block_run vcol ccol world m right merged :
  select (frame m) [ccol; vcol] = inr right →
  merge world right PainToMap.CODE_COLUMN ccol = inr merged →
  PainToMap.merge_block vcol ccol world m = (Done merged, m).
Proof.
  intros Hsel Hmerge. unfold PainToMap.merge_block.
  rewrite run_bind. cbn [get_frame]. rewrite run_bind, Hsel.
  cbn [lift mret script_ret]. by rewrite Hmerge.
Qed.

(** A merge that goes through for one value table goes through for any
    table with the same labels, whatever its rows. *)
Lemma merge_any_rows world df labels right key code_col merged rows' :
  select df labels = inr right →
  merge world right key code_col = inr merged →
  ∃ right' merged',
    select (mkFrame (columns df) rows') labels = inr right' ∧
    merge world right' key code_col = inr merged'.
Proof.
  intros Hsel Hmerge.
  pose proof Hsel as (Hcols & _)%select_inv.
  eexists _, _. split.
  - by eapply (select_columns_only df (mkFrame (columns df) rows')).
  - rewrite <- Hcols. by eapply merge_columns_only.
Qed.


(** *** The warning block *)

Lemma keep_valued (rs : list (gmap string cell)) (value key : string) :
  keep (invert (isna ((λ r, r !!! value) <$> rs))) ((λ r, r !!! key) <$> rs)
  = (λ r, r !!! key) <$> filter (λ r, r !!! value ≠ NA) rs.
Proof.
  induction rs as [|r rs IH]; [done|].
  rewrite filter_cons. cbn. unfold isna, invert in IH. rewrite IH.
  case_bool_decide; case_decide; done.
Qed.

Lemma texts_of_is_text l : Forall is_text l → ∃ ss, mapM text_of l = Some ss ∧ l = Text <$> ss.
Proof.
  induction 1 as [|v l Hv _ (ss & Hss & ->)]; [by exists []|].
  destruct v as [|s| |]; try done.
  exists (s :: ss). split; [|done]. cbn. by rewrite Hss.
Qed.

Lemma sorted_texts l :
  Forall is_text l → ∃ l', sorted l = inr l' ∧ l' ≡ₚ l.
Proof.
  intros Htext. destruct l as [|a [|b l]]; [by exists [] | by exists [a] |].
  apply texts_of_is_text in Htext as (ss & Hss & Heq).
  unfold sorted. rewrite Hss, Heq.
  eexists. split; [done|]. by rewrite merge_sort_Permutation.
Qed.

(** Cleaning makes a string of every code that is there; of a missing one
    only where [astype(str)] does. *)
Lemma clean_code_is_text `{Externals} v :
  (str_of_na = None → v ≠ NA) → is_text (clean_code v).
Proof.
  intros Hv. unfold clean_code. destruct v as [|s|z|w]; try done.
  simpl. destruct str_of_na; [done|]. by destruct Hv.
Qed.

Lemma cleaned_codes_text `{Externals} c df :
  codes_present c df →
  Forall is_text ((λ r, r !!! c) <$> rows (cleaned c df)).
Proof.
  intros Hpresent. unfold cleaned. simpl. rewrite <- list_fmap_compose.
  apply Forall_fmap, Forall_forall. intros r Hr. simpl.
  rewrite lookup_total_insert_eq. apply clean_code_is_text.
  intros Hna. specialize (Hpresent Hna). rewrite Forall_forall in Hpresent.
  by apply Hpresent.
Qed.

Lemma warn_unmatched_run merged code_col value_col key key_name m :
  code_col ∈ columns (frame m) →
  Forall is_text ((λ r, r !!! code_col) <$> rows (frame m)) →
  value_col ∈ columns merged → key ∈ columns merged →
  ∃ missing,
    warn_unmatched merged code_col value_col key key_name m
      = (Done (),
         mkMachine (frame m) (log m ++ unmatched_warning key_name missing))
    ∧ NoDup missing
    ∧ ∀ c, c ∈ missing ↔
           provides (frame m) code_col c ∧ ¬ has_value_for merged key value_col c.
Proof.
  intros Hcode Htext Hvalue Hkey.
  set (provided := provided_codes ((λ r, r !!! code_col) <$> rows (frame m))).
  set (matched := matched_codes
         ((λ r, r !!! key) <$> filter (λ r, r !!! value_col ≠ NA) (rows merged))).
  destruct (sorted_texts (list_difference provided matched)) as (missing & Hsorted & Hperm).
  { apply Forall_forall. intros c [Hc _]%list_elem_of_difference.
    unfold provided, provided_codes, unique in Hc.
    rewrite elem_of_remove_dups in Hc. rewrite Forall_forall in Htext.
    by apply Htext. }
  exists missing. split; [|split].
  - unfold warn_unmatched. rewrite run_bind. cbn [get_frame].
    rewrite run_bind, (getitem_inr _ _ Hcode). cbn [lift mret script_ret].
    rewrite run_bind, (getitem_inr _ _ Hvalue). cbn [lift mret script_ret].
    rewrite run_bind. unfold loc_getitem. rewrite (getitem_inr _ _ Hkey).
    cbn [lift mret script_ret]. rewrite keep_valued.
    fold provided matched. rewrite run_bind, Hsorted.
    cbn [lift mret script_ret]. unfold unmatched_warning, when.
    case_bool_decide; case_decide; try done.
    by rewrite app_nil_r; destruct m.
  - rewrite Hperm. apply NoDup_list_difference, NoDup_remove_dups.
  - intros c. rewrite Hperm, list_elem_of_difference.
    unfold provided, matched, provided_codes, matched_codes, unique.
    rewrite !elem_of_remove_dups, !list_elem_of_fmap.
    unfold provides, has_value_for. split.
    + intros [(r & -> & Hr) Hnot]. split; [by exists r|].
      intros (row & Hrow & Heq & Hv). apply Hnot. exists row.
      split; [done|]. by apply list_elem_of_filter.
    + intros [(r & Hr & <-) Hnot]. split; [by exists r|].
      intros (row & Heq & [Hv Hrow]%list_elem_of_filter). apply Hnot.
      by exists row.
Qed.


(** *** The projection block *)

Lemma plate_carree : dict_getitem PROJECTIONS "PlateCarree" = inr "EPSG:4326".
Proof. reflexivity. Qed.

Lemma used_projection : PROJECTIONS !! PainToMap.USED_PROJECTION = Some "EPSG:4326".
Proof. reflexivity. Qed.

Lemma reproject_run `{Externals} merged crs m :
  reproject merged crs m
  = match to_crs merged crs with
    | inr projected => (Done projected, logged m [ToCrs crs])
    | inl e => (Raised e, logged m [ToCrs crs])
    end.
Proof.
  unfold reproject. rewrite run_bind, emit_run. unfold logged.
  by destruct (to_crs merged crs).
Qed.

(** The block, case by case: the first reprojection goes through; it
    raises and the one to PlateCarree goes through; both raise. *)
Lemma try_reproject_run `{Externals} merged crs projection m :
  try_except (reproject merged crs)
    (λ e, warn (ProjectionFallback projection e);;
          fallback ← lift (dict_getitem PROJECTIONS "PlateCarree");
          reproject merged fallback) m
  = match to_crs merged crs with
    | inr projected => (Done projected, logged m [ToCrs crs])
    | inl e =>
        match to_crs merged "EPSG:4326" with
        | inr projected =>
            (Done projected, logged m (fallback_trail crs projection e))
        | inl e' => (Raised e', logged m (fallback_trail crs projection e))
        end
    end.
Proof.
  unfold try_except. rewrite reproject_run.
  destruct (to_crs merged crs) as [e|projected]; [|done].
  rewrite run_bind. unfold warn. rewrite emit_run.
  rewrite run_bind, plate_carree. cbn [lift mret script_ret].
  rewrite reproject_run. unfold logged, fallback_trail. cbn [frame log].
  rewrite <- !app_assoc. by destruct (to_crs merged "EPSG:4326").
Qed.

Lemma cwm_projection_block_run `{Externals} args merged m :
  ColorWorldMap.projection_block args merged m
  = let crs := selected_crs (ColorWorldMap.projection args) in
    match to_crs merged crs with
    | inr projected => (Done projected, logged m [ToCrs crs])
    | inl e =>
        let trail := fallback_trail crs (ColorWorldMap.projection args) e in
        match to_crs merged "EPSG:4326" with
        | inr projected => (Done projected, logged m trail)
        | inl e' => (Raised e', logged m trail)
        end
    end.
Proof. apply try_reproject_run. Qed.

Lemma ptm_projection_block_run `{Externals} merged m :
  PainToMap.projection_block merged m
  = match to_crs merged "EPSG:4326" with
    | inr projected => (Done projected, logged m [ToCrs "EPSG:4326"])
    | inl e =>
        (Raised e,
         logged m (fallback_trail "EPSG:4326" PainToMap.USED_PROJECTION e))
    end.
Proof.
  unfold PainToMap.projection_block. rewrite used_projection.
  rewrite try_reproject_run. by destruct (to_crs merged "EPSG:4326").
Qed.

(** *** Nothing is drawn before the projection *)

Ltac emits_step :=
  first
    [ apply emits_bind; [|intros ?]
    | apply emits_try; [|intros ?]
    | apply emits_lift
    | apply emits_ret
    | apply emits_exit
    | apply emits_raise
    | apply emits_get_frame
    | apply emits_set_frame
    | apply emits_when
    | apply emits_emit; by intros [] ].

Lemma clean_codes_draws_nothing `{Externals} c :
  emits (λ e, ¬ is_plot e) (clean_codes c).
Proof. unfold clean_codes. repeat emits_step. Qed.

Lemma warn_unmatched_draws_nothing merged code_col value_col key key_name :
  emits (λ e, ¬ is_plot e)
    (warn_unmatched merged code_col value_col key key_name).
Proof. unfold warn_unmatched, warn. repeat emits_step. Qed.

Lemma cwm_join_stage_draws_nothing `{Externals} args :
  emits (λ e, ¬ is_plot e) (ColorWorldMap.join_stage args).
Proof.
  unfold ColorWorldMap.join_stage, ColorWorldMap.load_data,
    ColorWorldMap.load_world, ColorWorldMap.merge_block, eprint.
  repeat emits_step; try apply clean_codes_draws_nothing.
Qed.

Lemma ptm_join_stage_draws_nothing `{Externals} path vcol ccol :
  emits (λ e, ¬ is_plot e) (PainToMap.join_stage path vcol ccol).
Proof.
  unfold PainToMap.join_stage, PainToMap._load_world,
    PainToMap.merge_block, print.
  repeat emits_step; try apply clean_codes_draws_nothing.
Qed.


(** *** The classification block *)

Lemma construct_inv `{Externals} s m r m' :
  ColorWorldMap.construct s m = (Done r, m') →
  ∃ b, mc_fit s = inr b ∧ r = Some (mkClassifier s b) ∧ m' = m.
Proof.
  unfold ColorWorldMap.construct. intros Hrun.
  run_inv Hrun as b mb Hfit. apply run_lift_inv in Hfit as [Hfit ->].
  injection Hrun as <- <-. eauto.
Qed.

Ltac scheme_cases Hname :=
  unfold ColorWorldMap.classify_values; cbv zeta;
  match type of Hname with
  | ?name ∈ _ =>
      let x := fresh "name" in
      generalize dependent name; intros x Hname
  end;
  repeat (apply elem_of_cons in Hname as [-> | Hname]; [reflexivity|]);
  by apply elem_of_nil in Hname.

(** Which classifier each scheme name builds; case does not matter. *)
Lemma classify_quantiles `{Externals} y scheme k :
  PyStr.lower (default EmptyString scheme) ∈ ["quantiles"; "quantile"; "q"] →
  ColorWorldMap.classify_values y scheme k
  = ColorWorldMap.construct (Quantiles y k).
Proof. intros Hname. scheme_cases Hname. Qed.

Lemma classify_equal_interval `{Externals} y scheme k :
  PyStr.lower (default EmptyString scheme)
    ∈ ["equal_interval"; "equalinterval"; "equal"; "ei"] →
  ColorWorldMap.classify_values y scheme k
  = ColorWorldMap.construct (EqualInterval y k).
Proof. intros Hname. scheme_cases Hname. Qed.

Lemma classify_natural_breaks `{Externals} y scheme k :
  PyStr.lower (default EmptyString scheme) ∈ ["natural_breaks"; "jenks"; "nb"] →
  ColorWorldMap.classify_values y scheme k
  = ColorWorldMap.construct (NaturalBreaks y k).
Proof. intros Hname. scheme_cases Hname. Qed.

Lemma classify_std_mean `{Externals} y scheme k :
  PyStr.lower (default EmptyString scheme) ∈ ["std_mean"; "std"; "zscore"] →
  ColorWorldMap.classify_values y scheme k
  = ColorWorldMap.construct (StdMean y).
Proof. intros Hname. scheme_cases Hname. Qed.

(** The block with a scheme, once the classifier is chosen. *)
Lemma classification_block_run `{Externals} args merged values s m :
  truthy (ColorWorldMap.scheme args) = true →
  getitem merged (ColorWorldMap.value_col args) = inr values →
  dropna values ≠ [] →
  ColorWorldMap.classify_values (dropna values) (ColorWorldMap.scheme args)
    (ColorWorldMap.k args)
  = ColorWorldMap.construct s →
  ColorWorldMap.classification_block args merged m
  = cwm_classes_outcome args merged values s m.
Proof.
  intros Hscheme Hvalues Hvalid Hclass.
  unfold ColorWorldMap.classification_block, cwm_classes_outcome.
  rewrite run_bind, Hvalues. cbn [lift mret script_ret]. rewrite Hscheme.
  case_decide as Hlen.
  { by apply length_zero_iff_nil in Hlen. }
  rewrite Hclass. unfold ColorWorldMap.construct.
  rewrite !run_bind. destruct (mc_fit s) as [e|b]; [reflexivity|].
  cbn [lift mret script_ret bins]. rewrite !run_bind.
  cbn [lift mret script_ret bins].
  destruct (get_cmap _ _) as [e|cm]; [reflexivity|].
  cbn [lift mret script_ret]. rewrite run_bind.
  destruct (mc_call _ _) as [e|classes]; [reflexivity|].
  cbn [lift mret script_ret]. rewrite run_bind.
  cbn [lift mret script_ret]. rewrite run_bind.
  by destruct (setitem _ _ _).
Qed.

(** What a normal end of the block with a scheme went through. *)
Lemma classification_block_inv `{Externals} args merged m cmap merged2 col m2 :
  truthy (ColorWorldMap.scheme args) = true →
  ColorWorldMap.classification_block args merged m
  = (Done (cmap, merged2, col), m2) →
  ∃ values c classes,
    getitem merged (ColorWorldMap.value_col args) = inr values ∧
    dropna values ≠ [] ∧
    ColorWorldMap.classify_values (dropna values) (ColorWorldMap.scheme args)
      (ColorWorldMap.k args) m = (Done (Some c), m) ∧
    get_cmap (ColorWorldMap.cmap args) (Some (length (bins c))) = inr cmap ∧
    mc_call c values = inr classes ∧
    setitem merged "_class" classes = inr merged2 ∧
    col = "_class" ∧ m2 = m.
Proof.
  intros Hscheme. unfold ColorWorldMap.classification_block. intros Hrun.
  run_inv Hrun as values ma Hvalues. apply run_lift_inv in Hvalues as [Hvalues ->].
  rewrite Hscheme in Hrun. case_decide as Hlen.
  { rewrite run_bind in Hrun. by cbn in Hrun. }
  run_inv Hrun as classifier mb Hclass.
  assert (mb = m) as ->.
  { unfold ColorWorldMap.classify_values in Hclass. cbv zeta in Hclass.
    repeat case_decide;
      try (by apply construct_inv in Hclass as (? & _ & _ & ->)).
    by injection Hclass. }
  run_inv Hrun as bs mc Hbins.
  destruct classifier as [c|]; [|done]. injection Hbins as <- <-.
  run_inv Hrun as cm md Hcmap. apply run_lift_inv in Hcmap as [Hcmap ->].
  run_inv Hrun as classes me Hcall. apply run_lift_inv in Hcall as [Hcall ->].
  run_inv Hrun as merged3 mf Hset. apply run_lift_inv in Hset as [Hset ->].
  injection Hrun as <- <- <- <-.
  exists values, c, classes. repeat split; try done.
  intros Hnil. by rewrite Hnil in Hlen.
Qed.


(** *** The loaders *)

Lemma loc_setitem_existing df (name target : string) (v x : cell) :
  target ∈ columns df →
  loc_setitem df (eq_mask ((λ r, r !!! name) <$> rows df) v) target x
  = mkFrame (columns df)
      ((λ r, if decide (r !!! name = v) then <[target := x]> r else r)
         <$> rows df).
Proof.
  intros Ht. unfold loc_setitem, eq_mask. rewrite decide_True by done.
  f_equal. rewrite !zip_with_fmap_r, zip_with_diag.
  apply list_fmap_ext. intros i r _. simpl.
  by case_bool_decide; case_decide.
Qed.

(** color_world_map.py: the loader returns the table it read, with the
    [iso_a3] of the rows named France, Norway and Somaliland set to FRA,
    NOR and SOL; [iso_a3] is the key of the merge. *)
Lemma load_world_corrects_three_codes `{Externals} path raw m :
  get_path "naturalearth_lowres" = inr path →
  read_file path = inr raw →
  "name" ∈ columns raw → "iso_a3" ∈ columns raw →
  ColorWorldMap.load_world m
  = (Done (mkFrame (columns raw) (corrected "name" "iso_a3" <$> rows raw)),
     logged m [ReadFile path]).
Proof.
  intros Hpath Hraw Hname Hcode. unfold ColorWorldMap.load_world.
  rewrite run_bind, Hpath. cbn [lift mret script_ret].
  rewrite run_bind, emit_run, run_bind, Hraw. cbn [lift mret script_ret].
  rewrite run_bind, (getitem_inr _ _ Hname). cbn [lift mret script_ret].
  rewrite loc_setitem_existing by done.
  rewrite run_bind, getitem_inr by done. cbn [lift mret script_ret].
  rewrite (loc_setitem_existing (mkFrame _ _)) by done.
  rewrite run_bind, getitem_inr by done. cbn [lift mret script_ret].
  rewrite (loc_setitem_existing (mkFrame _ _)) by done.
  cbn [columns rows]. unfold mret, script_ret, logged. do 3 f_equal.
  rewrite <- !list_fmap_compose. apply list_fmap_ext. intros i r _. simpl.
  unfold corrected.
  destruct (decide (r !!! "name" = Text "France")) as [Hfr|Hfr].
  - rewrite (decide_False (P := <["iso_a3":=Text "FRA"]> r !!! "name" = Text "Norway"))
      by (rewrite lookup_total_insert_ne, Hfr; done).
    rewrite decide_False by (rewrite lookup_total_insert_ne, Hfr; done).
    done.
  - destruct (decide (r !!! "name" = Text "Norway")) as [Hno|Hno]; [|done].
    rewrite decide_False by (rewrite lookup_total_insert_ne, Hno; done).
    done.
Qed.

(** pain-to-map.py: whatever [loc_setitem] does to the column it is given,
    it leaves every other column of every row as it was. *)
Lemma loc_setitem_spares df mask target v :
  length mask = length (rows df) →
  Forall2 (λ r r', ∀ c, c ≠ target → r' !!! c = r !!! c)
    (rows df) (rows (loc_setitem df mask target v)).
Proof.
  intros Hlen. unfold loc_setitem.
  assert (∀ (f : gmap string cell → bool → gmap string cell),
            (∀ r b c, c ≠ target → f r b !!! c = r !!! c) →
            Forall2 (λ r r', ∀ c, c ≠ target → r' !!! c = r !!! c)
              (rows df) (zip_with f (rows df) mask)) as Hzip.
  { intros f Hf. revert mask Hlen.
    induction (rows df) as [|r rs IH]; intros [|b mask] Hlen;
      simplify_eq/=; constructor; auto. }
  case_decide; simpl; apply Hzip; intros r b c Hc.
  - destruct b; [by rewrite lookup_total_insert_ne|done].
  - by rewrite lookup_total_insert_ne.
Qed.

Lemma loc_setitem_columns df mask target v c :
  c ∈ columns df → c ∈ columns (loc_setitem df mask target v).
Proof.
  intros Hc. unfold loc_setitem. case_decide; simpl; [done|].
  apply elem_of_app. by left.
Qed.

Lemma loc_setitem_length df mask target v :
  length mask = length (rows df) →
  length (rows (loc_setitem df mask target v)) = length (rows df).
Proof.
  intros Hlen. unfold loc_setitem.
  case_decide; simpl; rewrite length_zip_with; lia.
Qed.

(** The loader of pain-to-map.py writes its corrections under [sov_a3].
    Every other column comes back as it was read, the merge key [SOV_A3]
    among them. *)
Lemma _load_world_spares_join_key `{Externals} path verbose m world m' :
  PainToMap._load_world path verbose m = (Done world, m') →
  ∃ raw, read_file path = inr raw ∧
    Forall2 (λ r r', ∀ c, c ≠ "sov_a3" → r' !!! c = r !!! c)
      (rows raw) (rows world).
Proof.
  unfold PainToMap._load_world. intros Hrun.
  run_inv Hrun as u ma Hemit. clear Hemit.
  run_inv Hrun as raw mb Hraw. apply run_lift_inv in Hraw as [Hraw ->].
  run_inv Hrun as u2 mc Hprint. clear Hprint.
  run_inv Hrun as s1 md H1. apply run_lift_inv in H1 as [[Hc1 ->]%getitem_inv ->].
  run_inv Hrun as s2 me H2. apply run_lift_inv in H2 as [[Hc2 ->]%getitem_inv ->].
  run_inv Hrun as s3 mf H3. apply run_lift_inv in H3 as [[Hc3 ->]%getitem_inv ->].
  injection Hrun as <- <-.
  exists raw. split; [done|].
  set (w1 := loc_setitem raw _ _ _) in *.
  set (w2 := loc_setitem w1 _ _ _) in *.
  assert (Forall2 (λ r r', ∀ c, c ≠ "sov_a3" → r' !!! c = r !!! c)
            (rows raw) (rows w1)) as F1.
  { apply loc_setitem_spares. unfold eq_mask. by rewrite !length_fmap. }
  assert (Forall2 (λ r r', ∀ c, c ≠ "sov_a3" → r' !!! c = r !!! c)
            (rows w1) (rows w2)) as F2.
  { apply loc_setitem_spares. unfold eq_mask. by rewrite !length_fmap. }
  assert (Forall2 (λ r r', ∀ c, c ≠ "sov_a3" → r' !!! c = r !!! c)
            (rows w2) (rows (loc_setitem w2
               (eq_mask ((λ r, r !!! "SOVEREIGNT") <$> rows w2) (Text "Somaliland"))
               "sov_a3" (Text "SOL")))) as F3.
  { apply loc_setitem_spares. unfold eq_mask. by rewrite !length_fmap. }
  assert (∀ r1 r2 r3 : gmap string cell,
            (∀ c, c ≠ "sov_a3" → r2 !!! c = r1 !!! c) →
            (∀ c, c ≠ "sov_a3" → r3 !!! c = r2 !!! c) →
            ∀ c, c ≠ "sov_a3" → r3 !!! c = r1 !!! c) as Htrans.
  { intros r1 r2 r3 H12 H23 c Hc. by rewrite H23, H12. }
  eapply Forall2_trans; [exact Htrans| |exact F3].
  eapply Forall2_trans; [exact Htrans|exact F1|exact F2].
Qed.

(** *** What [plot] draws for rows without a value *)

Lemma plot_with_missing_kwds df kw ms drawn r :
  pk_missing_kwds kw = Some ms →
  plot df kw = inr drawn →
  r ∈ rows df → r !!! pk_column kw = NA →
  mkPatch (r !!! "geometry") (Flat (ms_color ms))
    (Some (ms_edgecolor ms)) (Some (ms_linewidth ms)) ∈ drawn.
Proof.
  intros Hms. unfold plot. case_decide; [|done]. intros [= <-] Hr Hna.
  apply elem_of_app. right. apply list_elem_of_bind. exists r. split; [|done].
  unfold missing_patch. rewrite Hna, Hms. simpl. apply list_elem_of_here.
Qed.

Lemma plot_without_missing_kwds df kw drawn :
  pk_missing_kwds kw = None →
  plot df kw = inr drawn →
  drawn = (filter (λ r, r !!! pk_column kw ≠ NA) (rows df)) ≫=
            (λ r, [mkPatch (r !!! "geometry")
                     (Mapped (pk_cmap kw) (r !!! pk_column kw))
                     (pk_edgecolor kw) (pk_linewidth kw)]).
Proof.
  intros Hms. unfold plot. case_decide; [|done]. intros [= <-].
  assert (rows df ≫= missing_patch kw = []) as ->.
  { induction (rows df) as [|r rs IH]; [done|].
    rewrite bind_cons, IH. unfold missing_patch. rewrite Hms.
    by case_decide. }
  rewrite app_nil_r.
  induction (rows df) as [|r rs IH]; [done|].
  rewrite bind_cons, filter_cons, IH. unfold valued_patch at 1.
  by repeat case_decide.
Qed.


(** color_world_map.py hands [missing_kwds] to [plot]: a merged row
    without a value is filled with [--missing-color], not through the
    colormap. *)
Lemma color_world_map_paints_missing_rows args cmap col merged drawn r :
  plot merged (ColorWorldMap.plot_kwargs args cmap col) = inr drawn →
  r ∈ rows merged → r !!! col = NA →
  mkPatch (r !!! "geometry") (Flat (ColorWorldMap.missing_color args))
    (Some (ColorWorldMap.edge_color args))
    (Some (ColorWorldMap.edge_width args)) ∈ drawn.
Proof.
  intros Hplot Hr Hna.
  by apply (plot_with_missing_kwds merged
              (ColorWorldMap.plot_kwargs args cmap col)
              (mkMissing (ColorWorldMap.missing_color args)
                 (ColorWorldMap.edge_color args) None
                 (ColorWorldMap.edge_width args)) drawn r).
Qed.

Lemma default_missing_color data out :
  ColorWorldMap.missing_color (ColorWorldMap.default_args data out) = "#EEEEEE".
Proof. reflexivity. Qed.

(** pain-to-map.py calls [plot] without [missing_kwds]: whatever the
    merged table, every patch drawn is a row with a value, filled through
    the colormap. *)
Lemma pain_map_draws_valued_rows_only merged cmap drawn p :
  plot merged (mkPlot "value" (Some (ByName cmap)) None None None) = inr drawn →
  p ∈ drawn →
  ∃ r, r ∈ rows merged ∧ r !!! "value" ≠ NA ∧
       p = mkPatch (r !!! "geometry")
             (Mapped (Some (ByName cmap)) (r !!! "value")) None None.
Proof.
  intros Hplot Hp.
  apply plot_without_missing_kwds in Hplot; [|done]. subst drawn.
  apply list_elem_of_bind in Hp as (r & Hp & [Hv Hr]%list_elem_of_filter).
  apply list_elem_of_singleton in Hp. simpl in *. eauto.
Qed.

(** *** What the blocks leave alone, and how they can exit *)

Ltac keeps_step :=
  first
    [ apply keeps_bind; [|intros ?]
    | apply keeps_try; [|intros ?]
    | apply keeps_lift
    | apply keeps_ret
    | apply keeps_exit
    | apply keeps_raise
    | apply keeps_get_frame
    | apply keeps_when
    | apply keeps_emit ].

Ltac exits_step :=
  first
    [ apply exits_bind; [|intros ?]
    | apply exits_try; [|intros ?]
    | apply exits_lift
    | apply exits_ret
    | apply exits_raise
    | apply exits_get_frame
    | apply exits_set_frame
    | apply exits_when
    | apply exits_emit
    | apply exits_exit; apply list_elem_of_here ].

Lemma warn_unmatched_keeps merged code_col value_col key key_name :
  keeps_frame (warn_unmatched merged code_col value_col key key_name).
Proof. unfold warn_unmatched, warn. repeat keeps_step. Qed.

Lemma ptm_merge_block_keeps vcol ccol world :
  keeps_frame (PainToMap.merge_block vcol ccol world).
Proof. unfold PainToMap.merge_block. repeat keeps_step. Qed.

Lemma ptm_projection_block_keeps `{Externals} merged :
  keeps_frame (PainToMap.projection_block merged).
Proof.
  unfold PainToMap.projection_block, reproject, warn.
  destruct (PROJECTIONS !! _); repeat keeps_step.
Qed.

Lemma save_keeps `{Externals} path dpi : keeps_frame (save path dpi).
Proof. unfold save. destruct (savefig path dpi); repeat keeps_step. Qed.

Lemma draw_keeps `{Externals} merged kw legend :
  keeps_frame (draw merged kw legend).
Proof.
  unfold draw. apply keeps_bind; [apply keeps_lift|]. intros drawn.
  destruct (plot_error merged kw legend); repeat keeps_step.
Qed.

Lemma ptm_draw_stage_keeps `{Externals} cmap merged vcol path :
  keeps_frame (PainToMap.draw_stage cmap merged vcol path).
Proof.
  unfold PainToMap.draw_stage, PainToMap.plot_block, PainToMap.save_block,
    print, eprint.
  repeat first [ apply save_keeps | apply draw_keeps | keeps_step ].
Qed.

Lemma draw_exits `{Externals} codes merged kw legend :
  exits_only codes (draw merged kw legend).
Proof.
  unfold draw. apply exits_bind; [apply exits_lift|]. intros drawn.
  destruct (plot_error merged kw legend); repeat exits_step.
Qed.

Lemma figure_exits `{Externals} codes w h dpi :
  exits_only codes (figure w h dpi).
Proof. unfold figure. destruct (figure_error w h dpi); repeat exits_step. Qed.

Lemma parse_args_exits {A} (parse : list string → parsed A) argv :
  exits_only [0; 2] (parse_args parse argv).
Proof.
  unfold parse_args, eprint, print. destruct (parse argv).
  - apply exits_ret.
  - apply exits_bind; [apply exits_emit|]. intros _.
    apply exits_exit. set_solver.
  - apply exits_bind; [apply exits_emit|]. intros _.
    apply exits_exit. set_solver.
Qed.

Lemma exits_more {A} (codes codes' : list Z) (c : Script A) :
  codes ⊆ codes' → exits_only codes c → exits_only codes' c.
Proof. intros Hsub Hc m code Hexit. by apply Hsub, (Hc m). Qed.

Lemma save_exits `{Externals} codes path dpi : exits_only codes (save path dpi).
Proof. unfold save. destruct (savefig path dpi); repeat exits_step. Qed.

Lemma clean_codes_exits `{Externals} codes c : exits_only codes (clean_codes c).
Proof. unfold clean_codes. repeat exits_step. Qed.

Lemma warn_unmatched_exits codes merged code_col value_col key key_name :
  exits_only codes (warn_unmatched merged code_col value_col key key_name).
Proof. unfold warn_unmatched, warn. repeat exits_step. Qed.

Lemma ptm_generate_map_exits `{Externals} wp op cmap vcol ccol :
  exits_only [] (PainToMap.generate_map wp op cmap vcol ccol).
Proof.
  unfold PainToMap.generate_map. cbv zeta.
  apply exits_bind; [apply exits_get_frame|]. intros df.
  case_bool_decide; [unfold eprint; repeat exits_step|].
  unfold PainToMap.join_stage, PainToMap._load_world, PainToMap.merge_block,
    PainToMap.projection_block, PainToMap.draw_stage, PainToMap.plot_block,
    PainToMap.save_block, reproject, warn, print, eprint.
  destruct (PROJECTIONS !! _);
    repeat first [ apply clean_codes_exits | apply warn_unmatched_exits
                 | apply save_exits | apply draw_exits | exits_step ].
Qed.

Lemma place_labels_exits codes (labels : list (Q * Q * string)) :
  exits_only codes
    (foldr (λ '(x, y, text) rest, emit (Label x y text);; rest)
       (mret ()) labels).
Proof.
  induction labels as [|[[x y] text] labels IH]; simpl; repeat exits_step.
  apply IH.
Qed.

Lemma cwm_main_exits `{Externals} args :
  exits_only [1] (ColorWorldMap.main args).
Proof.
  unfold ColorWorldMap.main, ColorWorldMap.join_stage, ColorWorldMap.load_data,
    ColorWorldMap.load_world, ColorWorldMap.merge_block,
    ColorWorldMap.projection_block, ColorWorldMap.draw_stage.
  apply exits_bind.
  { unfold eprint.
    repeat first [ apply clean_codes_exits | exits_step ]. }
  intros merged. apply exits_bind; [apply warn_unmatched_exits|]. intros _.
  apply exits_bind.
  { unfold reproject, warn. repeat exits_step. }
  intros projected. apply exits_bind.
  { unfold ColorWorldMap.classification_block, ColorWorldMap.classify_values,
      ColorWorldMap.construct, eprint. cbv zeta.
    apply exits_bind; [apply exits_lift|]. intros values.
    destruct (truthy _); [|repeat exits_step].
    case_decide; [repeat exits_step|].
    apply exits_bind.
    { repeat case_decide; repeat exits_step. }
    intros [c|]; repeat exits_step. }
  intros [[cm merged2] col].
  unfold ColorWorldMap.plot_block, ColorWorldMap.label_block,
    ColorWorldMap.save_block, warn, print, eprint. cbv zeta.
  repeat first [ apply save_exits | apply place_labels_exits
               | apply draw_exits | apply figure_exits | exits_step ].
Qed.

(** *** The loaders, in full *)

Lemma loc_setitem_new df (name target : string) (v x : cell) :
  target ∉ columns df →
  loc_setitem df (eq_mask ((λ r, r !!! name) <$> rows df) v) target x
  = mkFrame (columns df ++ [target])
      ((λ r, <[target := if decide (r !!! name = v) then x else NA]> r)
         <$> rows df).
Proof.
  intros Ht. unfold loc_setitem, eq_mask. rewrite decide_False by done.
  f_equal. rewrite !zip_with_fmap_r, zip_with_diag.
  apply list_fmap_ext. intros i r _. simpl.
  by case_bool_decide; case_decide.
Qed.

(** The three assignments of a loader, made one after the other, come to
    one pass over the rows. *)
Lemma corrected_in_turn (name code : string) (r : gmap string cell) :
  name ≠ code →
  (let r1 := if decide (r !!! name = Text "France")
             then <[code := Text "FRA"]> r else r in
   let r2 := if decide (r1 !!! name = Text "Norway")
             then <[code := Text "NOR"]> r1 else r1 in
   if decide (r2 !!! name = Text "Somaliland")
   then <[code := Text "SOL"]> r2 else r2)
  = corrected name code r.
Proof.
  intros Hne. cbv zeta. unfold corrected.
  destruct (decide (r !!! name = Text "France")) as [Hfr|Hfr].
  - rewrite (decide_False (P := <[code:=Text "FRA"]> r !!! name = Text "Norway"))
      by (rewrite lookup_total_insert_ne, Hfr; done).
    rewrite decide_False by (rewrite lookup_total_insert_ne, Hfr; done).
    done.
  - destruct (decide (r !!! name = Text "Norway")) as [Hno|Hno]; [|done].
    rewrite decide_False by (rewrite lookup_total_insert_ne, Hno; done).
    done.
Qed.

Lemma _load_world_run `{Externals} path verbose raw m :
  read_file path = inr raw → "SOVEREIGNT" ∈ columns raw →
  PainToMap._load_world path verbose m
  = (Done (mkFrame
             (if decide ("sov_a3" ∈ columns raw) then columns raw
              else columns raw ++ ["sov_a3"])
             ((λ r, corrected "SOVEREIGNT" "sov_a3"
                      (with_column "sov_a3" (columns raw) r)) <$> rows raw)),
     logged m (ReadFile path :: if verbose then [Stdout (Printed raw)] else [])).
Proof.
  intros Hraw Hname. unfold PainToMap._load_world.
  rewrite run_bind, emit_logged, run_bind, Hraw. cbn [lift mret script_ret].
  rewrite run_bind.
  assert (when verbose (print (Printed raw)) (logged m [ReadFile path])
          = (Done (), logged m (ReadFile path
                                  :: if verbose then [Stdout (Printed raw)] else [])))
    as ->.
  { destruct verbose; [|done]. unfold when, print.
    by rewrite emit_logged, logged_logged. }
  rewrite run_bind, (getitem_inr _ _ Hname). cbn [lift mret script_ret].
  unfold with_column.
  destruct (decide ("sov_a3" ∈ columns raw)) as [Hcode|Hcode].
  - rewrite loc_setitem_existing by done.
    rewrite run_bind, getitem_inr by done. cbn [lift mret script_ret].
    rewrite (loc_setitem_existing (mkFrame _ _)) by done.
    rewrite run_bind, getitem_inr by done. cbn [lift mret script_ret].
    rewrite (loc_setitem_existing (mkFrame _ _)) by done.
    cbn [columns rows]. unfold mret, script_ret. do 3 f_equal.
    rewrite <- !list_fmap_compose. apply list_fmap_ext. intros i r _. simpl.
    by apply (corrected_in_turn "SOVEREIGNT" "sov_a3").
  - rewrite loc_setitem_new by done.
    assert ("sov_a3" ∈ columns raw ++ ["sov_a3"]) as Hin
      by (apply elem_of_app; right; apply list_elem_of_here).
    assert ("SOVEREIGNT" ∈ columns raw ++ ["sov_a3"]) as Hin'
      by (apply elem_of_app; by left).
    rewrite run_bind, getitem_inr by done. cbn [lift mret script_ret].
    rewrite (loc_setitem_existing (mkFrame _ _)) by done.
    rewrite run_bind, getitem_inr by done. cbn [lift mret script_ret].
    rewrite (loc_setitem_existing (mkFrame _ _)) by done.
    cbn [columns rows]. unfold mret, script_ret. do 3 f_equal.
    rewrite <- !list_fmap_compose. apply list_fmap_ext. intros i r _. simpl.
    rewrite <- (corrected_in_turn "SOVEREIGNT" "sov_a3") by done. cbv zeta.
    destruct (decide (r !!! "SOVEREIGNT" = Text "France")) as [Hfr|Hfr].
    + rewrite (decide_True (P := <["sov_a3":=NA]> r !!! "SOVEREIGNT" = Text "France"))
        by (by rewrite lookup_total_insert_ne).
      assert (<["sov_a3":=Text "FRA"]> (<["sov_a3":=NA]> r)
              = <["sov_a3":=Text "FRA"]> r) as -> by apply insert_insert_eq.
      done.
    + rewrite (decide_False (P := <["sov_a3":=NA]> r !!! "SOVEREIGNT" = Text "France"))
        by (by rewrite lookup_total_insert_ne).
      done.
Qed.

Lemma load_world_needs_names `{Externals} path raw m :
  get_path "naturalearth_lowres" = inr path →
  read_file path = inr raw → "name" ∉ columns raw →
  ColorWorldMap.load_world m = (Raised (KeyError "name"), logged m [ReadFile path]).
Proof.
  intros Hpath Hraw Hname. unfold ColorWorldMap.load_world.
  rewrite run_bind, Hpath. cbn [lift mret script_ret].
  rewrite run_bind, emit_logged, run_bind, Hraw. cbn [lift mret script_ret].
  rewrite run_bind. unfold getitem. by rewrite decide_False.
Qed.

Lemma _load_world_needs_names `{Externals} path verbose raw m :
  read_file path = inr raw → "SOVEREIGNT" ∉ columns raw →
  PainToMap._load_world path verbose m
  = (Raised (KeyError "SOVEREIGNT"),
     logged m (ReadFile path :: if verbose then [Stdout (Printed raw)] else [])).
Proof.
  intros Hraw Hname. unfold PainToMap._load_world.
  rewrite run_bind, emit_logged, run_bind, Hraw. cbn [lift mret script_ret].
  rewrite run_bind.
  assert (when verbose (print (Printed raw)) (logged m [ReadFile path])
          = (Done (), logged m (ReadFile path
                                  :: if verbose then [Stdout (Printed raw)] else [])))
    as ->.
  { destruct verbose; [|done]. unfold when, print.
    by rewrite emit_logged, logged_logged. }
  rewrite run_bind. unfold getitem. by rewrite decide_False.
Qed.

(** *** Plot, labels and save, as runs *)

Lemma valued_then_missing {A} (P : A → Prop) `{!∀ x, Decision (P x)}
    (l : list A) :
  filter (λ x, ¬ P x) l ++ filter P l ≡ₚ l.
Proof.
  induction l as [|x l IH]; [done|].
  rewrite !filter_cons. destruct (decide (P x)).
  - rewrite decide_False by tauto.
    rewrite <- Permutation_middle. by constructor.
  - rewrite decide_True by done. simpl. by constructor.
Qed.

Lemma cwm_plot_patches args cmap col merged :
  col ∈ columns merged →
  plot merged (ColorWorldMap.plot_kwargs args cmap col)
  = inr ((patch_of args cmap col
            <$> filter (λ r, r !!! col ≠ NA) (rows merged))
         ++ (patch_of args cmap col
               <$> filter (λ r, r !!! col = NA) (rows merged))).
Proof.
  intros Hcol. unfold plot. simpl. rewrite decide_True by done. do 2 f_equal.
  - induction (rows merged) as [|r rs IH]; [done|].
    rewrite bind_cons, filter_cons, IH. unfold valued_patch at 1, patch_of.
    simpl. destruct (decide (r !!! col = NA)) as [Hna|Hna].
    + by rewrite decide_False by (by intros ?).
    + rewrite decide_True by done. simpl. by rewrite decide_False by done.
  - induction (rows merged) as [|r rs IH]; [done|].
    rewrite bind_cons, filter_cons, IH. unfold missing_patch at 1, patch_of.
    simpl. destruct (decide (r !!! col = NA)) as [Hna|Hna]; [|done].
    simpl. by rewrite decide_True by done.
Qed.

Lemma draw_run `{Externals} merged kw legend m :
  draw merged kw legend m
  = match plot merged kw with
    | inl e => (Raised e, m)
    | inr drawn =>
        match plot_error merged kw legend with
        | Some e => (Raised e, m)
        | None => (Done (), logged m [Plot drawn legend])
        end
    end.
Proof.
  unfold draw. rewrite run_bind.
  destruct (plot merged kw) as [e|drawn]; [done|]. cbn [lift mret script_ret].
  by destruct (plot_error merged kw legend).
Qed.

Lemma draw_done `{Externals} merged kw legend drawn m :
  plot merged kw = inr drawn → plot_error merged kw legend = None →
  draw merged kw legend m = (Done (), logged m [Plot drawn legend]).
Proof. intros Hplot Herr. by rewrite draw_run, Hplot, Herr. Qed.

Lemma figure_run `{Externals} w h dpi m :
  figure w h dpi m
  = match figure_error w h dpi with
    | Some e => (Raised e, m)
    | None => (Done (), logged m [Figure w h dpi])
    end.
Proof. unfold figure. by destruct (figure_error w h dpi). Qed.

Lemma when_emit_run b e m :
  when b (emit e) m = (Done (), logged m (if b then [e] else [])).
Proof. destruct b; [done|]. unfold when. by rewrite logged_nil. Qed.

Lemma cwm_title_events args :
  (if truthy (ColorWorldMap.title args)
   then [Title (default EmptyString (ColorWorldMap.title args))] else [])
  = match ColorWorldMap.title args with
    | Some t => if decide (t = EmptyString) then [] else [Title t]
    | None => []
    end.
Proof.
  destruct (ColorWorldMap.title args) as [t|]; [|done]. simpl.
  by case_bool_decide; case_decide.
Qed.

Lemma cwm_legend_kwds args :
  mkLegend "lower left"
    (if truthy (ColorWorldMap.legend_title args)
     then default EmptyString (ColorWorldMap.legend_title args)
     else ColorWorldMap.value_col args)
    (ColorWorldMap.format_values args)
  = cwm_legend args.
Proof.
  unfold cwm_legend. f_equal.
  destruct (ColorWorldMap.legend_title args) as [t|]; simpl; [|done].
  by case_bool_decide.
Qed.

Lemma cwm_plot_block_run `{Externals} args cmap merged col m :
  ColorWorldMap.plot_block args cmap merged col m
  = cwm_plot_outcome args cmap merged col m.
Proof.
  unfold ColorWorldMap.plot_block, cwm_plot_outcome. cbv zeta.
  rewrite cwm_legend_kwds.
  rewrite run_bind, figure_run.
  destruct (figure_error _ _ _) as [e|]; [done|].
  rewrite run_bind, draw_run.
  destruct (plot merged _) as [e|drawn] eqn:Hplot; [done|].
  destruct (plot_error merged _ None) as [e|]; [done|].
  rewrite run_bind, emit_logged, run_bind, emit_logged, run_bind.
  rewrite when_emit_run, cwm_title_events, !logged_logged.
  destruct (ColorWorldMap.legend args) eqn:Hlegend; [|reflexivity].
  unfold when. rewrite draw_run, Hplot.
  destruct (plot_error merged _ (Some _)) as [e|]; [reflexivity|].
  rewrite logged_logged. unfold cwm_layers. rewrite Hlegend. reflexivity.
Qed.

Lemma save_run `{Externals} path dpi m :
  save path dpi m
  = (match savefig path dpi with Some e => Raised e | None => Done () end,
     logged m [Savefig path dpi]).
Proof.
  unfold save. rewrite run_bind, emit_logged. by destruct (savefig path dpi).
Qed.

Lemma cwm_save_block_run `{Externals} args m :
  ColorWorldMap.save_block args m
  = match savefig (ColorWorldMap.out args) (ColorWorldMap.dpi args) with
    | None =>
        (Done (),
         logged m [Savefig (ColorWorldMap.out args) (ColorWorldMap.dpi args);
                   Stdout (Saved (ColorWorldMap.out args))])
    | Some e =>
        (SysExit 1,
         logged m [Savefig (ColorWorldMap.out args) (ColorWorldMap.dpi args);
                   Stderr (SaveFailure e)])
    end.
Proof.
  unfold ColorWorldMap.save_block, try_except. rewrite run_bind, save_run.
  destruct (savefig _ _) as [e|].
  - unfold eprint. by rewrite run_bind, emit_logged, logged_logged.
  - unfold print. by rewrite emit_logged, logged_logged.
Qed.

Lemma ptm_save_block_run `{Externals} path m :
  PainToMap.save_block path m
  = match savefig path PainToMap.DPI_VALUE with
    | None =>
        (Done (Some true),
         logged m [Savefig path PainToMap.DPI_VALUE; Stdout (Saved path)])
    | Some e =>
        (Done (Some false),
         logged m [Savefig path PainToMap.DPI_VALUE; Stderr (SaveFailure e)])
    end.
Proof.
  unfold PainToMap.save_block, try_except. rewrite run_bind, save_run.
  destruct (savefig _ _) as [e|].
  - unfold eprint. by rewrite run_bind, emit_logged, logged_logged.
  - unfold print. by rewrite run_bind, emit_logged, logged_logged.
Qed.

Lemma place_labels_run (labels : list (Q * Q * string)) m :
  foldr (λ '(x, y, text) rest, emit (Label x y text);; rest) (mret ()) labels m
  = (Done (), logged m ((λ '(x, y, text), Label x y text) <$> labels)).
Proof.
  revert m. induction labels as [|[[x y] text] labels IH]; intros m; simpl.
  - by rewrite logged_nil.
  - by rewrite run_bind, emit_logged, IH, logged_logged.
Qed.

Lemma label_block_run `{Externals} args merged m :
  ColorWorldMap.label_block args merged m
  = (Done (),
     logged m
       (if bool_decide (0 < ColorWorldMap.label_topn args) then
          match top_labels merged (ColorWorldMap.label_topn args)
                  (ColorWorldMap.value_col args) (ColorWorldMap.code_col args)
                  (ColorWorldMap.format_values args) with
          | inr labels => (λ '(x, y, text), Label x y text) <$> labels
          | inl e => [Warn (LabelFailure e)]
          end
        else [])).
Proof.
  unfold ColorWorldMap.label_block, when.
  case_bool_decide; [|by rewrite logged_nil].
  unfold try_except. rewrite run_bind.
  destruct (top_labels _ _ _ _ _) as [e|labels]; cbn [lift raise mret script_ret].
  - unfold warn. by rewrite emit_logged.
  - by rewrite place_labels_run.
Qed.

(** *** The classification block, where it does not classify *)

Lemma classify_unknown `{Externals} y scheme k m :
  PyStr.lower (default EmptyString scheme) ∉ scheme_names →
  ColorWorldMap.classify_values y scheme k m = (Done None, m).
Proof.
  intros Hname. unfold ColorWorldMap.classify_values. cbv zeta.
  assert (∀ l : list string, bool_decide (l ⊆ scheme_names) = true →
            PyStr.lower (default EmptyString scheme) ∉ l) as Hsub.
  { intros l Hl%bool_decide_eq_true Hin. by apply Hname, Hl. }
  by rewrite !decide_False by by apply Hsub.
Qed.

Lemma getitem_dropna_nil merged col :
  (∀ r, r ∈ rows merged → r !!! col = NA) →
  dropna ((λ r, r !!! col) <$> rows merged) = [].
Proof.
  intros Hall. unfold dropna.
  destruct (filter _ _) as [|v vs] eqn:Hf; [done|].
  assert (v ∈ v :: vs) as Hin by apply list_elem_of_here.
  rewrite <- Hf in Hin.
  apply list_elem_of_filter in Hin as [Hv (r & -> & Hr)%list_elem_of_fmap].
  destruct Hv. by apply Hall.
Qed.

Lemma getitem_dropna_cons merged col r :
  r ∈ rows merged → r !!! col ≠ NA →
  length (dropna ((λ r, r !!! col) <$> rows merged)) ≠ 0%nat.
Proof.
  intros Hr Hv Hlen. apply nil_length_inv in Hlen.
  assert (r !!! col ∈ dropna ((λ r, r !!! col) <$> rows merged)) as Hin.
  { apply list_elem_of_filter. split; [done|]. by apply list_elem_of_fmap_2. }
  rewrite Hlen in Hin. by apply elem_of_nil in Hin.
Qed.



(** *** The order of the codes in a warning *)

Lemma sorted_texts_in_order l :
  Forall is_text l →
  ∃ l', sorted l = inr l' ∧ l' ≡ₚ l ∧ StronglySorted code_le l'.
Proof.
  intros Htext. destruct l as [|a [|b l]].
  - exists []. repeat split; [done|constructor].
  - exists [a]. repeat split; [done|]. by repeat constructor.
  - apply texts_of_is_text in Htext as (ss & Hss & Heq).
    unfold sorted. rewrite Hss, Heq.
    eexists. split; [done|]. split; [by rewrite merge_sort_Permutation|].
    apply (StronglySorted_fmap Text String.le code_le); [done|].
    apply (StronglySorted_merge_sort String.le).
Qed.

Lemma warn_unmatched_in_order merged code_col value_col key key_name m :
  code_col ∈ columns (frame m) →
  Forall is_text ((λ r, r !!! code_col) <$> rows (frame m)) →
  value_col ∈ columns merged → key ∈ columns merged →
  ∃ missing,
    warn_unmatched merged code_col value_col key key_name m
      = (Done (), logged m (unmatched_warning key_name missing))
    ∧ StronglySorted code_le missing
    ∧ NoDup missing
    ∧ ∀ c, c ∈ missing ↔
           provides (frame m) code_col c ∧ ¬ has_value_for merged key value_col c.
Proof.
  intros Hcode Htext Hvalue Hkey.
  set (provided := provided_codes ((λ r, r !!! code_col) <$> rows (frame m))).
  set (matched := matched_codes
         ((λ r, r !!! key) <$> filter (λ r, r !!! value_col ≠ NA) (rows merged))).
  destruct (sorted_texts_in_order (list_difference provided matched))
    as (missing & Hsorted & Hperm & Hord).
  { apply Forall_forall. intros c [Hc _]%list_elem_of_difference.
    unfold provided, provided_codes, unique in Hc.
    rewrite elem_of_remove_dups in Hc. rewrite Forall_forall in Htext.
    by apply Htext. }
  exists missing. split; [|split; [done|split]].
  - unfold warn_unmatched. rewrite run_bind. cbn [get_frame].
    rewrite run_bind, (getitem_inr _ _ Hcode). cbn [lift mret script_ret].
    rewrite run_bind, (getitem_inr _ _ Hvalue). cbn [lift mret script_ret].
    rewrite run_bind. unfold loc_getitem. rewrite (getitem_inr _ _ Hkey).
    cbn [lift mret script_ret]. rewrite keep_valued.
    fold provided matched. rewrite run_bind, Hsorted.
    cbn [lift mret script_ret]. unfold unmatched_warning, when, logged.
    case_bool_decide; case_decide; try done.
    by rewrite app_nil_r; destruct m.
  - rewrite Hperm. apply NoDup_list_difference, NoDup_remove_dups.
  - intros c. rewrite Hperm, list_elem_of_difference.
    unfold provided, matched, provided_codes, matched_codes, unique.
    rewrite !elem_of_remove_dups, !list_elem_of_fmap.
    unfold provides, has_value_for. split.
    + intros [(r & -> & Hr) Hnot]. split; [by exists r|].
      intros (row & Hrow & Heq & Hv). apply Hnot. exists row.
      split; [done|]. by apply list_elem_of_filter.
    + intros [(r & Hr & <-) Hnot]. split; [by exists r|].
      intros (row & Heq & [Hv Hrow]%list_elem_of_filter). apply Hnot.
      by exists row.
Qed.

(** *** The drawing stage without a scheme *)



(** *** Labels of the merged table *)

Lemma merged_label_lost (lcols rcols : list string) (key code_col c : string) :
  c ∈ lcols → c ∈ rcols → c ≠ code_col →
  Forall (λ c', c ≠ c' +:+ "_x" ∧ c ≠ c' +:+ "_y") (lcols ++ rcols) →
  c ∉ merged_columns lcols rcols key code_col.
Proof.
  intros Hl Hr Hne Hfree.
  assert (c ∈ right_columns rcols key code_col) as Hrc.
  { unfold right_columns. case_decide; [|done]. by apply list_elem_of_filter. }
  assert (shared lcols rcols key code_col c = true) as Hshared
    by by apply bool_decide_eq_true.
  rewrite Forall_forall in Hfree.
  unfold merged_columns. intros [Hin|Hin]%elem_of_app.
  - apply list_elem_of_fmap in Hin as (c' & Heq & Hc').
    unfold left_label in Heq.
    destruct (shared lcols rcols key code_col c') eqn:Hs.
    + destruct (Hfree c') as [Hx _]; [apply elem_of_app; by left|].
      by apply Hx.
    + congruence.
  - apply list_elem_of_fmap in Hin as (c' & Heq & Hc').
    unfold right_label in Heq.
    destruct (shared lcols rcols key code_col c') eqn:Hs.
    + destruct (Hfree c') as [_ Hy]; [|by apply Hy].
      apply elem_of_app. right.
      unfold right_columns in Hc'. case_decide; [|done].
      by apply list_elem_of_filter in Hc' as [_ ?].
    + congruence.
Qed.

(** *** The block under [__main__] of pain-to-map.py *)

Lemma run_as_script_exits `{Externals} mode :
  exits_only [] (PainToMap.run_as_script mode).
Proof.
  unfold PainToMap.run_as_script. cbv zeta.
  repeat first [ apply ptm_generate_map_exits | exits_step ].
Qed.

Lemma ptm_plot_block_run `{Externals} cmap merged vcol drawn m :
  plot merged (mkPlot "value" (Some (ByName cmap)) None None None) = inr drawn →
  plot_error merged (mkPlot "value" (Some (ByName cmap)) None None None) None
  = None →
  PainToMap.plot_block cmap merged vcol m
  = (Done (),
     logged m [Figure (inject_Z PainToMap.WIDTH_VALUE)
                 (inject_Z PainToMap.HEIGHT_VALUE) PainToMap.DPI_VALUE;
               Plot drawn None; AxisOff; Aspect "equal"; Title "TODO Title"]).
Proof.
  intros Hplot Herr. unfold PainToMap.plot_block. cbv zeta.
  rewrite run_bind, emit_logged, run_bind, (draw_done _ _ _ drawn) by done.
  rewrite run_bind, emit_logged, run_bind, emit_logged, emit_logged.
  by rewrite !logged_logged.
Qed.

End BlockFacts.

(* ===================================================================== *)
(** ** What the scripts guarantee *)
(* ===================================================================== *)

Import Pandas Runtime Steps Vocabulary PandasFacts RunFacts BlockFacts.

(** C1.  In both scripts the merge is a left join of the geometry table
    with the cleaned value table on the country code ([iso_a3] in
    color_world_map.py, [SOV_A3] in pain-to-map.py, against the code column
    of the CSV).  For each script on its own: when its join stage ends
    normally, every row of the geometry table it loaded appears in the
    merged table, every merged row is such a row, and a merged row whose
    key matches no row of the value table has a missing value. *)
Theorem merge_is_left_join `{Externals} :
  (∀ (args : ColorWorldMap.Args) (m0 m1 : Machine) (merged : DataFrame),
     ColorWorldMap.join_stage args m0 = (Done merged, m1) →
     ∃ df world ma mb,
       read_csv (ColorWorldMap.data args) = inr df ∧
       ColorWorldMap.load_world ma = (Done world, mb) ∧
       left_join world (cleaned (ColorWorldMap.code_col args) df)
         (ColorWorldMap.merge_labels args)
         "iso_a3" (ColorWorldMap.code_col args) (ColorWorldMap.value_col args)
         merged)
  ∧ (∀ (path vcol ccol : string) (n0 n1 : Machine) (merged' : DataFrame),
       PainToMap.join_stage path vcol ccol n0 = (Done merged', n1) →
       ∃ world ma mb,
         PainToMap._load_world path false ma = (Done world, mb) ∧
         left_join world (cleaned ccol (frame n0)) [ccol; vcol]
           PainToMap.CODE_COLUMN ccol vcol merged').
Proof.
  split.
  - intros args m0 m1 merged Hjoin.
    apply cwm_join_stage_inv in Hjoin
      as (df & world & ma & mb & Hcsv & _ & _ & Hworld & Hframe & Hmerge).
    apply cwm_merge_block_inv in Hmerge as (_ & right & Hsel & Hmerge).
    exists df, world, ma, mb. do 2 (split; [done|]).
    rewrite Hframe in Hsel.
    pose proof Hmerge as (_ & _ & Hnd & _)%merge_inv.
    pose proof Hsel as (Hcols & _)%select_inv. rewrite Hcols in Hnd.
    unfold ColorWorldMap.merge_labels in *.
    eapply merge_left_join; eauto.
    + apply list_elem_of_here.
    + apply list_elem_of_further, list_elem_of_here.
    + simpl in Hnd. apply NoDup_cons in Hnd as [Hnotin _].
      intros Heq. apply Hnotin. rewrite <- Heq. apply list_elem_of_here.
  - intros path vcol ccol n0 n1 merged' Hjoin'.
    apply ptm_join_stage_inv in Hjoin'
      as (_ & _ & world & ma & mb & Hworld & Hframe & Hmerge).
    apply ptm_merge_block_inv in Hmerge as (_ & right & Hsel & Hmerge).
    exists world, ma, mb. split; [done|].
    rewrite Hframe in Hsel.
    pose proof Hmerge as (_ & _ & Hnd & _)%merge_inv.
    pose proof Hsel as (Hcols & _)%select_inv. rewrite Hcols in Hnd.
    eapply merge_left_join; eauto.
    + apply list_elem_of_here.
    + apply list_elem_of_further, list_elem_of_here.
    + apply NoDup_cons in Hnd as [Hnotin _].
      intros Heq. apply Hnotin. rewrite <- Heq. apply list_elem_of_here.
Qed.

(** C7.  Neither script asks the code column to be unique.  If the merge
    block goes through for a value table, it goes through for every table
    with the same labels, whatever its rows, several rows for one code
    included; and the merged table then has exactly one row for every pair
    of a geometry row and a value row with its key, besides one row for
    every geometry row that has no partner. *)
Theorem duplicate_codes_are_joined
    (args : ColorWorldMap.Args) (world : DataFrame) (m m' : Machine)
    (merged : DataFrame) (vcol ccol : string) (world' : DataFrame)
    (n n' : Machine) (merged' : DataFrame)
    (any_rows any_rows' : list (gmap string cell)) :
  ColorWorldMap.merge_block args world m = (Done merged, m') →
  PainToMap.merge_block vcol ccol world' n = (Done merged', n') →
  (let values := mkFrame (columns (frame m)) any_rows in
   ∃ again,
     ColorWorldMap.merge_block args world (mkMachine values (log m))
       = (Done again, mkMachine values (log m)) ∧
     one_row_per_pair world values (ColorWorldMap.merge_labels args)
       "iso_a3" (ColorWorldMap.code_col args) again)
  ∧ (let values := mkFrame (columns (frame n)) any_rows' in
     ∃ again,
       PainToMap.merge_block vcol ccol world' (mkMachine values (log n))
         = (Done again, mkMachine values (log n)) ∧
       one_row_per_pair world' values [ccol; vcol]
         PainToMap.CODE_COLUMN ccol again).
Proof.
  intros (_ & right & Hsel & Hmerge)%cwm_merge_block_inv
         (_ & right' & Hsel' & Hmerge')%ptm_merge_block_inv.
  split; cbv zeta.
  - destruct (merge_any_rows _ _ _ _ _ _ _ any_rows Hsel Hmerge)
      as (r1 & again & Hsel1 & Hmerge1).
    exists again. split; [by eapply cwm_merge_block_run|].
    eapply merge_one_row_per_pair; eauto.
    unfold ColorWorldMap.merge_labels. apply list_elem_of_here.
  - destruct (merge_any_rows _ _ _ _ _ _ _ any_rows' Hsel' Hmerge')
      as (r1 & again & Hsel1 & Hmerge1).
    exists again. split; [by eapply ptm_merge_block_run|].
    eapply merge_one_row_per_pair; eauto.
    apply list_elem_of_here.
Qed.

(** C2.  The scripts mean to warn about unmatched codes and go on, and
    miss one case: a value table with a missing code next to a code that
    no geometry carries.  Under pandas 3 the missing code stays missing
    through the cleaning, [sorted] cannot compare it with the code XXX and
    raises [TypeError]: no warning is given and nothing is reprojected or
    drawn, in either script.  With an older pandas, which writes the
    missing code as a string, the same tables give the warning and the
    runs go on. *)
Lemma a_missing_code_ends_the_run :
  let run := @ColorWorldMap.main Fixture.gappy Fixture.plain_args
               (Fixture.fresh Fixture.nothing) in
  let run' := @PainToMap.generate_map_default Fixture.gappy
                "countries_map.zip" (Fixture.fresh Fixture.gappy_pain_csv) in
  let older := @ColorWorldMap.main (Fixture.pandas2 Fixture.gappy)
                 Fixture.plain_args (Fixture.fresh Fixture.nothing) in
  let older' := @PainToMap.generate_map_default (Fixture.pandas2 Fixture.gappy)
                  "countries_map.zip" (Fixture.fresh Fixture.gappy_pain_csv) in
  @str_of_na Fixture.gappy = None
  ∧ run.1 = Raised TypeError
  ∧ log run.2 = [ReadCsv "values.csv"; ReadFile "naturalearth_lowres"]
  ∧ run'.1 = Raised TypeError
  ∧ log run'.2 = [ReadFile "countries_map.zip"]
  ∧ older.1 = Done ()
  ∧ filter is_unmatched_warning (log older.2)
    = [Warn (UnmatchedCodes 2 "ISO-3" [Text "NAN"; Text "XXX"])]
  ∧ older'.1 = Done (Some true)
  ∧ filter is_unmatched_warning (log older'.2)
    = [Warn (UnmatchedCodes 2 "SOV_A3" [Text "NAN"; Text "XXX"])].
Proof. cbv zeta. repeat split; vm_compute; reflexivity. Qed.



(** C6.  Before anything is drawn the merged table is reprojected to the
    chosen CRS: in color_world_map.py the string that [--projection]
    selects in the six-entry map, in pain-to-map.py EPSG:4326.  For each
    script on its own: when its run reaches the projection and the
    reprojection goes through, the rest of the run is the drawing stage on
    the reprojected table, and no plot was made before. *)
Theorem geometries_are_reprojected_before_drawing `{Externals} :
  size PROJECTIONS = 6%nat
  ∧ (∀ (args : ColorWorldMap.Args) (m0 m1 m2 : Machine)
       (merged projected : DataFrame),
       ColorWorldMap.projection args ∈ ColorWorldMap.projection_choices →
       ColorWorldMap.join_stage args m0 = (Done merged, m1) →
       warn_unmatched merged (ColorWorldMap.code_col args)
         (ColorWorldMap.value_col args) "iso_a3" "ISO-3" m1 = (Done (), m2) →
       to_crs merged (selected_crs (ColorWorldMap.projection args))
       = inr projected →
       PROJECTIONS !! ColorWorldMap.projection args
       = Some (selected_crs (ColorWorldMap.projection args))
       ∧ ColorWorldMap.main args m0
         = ColorWorldMap.draw_stage args projected
             (logged m2 [ToCrs (selected_crs (ColorWorldMap.projection args))])
       ∧ (∃ t, log m2 = log m0 ++ t ∧ Forall (λ e, ¬ is_plot e) t))
  ∧ (∀ (path : string) (output_path : option string) (cmap vcol ccol : string)
       (n0 n1 n2 : Machine) (merged' projected' : DataFrame),
       PainToMap.join_stage path vcol ccol n0 = (Done merged', n1) →
       warn_unmatched merged' ccol vcol PainToMap.CODE_COLUMN
         PainToMap.CODE_COLUMN n1 = (Done (), n2) →
       to_crs merged' "EPSG:4326" = inr projected' →
       PainToMap.generate_map path output_path cmap vcol ccol n0
       = PainToMap.draw_stage cmap projected' vcol
           (default (".." +:+ os_sep +:+ "data" +:+ os_sep +:+ "world.png")
              output_path)
           (logged n2 [ToCrs "EPSG:4326"])
       ∧ (∃ t, log n2 = log n0 ++ t ∧ Forall (λ e, ¬ is_plot e) t)).
Proof.
  split; [reflexivity|]. split.
  - intros args m0 m1 m2 merged projected Hchoice Hjoin Hwarn Hcrs.
    split; [|split].
    + unfold ColorWorldMap.projection_choices, PROJECTION_ITEMS in Hchoice.
      simpl in Hchoice.
      repeat (apply elem_of_cons in Hchoice as [-> | Hchoice]; [reflexivity|]).
      by apply elem_of_nil in Hchoice.
    + unfold ColorWorldMap.main.
      rewrite run_bind, Hjoin, run_bind, Hwarn, run_bind.
      rewrite cwm_projection_block_run. cbv zeta. by rewrite Hcrs.
    + destruct (cwm_join_stage_draws_nothing args m0) as (t1 & Ht1 & HP1).
      destruct (warn_unmatched_draws_nothing merged
                  (ColorWorldMap.code_col args) (ColorWorldMap.value_col args)
                  "iso_a3" "ISO-3" m1)
        as (t2 & Ht2 & HP2).
      rewrite Hjoin in Ht1. rewrite Hwarn in Ht2. simpl in *.
      exists (t1 ++ t2). split; [by rewrite Ht2, Ht1, app_assoc|].
      by apply Forall_app.
  - intros path output_path cmap vcol ccol n0 n1 n2 merged' projected'
      Hjoin' Hwarn' Hcrs'.
    pose proof Hjoin' as (Hccol & Hvcol & _)%ptm_join_stage_inv.
    split.
    + unfold PainToMap.generate_map. rewrite run_bind. cbn [get_frame].
      rewrite bool_decide_false by (intros [?|?]; done).
      rewrite run_bind, Hjoin', run_bind, Hwarn', run_bind.
      rewrite ptm_projection_block_run. by rewrite Hcrs'.
    + destruct (ptm_join_stage_draws_nothing path vcol ccol n0)
        as (t1 & Ht1 & HP1).
      destruct (warn_unmatched_draws_nothing merged' ccol vcol
                  PainToMap.CODE_COLUMN PainToMap.CODE_COLUMN n1)
        as (t2 & Ht2 & HP2).
      rewrite Hjoin' in Ht1. rewrite Hwarn' in Ht2. simpl in *.
      exists (t1 ++ t2). split; [by rewrite Ht2, Ht1, app_assoc|].
      by apply Forall_app.
Qed.

(** C9, as amended.  When the reprojection to the selected CRS raises,
    each script warns and reprojects to PlateCarree (EPSG:4326) instead.
    In color_world_map.py the run goes on to the drawing stage with that
    table if this second reprojection goes through; if it raises too,
    nothing catches the exception and the run ends with it.  In
    pain-to-map.py the selected CRS is EPSG:4326 already: the second
    reprojection is the first one again, and the run ends with its
    exception. *)
Theorem failed_projection_falls_back `{Externals} :
  (∀ (args : ColorWorldMap.Args) (merged : DataFrame) (m : Machine) (e : exn),
     to_crs merged (selected_crs (ColorWorldMap.projection args)) = inl e →
     (ColorWorldMap.projection_block args merged
        ≫= ColorWorldMap.draw_stage args) m
     = (let after :=
          logged m (fallback_trail (selected_crs (ColorWorldMap.projection args))
                      (ColorWorldMap.projection args) e) in
        match to_crs merged "EPSG:4326" with
        | inr projected => ColorWorldMap.draw_stage args projected after
        | inl e2 => (Raised e2, after)
        end))
  ∧ (∀ (cmap vcol output_path : string) (merged' : DataFrame) (n : Machine)
       (e' : exn),
       to_crs merged' "EPSG:4326" = inl e' →
       (PainToMap.projection_block merged'
          ≫= λ projected,
               PainToMap.draw_stage cmap projected vcol output_path) n
       = (Raised e',
          logged n (fallback_trail "EPSG:4326" PainToMap.USED_PROJECTION e'))).
Proof.
  split.
  - intros args merged m e Hcrs.
    rewrite run_bind, cwm_projection_block_run. cbv zeta. rewrite Hcrs.
    by destruct (to_crs merged "EPSG:4326").
  - intros cmap vcol output_path merged' n e' Hcrs'.
    by rewrite run_bind, ptm_projection_block_run, Hcrs'.
Qed.

(** C4, as amended.  With [--scheme] set and a value to classify, the
    non-null values are handed to the external classifier that the scheme
    name stands for, whatever the case of the name.  Quantiles, equal
    interval and natural breaks are built with [k] from [--k] (5 if not
    given); std-mean is built without [k].  The colormap is asked for with
    as many entries as the classifier has bins, before the classifier is
    called on the values: how the block ends is what these library calls
    return, and nothing is assumed of them. *)
Theorem scheme_builds_its_classifier `{Externals} :
  (∀ (args : ColorWorldMap.Args) (merged : DataFrame) (values : Series)
     (m : Machine),
     truthy (ColorWorldMap.scheme args) = true →
     getitem merged (ColorWorldMap.value_col args) = inr values →
     dropna values ≠ [] →
     let name := PyStr.lower (default EmptyString (ColorWorldMap.scheme args)) in
     let y := dropna values in
     let k := ColorWorldMap.k args in
     let block := ColorWorldMap.classification_block args merged m in
     (name ∈ ["quantiles"; "quantile"; "q"] →
      block = cwm_classes_outcome args merged values (Quantiles y k) m)
     ∧ (name ∈ ["equal_interval"; "equalinterval"; "equal"; "ei"] →
        block = cwm_classes_outcome args merged values (EqualInterval y k) m)
     ∧ (name ∈ ["natural_breaks"; "jenks"; "nb"] →
        block = cwm_classes_outcome args merged values (NaturalBreaks y k) m)
     ∧ (name ∈ ["std_mean"; "std"; "zscore"] →
        block = cwm_classes_outcome args merged values (StdMean y) m))
  ∧ (∀ data out, ColorWorldMap.k (ColorWorldMap.default_args data out) = 5).
Proof.
  split; [|done].
  intros args merged values m Hscheme Hvalues Hvalid. cbv zeta.
  repeat split; intros Hname;
    apply classification_block_run; try done.
  - by apply classify_quantiles.
  - by apply classify_equal_interval.
  - by apply classify_natural_breaks.
  - by apply classify_std_mean.
Qed.

(** C3, in pain-to-map.py.  The table read has France under the
    sovereignty code FR1.  The loader leaves [SOV_A3], the key of the
    merge, as it was, and writes FRA into a new column [sov_a3], which is
    missing on every other row; the code FRA of the value table then finds
    no partner. *)
Theorem pain_loader_misses_the_join_key :
  @PainToMap._load_world Fixture.friendly "countries_map.zip" false
    (Fixture.fresh Fixture.nothing)
  = (Done
       (mkFrame ["SOVEREIGNT"; "SOV_A3"; "geometry"; "sov_a3"]
          [ <["sov_a3" := NA]>
              (Fixture.country "SOVEREIGNT" "SOV_A3" "Fiji" "FJI" "POLYGON(fiji)");
            <["sov_a3" := Text "FRA"]>
              (Fixture.country "SOVEREIGNT" "SOV_A3" "France" "FR1"
                 "POLYGON(france)");
            <["sov_a3" := NA]>
              (Fixture.country "SOVEREIGNT" "SOV_A3" "Germany" "DEU"
                 "POLYGON(germany)") ]),
     mkMachine Fixture.nothing [ReadFile "countries_map.zip"])
  ∧ filter is_unmatched_warning
      (log (@PainToMap.generate_map_default Fixture.friendly
              "countries_map.zip" (Fixture.fresh Fixture.pain_csv)).2)
    = [Warn (UnmatchedCodes 1 "SOV_A3" [Text "FRA"])].
Proof. split; vm_compute; reflexivity. Qed.

(** C5, in pain-to-map.py.  Of three geometry rows two have no value
    after the merge; the plot that is made draws the one row with a value
    and nothing else: no patch in the missing colour. *)
Theorem pain_map_does_not_paint_missing_rows :
  let run :=
    @PainToMap.generate_map_default Fixture.friendly "countries_map.zip"
      (Fixture.fresh Fixture.pain_csv) in
  run.1 = Done (Some true)
  ∧ filter is_plot (log run.2)
    = [Plot
         [mkPatch (Shape "POLYGON(germany) in EPSG:4326")
            (Mapped (Some (ByName "Greys")) (Num 4)) None None]
         None].
Proof. split; vm_compute; reflexivity. Qed.

(** C4 as it stands fails for std-mean: asked for three classes, the
    script builds the classifier without [k], exactly as when asked for
    seven, and here that classifier has five bins. *)
Lemma std_mean_is_built_without_k :
  let y := [Num 3; Num 4; Num 5; Num 6] in
  let c := mkClassifier (StdMean y)
             [(1 # 1)%Q; (2 # 1)%Q; (3 # 1)%Q; (4 # 1)%Q; (5 # 1)%Q] in
  @ColorWorldMap.classify_values Fixture.friendly y (Some "std_mean") 3
    (Fixture.fresh Fixture.nothing)
  = (Done (Some c), Fixture.fresh Fixture.nothing)
  ∧ requested_classes (spec c) = None
  ∧ length (bins c) ≠ 3%nat
  ∧ @ColorWorldMap.classify_values Fixture.friendly y (Some "std_mean") 7
      (Fixture.fresh Fixture.nothing)
    = @ColorWorldMap.classify_values Fixture.friendly y (Some "std_mean") 3
        (Fixture.fresh Fixture.nothing).
Proof. repeat split; done. Qed.

(** C9 as it stands fails when the reprojection to PlateCarree raises as
    well: both runs warn, then end with the exception, and nothing is
    drawn. *)
Lemma failed_fallback_ends_the_run :
  let run := @ColorWorldMap.main Fixture.stuck Fixture.plain_args
               (Fixture.fresh Fixture.nothing) in
  let run' := @PainToMap.generate_map_default Fixture.stuck
                "countries_map.zip" (Fixture.fresh Fixture.pain_csv) in
  let e := LibraryError "Cannot transform naive geometries" in
  run.1 = Raised e
  ∧ Warn (ProjectionFallback "Robinson" e) ∈ log run.2
  ∧ filter is_plot (log run.2) = []
  ∧ run'.1 = Raised e
  ∧ Warn (ProjectionFallback "PlateCarree" e) ∈ log run'.2
  ∧ filter is_plot (log run'.2) = [].
Proof.
  cbv zeta. repeat split; try (vm_compute; reflexivity).
  - apply list_elem_of_In. vm_compute. tauto.
  - apply list_elem_of_In. vm_compute. tauto.
Qed.


(* ===================================================================== *)
(** ** The theorems at work on the small worlds *)
(* ===================================================================== *)

Ltac evaluated := vm_compute; reflexivity.
Ltac decided :=
  match goal with
  | |- ?P => apply (bool_decide_unpack P); vm_compute; exact I
  end.

(** C1 on the small worlds: color_world_map.py where the data set is
    there, pain-to-map.py where it is not. *)
Lemma merge_is_left_join_witness :
  let E := Fixture.friendly in
  let J := @ColorWorldMap.join_stage E Fixture.plain_args
             (Fixture.fresh Fixture.nothing) in
  let merged := Fixture.returned Fixture.nothing J.1 in
  let J' := @PainToMap.join_stage Fixture.offline "countries_map.zip"
              "value" "sov_a3" (Fixture.fresh Fixture.pain_csv) in
  let merged' := Fixture.returned Fixture.nothing J'.1 in
  (J = (Done merged, J.2) ∧ J' = (Done merged', J'.2))
  ∧ (∃ df world ma mb,
       @read_csv E (ColorWorldMap.data Fixture.plain_args) = inr df ∧
       @ColorWorldMap.load_world E ma = (Done world, mb) ∧
       left_join world
         (@cleaned E (ColorWorldMap.code_col Fixture.plain_args) df)
         (ColorWorldMap.merge_labels Fixture.plain_args)
         "iso_a3" (ColorWorldMap.code_col Fixture.plain_args)
         (ColorWorldMap.value_col Fixture.plain_args) merged)
  ∧ (∃ world ma mb,
       @PainToMap._load_world Fixture.offline "countries_map.zip" false ma
         = (Done world, mb) ∧
       left_join world (@cleaned Fixture.offline "sov_a3" Fixture.pain_csv)
         ["sov_a3"; "value"] PainToMap.CODE_COLUMN "sov_a3" "value" merged').
Proof.
  intros E J merged J' merged'.
  assert (J = (Done merged, J.2)) as H1 by evaluated.
  assert (J' = (Done merged', J'.2)) as H2 by evaluated.
  split; [exact (conj H1 H2)|]. split.
  - exact (proj1 (merge_is_left_join (H := E)) Fixture.plain_args
             (Fixture.fresh Fixture.nothing) J.2 merged H1).
  - exact (proj2 (merge_is_left_join (H := Fixture.offline))
             "countries_map.zip" "value" "sov_a3"
             (Fixture.fresh Fixture.pain_csv) J'.2 merged' H2).
Defined.

(** C7 on the small worlds, with every value row given twice. *)
Lemma duplicate_codes_are_joined_witness :
  let world := mkFrame (columns Fixture.natural_earth)
                 (corrected "name" "iso_a3" <$> rows Fixture.natural_earth) in
  let B := ColorWorldMap.merge_block Fixture.plain_args world
             (Fixture.fresh Fixture.values_csv) in
  let B' := PainToMap.merge_block "value" "sov_a3" Fixture.countries_map
              (Fixture.fresh Fixture.pain_csv) in
  let twice := rows Fixture.values_csv ++ rows Fixture.values_csv in
  let twice' := rows Fixture.pain_csv ++ rows Fixture.pain_csv in
  (B = (Done (Fixture.returned Fixture.nothing B.1), B.2)
   ∧ B' = (Done (Fixture.returned Fixture.nothing B'.1), B'.2))
  ∧ (let values := mkFrame (columns Fixture.values_csv) twice in
     ∃ again,
       ColorWorldMap.merge_block Fixture.plain_args world (mkMachine values [])
         = (Done again, mkMachine values []) ∧
       one_row_per_pair world values
         (ColorWorldMap.merge_labels Fixture.plain_args)
         "iso_a3" (ColorWorldMap.code_col Fixture.plain_args) again)
  ∧ (let values := mkFrame (columns Fixture.pain_csv) twice' in
     ∃ again,
       PainToMap.merge_block "value" "sov_a3" Fixture.countries_map
         (mkMachine values []) = (Done again, mkMachine values []) ∧
       one_row_per_pair Fixture.countries_map values ["sov_a3"; "value"]
         PainToMap.CODE_COLUMN "sov_a3" again).
Proof.
  intros world B B' twice twice'.
  assert (B = (Done (Fixture.returned Fixture.nothing B.1), B.2)) as H1
    by evaluated.
  assert (B' = (Done (Fixture.returned Fixture.nothing B'.1), B'.2)) as H2
    by evaluated.
  split; [exact (conj H1 H2)|].
  exact (duplicate_codes_are_joined Fixture.plain_args world
           (Fixture.fresh Fixture.values_csv) B.2
           (Fixture.returned Fixture.nothing B.1)
           "value" "sov_a3" Fixture.countries_map
           (Fixture.fresh Fixture.pain_csv) B'.2
           (Fixture.returned Fixture.nothing B'.1) twice twice' H1 H2).
Defined.



(** C6 on the small worlds, with the default projection (Robinson);
    pain-to-map.py where color_world_map.py has no data set to load. *)
Lemma geometries_are_reprojected_before_drawing_witness :
  let E := Fixture.friendly in
  let E' := Fixture.offline in
  let args := Fixture.plain_args in
  let m0 := Fixture.fresh Fixture.nothing in
  let n0 := Fixture.fresh Fixture.pain_csv in
  let J := @ColorWorldMap.join_stage E args m0 in
  let merged := Fixture.returned Fixture.nothing J.1 in
  let W := warn_unmatched merged (ColorWorldMap.code_col args)
             (ColorWorldMap.value_col args) "iso_a3" "ISO-3" J.2 in
  let crs := selected_crs (ColorWorldMap.projection args) in
  let projected := Fixture.given Fixture.nothing (@to_crs E merged crs) in
  let J' := @PainToMap.join_stage E' "countries_map.zip" "value" "sov_a3" n0 in
  let merged' := Fixture.returned Fixture.nothing J'.1 in
  let W' := warn_unmatched merged' "sov_a3" "value" PainToMap.CODE_COLUMN
              PainToMap.CODE_COLUMN J'.2 in
  let projected' :=
    Fixture.given Fixture.nothing (@to_crs E' merged' "EPSG:4326") in
  (ColorWorldMap.projection args ∈ ColorWorldMap.projection_choices
   ∧ J = (Done merged, J.2)
   ∧ W = (Done (), W.2)
   ∧ @to_crs E merged crs = inr projected
   ∧ J' = (Done merged', J'.2)
   ∧ W' = (Done (), W'.2)
   ∧ @to_crs E' merged' "EPSG:4326" = inr projected')
  ∧ (PROJECTIONS !! ColorWorldMap.projection args = Some crs
     ∧ @ColorWorldMap.main E args m0
       = @ColorWorldMap.draw_stage E args projected (logged W.2 [ToCrs crs])
     ∧ (∃ t, log W.2 = log m0 ++ t ∧ Forall (λ e, ¬ is_plot e) t))
  ∧ (@PainToMap.generate_map E' "countries_map.zip" None "Greys" "value"
       "sov_a3" n0
     = @PainToMap.draw_stage E' "Greys" projected' "value"
         (default
            (".." +:+ @os_sep E' +:+ "data" +:+ @os_sep E' +:+ "world.png")
            None)
         (logged W'.2 [ToCrs "EPSG:4326"])
     ∧ (∃ t, log W'.2 = log n0 ++ t ∧ Forall (λ e, ¬ is_plot e) t)).
Proof.
  intros E E' args m0 n0 J merged W crs projected J' merged' W' projected'.
  assert (ColorWorldMap.projection args ∈ ColorWorldMap.projection_choices)
    as H1 by decided.
  assert (J = (Done merged, J.2)) as H2 by evaluated.
  assert (W = (Done (), W.2)) as H3 by evaluated.
  assert (@to_crs E merged crs = inr projected) as H4 by evaluated.
  assert (J' = (Done merged', J'.2)) as H5 by evaluated.
  assert (W' = (Done (), W'.2)) as H6 by evaluated.
  assert (@to_crs E' merged' "EPSG:4326" = inr projected') as H7 by evaluated.
  split;
    [exact (conj H1 (conj H2 (conj H3 (conj H4 (conj H5 (conj H6 H7))))))|].
  split.
  - exact (proj1 (proj2 (geometries_are_reprojected_before_drawing (H := E)))
             args m0 J.2 W.2 merged projected H1 H2 H3 H4).
  - exact (proj2 (proj2 (geometries_are_reprojected_before_drawing (H := E')))
             "countries_map.zip" None "Greys" "value" "sov_a3"
             n0 J'.2 W'.2 merged' projected' H5 H6 H7).
Defined.

(** C9, as amended: color_world_map.py with a reprojection that knows
    EPSG codes only, so that Robinson fails, PlateCarree goes through and
    the map is drawn from the PlateCarree table; pain-to-map.py with a
    reprojection that always raises. *)
Lemma failed_projection_falls_back_witness :
  let E := Fixture.wary in
  let E' := Fixture.stuck in
  let args := Fixture.plain_args in
  let m := Fixture.fresh Fixture.nothing in
  let e := LibraryError "Invalid projection" in
  let e' := LibraryError "Cannot transform naive geometries" in
  let crs := selected_crs (ColorWorldMap.projection args) in
  let projected :=
    Fixture.given Fixture.nothing
      (@to_crs E Fixture.natural_earth "EPSG:4326") in
  (@to_crs E Fixture.natural_earth crs = inl e
   ∧ @to_crs E Fixture.natural_earth "EPSG:4326" = inr projected
   ∧ @to_crs E' Fixture.countries_map "EPSG:4326" = inl e')
  ∧ (@ColorWorldMap.projection_block E args Fixture.natural_earth
       ≫= @ColorWorldMap.draw_stage E args) m
    = @ColorWorldMap.draw_stage E args projected
        (logged m (fallback_trail crs (ColorWorldMap.projection args) e))
  ∧ (@PainToMap.projection_block E' Fixture.countries_map
       ≫= λ projected,
            @PainToMap.draw_stage E' "Greys" projected "value" "world.png") m
    = (Raised e',
       logged m (fallback_trail "EPSG:4326" PainToMap.USED_PROJECTION e')).
Proof.
  intros E E' args m e e' crs projected.
  assert (@to_crs E Fixture.natural_earth crs = inl e) as H1 by reflexivity.
  assert (@to_crs E Fixture.natural_earth "EPSG:4326" = inr projected) as H2
    by evaluated.
  assert (@to_crs E' Fixture.countries_map "EPSG:4326" = inl e') as H3
    by reflexivity.
  split; [exact (conj H1 (conj H2 H3))|]. split.
  - rewrite (proj1 (failed_projection_falls_back (H := E)) args
               Fixture.natural_earth m e H1).
    cbv zeta. rewrite H2. reflexivity.
  - exact (proj2 (failed_projection_falls_back (H := E')) "Greys" "value"
             "world.png" Fixture.countries_map m e' H3).
Defined.

(** C4, as amended, for [--scheme Quantiles --k 4]: the classifier is
    fitted with four classes and the colormap made for its bins. *)
Lemma scheme_builds_its_classifier_witness :
  let E := Fixture.friendly in
  let args := Fixture.with_scheme "Quantiles" 4 in
  let m := Fixture.fresh Fixture.nothing in
  let merged :=
    Fixture.returned Fixture.nothing
      (@ColorWorldMap.join_stage E Fixture.plain_args m).1 in
  let values :=
    Fixture.given [] (getitem merged (ColorWorldMap.value_col args)) in
  let name := PyStr.lower (default EmptyString (ColorWorldMap.scheme args)) in
  (truthy (ColorWorldMap.scheme args) = true
   ∧ getitem merged (ColorWorldMap.value_col args) = inr values
   ∧ dropna values ≠ []
   ∧ name ∈ ["quantiles"; "quantile"; "q"])
  ∧ @ColorWorldMap.classification_block E args merged m
    = @cwm_classes_outcome E args merged values
        (Quantiles (dropna values) 4) m.
Proof.
  intros E args m merged values name.
  assert (truthy (ColorWorldMap.scheme args) = true) as H1 by reflexivity.
  assert (getitem merged (ColorWorldMap.value_col args) = inr values) as H2
    by evaluated.
  assert (dropna values ≠ []) as H3 by decided.
  assert (name ∈ ["quantiles"; "quantile"; "q"]) as H4 by decided.
  split; [exact (conj H1 (conj H2 (conj H3 H4)))|].
  exact (proj1 (proj1 (scheme_builds_its_classifier (H := E)) args merged
                  values m H1 H2 H3) H4).
Defined.

(* ===================================================================== *)
(** ** Further properties of the scripts *)
(* ===================================================================== *)

(** X1. color_world_map.py, [main]: when [pd.read_csv] raises, the script
    prints the failure on stderr and exits with status 1.  Nothing is
    loaded, drawn or saved, and the value table stays as it was. *)
Theorem unreadable_csv_ends_the_run `{Externals} args e m :
  read_csv (ColorWorldMap.data args) = inl e →
  ColorWorldMap.main args m
  = (SysExit 1,
     logged m [ReadCsv (ColorWorldMap.data args); Stderr (CsvReadFailure e)]).
Proof.
  intros Hcsv.
  unfold ColorWorldMap.main, ColorWorldMap.join_stage, ColorWorldMap.load_data.
  rewrite !run_bind. unfold try_except.
  rewrite run_bind, emit_logged, Hcsv. cbn [lift raise].
  unfold eprint. by rewrite run_bind, emit_logged, logged_logged.
Qed.

(** X2. color_world_map.py, [load_world]: on a geometry table that has the
    columns [name] and [iso_a3], the loader reads the file once and
    returns the table with the same columns and the same rows in the same
    order; the rows named France, Norway and Somaliland get the codes FRA,
    NOR and SOL, every other row and every other column is untouched. *)
Theorem load_world_fixes_three_codes `{Externals} path raw m :
  get_path "naturalearth_lowres" = inr path →
  read_file path = inr raw →
  "name" ∈ columns raw → "iso_a3" ∈ columns raw →
  ∃ world,
    ColorWorldMap.load_world m = (Done world, logged m [ReadFile path])
    ∧ columns world = columns raw
    ∧ Forall2
        (λ r r',
           r' = corrected "name" "iso_a3" r
           ∧ (∀ c, c ≠ "iso_a3" → r' !!! c = r !!! c)
           ∧ (r !!! "name" ∉ [Text "France"; Text "Norway"; Text "Somaliland"]
              → r' = r))
        (rows raw) (rows world).
Proof.
  intros Hpath Hraw Hname Hcode. eexists. split; [|split].
  - by apply load_world_corrects_three_codes.
  - done.
  - simpl. apply Forall2_fmap_r, Forall_Forall2_diag, Forall_forall.
    intros r _. split; [done|]. unfold corrected. split.
    + intros c Hc. repeat case_decide; by rewrite ?lookup_total_insert_ne.
    + intros Hnot. repeat case_decide; try done; destruct Hnot; set_solver.
Qed.

(** X3. Each loader looks the rows up by name: on a geometry file without
    the column [name] ([SOVEREIGNT] in pain-to-map.py) it raises
    [KeyError] for that label right after reading the file. *)
Theorem loaders_need_the_name_column `{Externals} :
  (∀ path raw m,
     get_path "naturalearth_lowres" = inr path →
     read_file path = inr raw → "name" ∉ columns raw →
     ColorWorldMap.load_world m
     = (Raised (KeyError "name"), logged m [ReadFile path]))
  ∧ (∀ file verbose raw' m,
       read_file file = inr raw' → "SOVEREIGNT" ∉ columns raw' →
       PainToMap._load_world file verbose m
       = (Raised (KeyError "SOVEREIGNT"),
          logged m (ReadFile file
                      :: if verbose then [Stdout (Printed raw')] else []))).
Proof.
  split.
  - intros path raw m Hpath Hraw Hname.
    by apply (load_world_needs_names path raw).
  - intros file verbose raw' m Hraw' Hname'.
    by apply _load_world_needs_names.
Qed.

(** X4. pain-to-map.py, [_load_world]: on a geometry table that has the
    column [SOVEREIGNT], the loader returns the rows in their order with
    the corrections written under the lower-case label [sov_a3].  If the
    table has no such column, one is added as the last column, missing
    in every row that is not France, Norway or Somaliland.  With
    [verbose] the table as read is printed first. *)
Theorem pain_loader_writes_sov_a3 `{Externals} path verbose raw m :
  read_file path = inr raw → "SOVEREIGNT" ∈ columns raw →
  PainToMap._load_world path verbose m
  = (Done (mkFrame
             (if decide ("sov_a3" ∈ columns raw) then columns raw
              else columns raw ++ ["sov_a3"])
             ((λ r, corrected "SOVEREIGNT" "sov_a3"
                      (with_column "sov_a3" (columns raw) r)) <$> rows raw)),
     logged m (ReadFile path :: if verbose then [Stdout (Printed raw)] else [])).
Proof. apply _load_world_run. Qed.

(** X5. color_world_map.py, [classify_values]: the scheme name is compared
    in lower case, so its spelling in upper or mixed case selects the same
    classifier. *)
Theorem scheme_names_ignore_case `{Externals} y flags s k :
  ColorWorldMap.classify_values y (Some (PyStr.recase flags s)) k
  = ColorWorldMap.classify_values y (Some s) k.
Proof.
  unfold ColorWorldMap.classify_values. simpl.
  by rewrite PyStrFacts.lower_recase.
Qed.

(** X6. color_world_map.py: a non-empty [--scheme] that is none of the
    known names makes [classify_values] return [None], and [main] then
    raises [AttributeError] on [classifier.bins] as soon as the value
    column has one value: nothing is drawn or saved. *)
Theorem unknown_scheme_raises `{Externals} args merged r m :
  truthy (ColorWorldMap.scheme args) = true →
  PyStr.lower (default EmptyString (ColorWorldMap.scheme args)) ∉ scheme_names →
  ColorWorldMap.value_col args ∈ columns merged →
  r ∈ rows merged → r !!! ColorWorldMap.value_col args ≠ NA →
  (∀ y, ColorWorldMap.classify_values y (ColorWorldMap.scheme args)
          (ColorWorldMap.k args) m = (Done None, m))
  ∧ ColorWorldMap.draw_stage args merged m
    = (Raised (AttributeError "bins"), m).
Proof.
  intros Hscheme Hname Hcol Hr Hv. split.
  { intros y. by apply classify_unknown. }
  unfold ColorWorldMap.draw_stage, ColorWorldMap.classification_block.
  rewrite !run_bind, (getitem_inr _ _ Hcol). cbn [lift mret script_ret].
  rewrite Hscheme.
  rewrite decide_False by by eapply getitem_dropna_cons.
  by rewrite run_bind, classify_unknown.
Qed.

(** X7. color_world_map.py: with a [--scheme] and a value column that is
    missing in every merged row, the script prints "No numeric values to
    classify." on stderr and exits with status 1 before anything is
    drawn. *)
Theorem no_values_to_classify_ends_the_run `{Externals} args merged m :
  truthy (ColorWorldMap.scheme args) = true →
  ColorWorldMap.value_col args ∈ columns merged →
  (∀ r, r ∈ rows merged → r !!! ColorWorldMap.value_col args = NA) →
  ColorWorldMap.draw_stage args merged m
  = (SysExit 1, logged m [Stderr NoNumericValues]).
Proof.
  intros Hscheme Hcol Hall.
  unfold ColorWorldMap.draw_stage, ColorWorldMap.classification_block.
  rewrite !run_bind, (getitem_inr _ _ Hcol). cbn [lift mret script_ret].
  rewrite Hscheme, getitem_dropna_nil by done.
  rewrite decide_True by done. unfold eprint.
  by rewrite run_bind, emit_logged.
Qed.

(** X8. color_world_map.py, the plot call: every row of the table is
    drawn exactly once, the rows with a value first and through the
    colormap, the rows without one after them in [--missing-color]; all
    with the edge colour and width of the arguments. *)
Theorem every_row_is_drawn_once args cmap col merged :
  col ∈ columns merged →
  ∃ drawn,
    plot merged (ColorWorldMap.plot_kwargs args cmap col) = inr drawn
    ∧ drawn
      = (patch_of args cmap col
           <$> filter (λ r, r !!! col ≠ NA) (rows merged))
        ++ (patch_of args cmap col
              <$> filter (λ r, r !!! col = NA) (rows merged))
    ∧ drawn ≡ₚ patch_of args cmap col <$> rows merged.
Proof.
  intros Hcol. eexists. split; [by apply cwm_plot_patches|]. split; [done|].
  rewrite <- fmap_app. apply fmap_Permutation.
  rewrite <- (valued_then_missing (λ r, r !!! col = NA) (rows merged)) at 3.
  done.
Qed.

(** X9. color_world_map.py, the plot block, by what matplotlib and
    geopandas raise.  It opens the figure, draws the map, switches the
    axes off and sets the aspect; the title is set only if [--title] is a
    non-empty string; with [--legend] the whole map is drawn a second
    time, now with the legend, whose title is [--legend-title] or else the
    name of the value column.  An exception of [plt.figure] ends the block
    before anything is logged, one of the first plot (such as [KeyError]
    for a column that the table has not) after the figure is opened, and
    one of the second plot after the map is drawn once. *)
Theorem plot_block_layers `{Externals} args cmap merged col m :
  ColorWorldMap.plot_block args cmap merged col m
  = (let kw := ColorWorldMap.plot_kwargs args cmap col in
     let opening :=
       Figure (ColorWorldMap.width args) (ColorWorldMap.height args)
         (ColorWorldMap.dpi args) in
     match figure_error (ColorWorldMap.width args) (ColorWorldMap.height args)
             (ColorWorldMap.dpi args) with
     | Some e => (Raised e, m)
     | None =>
         match plot merged kw with
         | inl e => (Raised e, logged m [opening])
         | inr drawn =>
             match plot_error merged kw None with
             | Some e => (Raised e, logged m [opening])
             | None =>
                 if ColorWorldMap.legend args then
                   match plot_error merged kw (Some (cwm_legend args)) with
                   | Some e => (Raised e, logged m (cwm_map args drawn))
                   | None => (Done (), logged m (cwm_layers args drawn))
                   end
                 else (Done (), logged m (cwm_map args drawn))
             end
         end
     end).
Proof. apply cwm_plot_block_run. Qed.

(** X10. color_world_map.py, the label block: it never stops the run.
    It does nothing unless [--label-topn] is positive; otherwise it only
    places labels, and when placing them raises, it only warns. *)
Theorem labelling_never_stops_the_run `{Externals} args merged m :
  ∃ t,
    ColorWorldMap.label_block args merged m = (Done (), logged m t)
    ∧ Forall is_label t
    ∧ (ColorWorldMap.label_topn args ≤ 0 → t = [])
    ∧ (0 < ColorWorldMap.label_topn args →
       ∀ e, top_labels merged (ColorWorldMap.label_topn args)
              (ColorWorldMap.value_col args) (ColorWorldMap.code_col args)
              (ColorWorldMap.format_values args) = inl e →
            Warn (LabelFailure e) ∈ t).
Proof.
  eexists. split; [apply label_block_run|]. split; [|split].
  - case_bool_decide; [|done].
    destruct (top_labels _ _ _ _ _) as [e|labels]; [by repeat constructor|].
    apply Forall_fmap, Forall_forall. by intros [[x y] text] _.
  - intros Hn. by rewrite bool_decide_false by lia.
  - intros Hn e He. rewrite bool_decide_true, He by done.
    apply list_elem_of_here.
Qed.

(** X11. The save blocks: both scripts call [savefig] once.  If it
    raises, color_world_map.py prints the failure on stderr and exits
    with status 1, while [generate_map] of pain-to-map.py prints it and
    returns [False]; otherwise the path is printed, and [generate_map]
    returns [True]. *)
Theorem save_failure_is_reported `{Externals} args path m :
  ColorWorldMap.save_block args m
  = (let out := ColorWorldMap.out args in
     let dpi := ColorWorldMap.dpi args in
     match savefig out dpi with
     | None => (Done (), logged m [Savefig out dpi; Stdout (Saved out)])
     | Some e =>
         (SysExit 1, logged m [Savefig out dpi; Stderr (SaveFailure e)])
     end)
  ∧ PainToMap.save_block path m
    = match savefig path 100 with
      | None =>
          (Done (Some true), logged m [Savefig path 100; Stdout (Saved path)])
      | Some e =>
          (Done (Some false),
           logged m [Savefig path 100; Stderr (SaveFailure e)])
      end.
Proof. split; [apply cwm_save_block_run | apply ptm_save_block_run]. Qed.


(** X13. pain-to-map.py, the plot call: [generate_map] plots the column
    called [value] whatever [args_value_col] is.  The drawing stage does
    not depend on that argument, and on a merged table without a column
    [value] it raises [KeyError] after opening the figure; nothing is
    saved. *)
Theorem pain_map_plots_the_column_named_value `{Externals}
    cmap merged vcol path m :
  PainToMap.draw_stage cmap merged vcol path
  = PainToMap.draw_stage cmap merged "value" path
  ∧ ("value" ∉ columns merged →
     PainToMap.draw_stage cmap merged vcol path m
     = (Raised (KeyError "value"),
        logged m [Figure (256 # 1) (128 # 1) 100])).
Proof.
  split; [done|]. intros Hcol.
  unfold PainToMap.draw_stage, PainToMap.plot_block. cbv zeta.
  rewrite !run_bind, emit_logged. unfold draw, plot. simpl.
  by rewrite decide_False.
Qed.

(** X14. pain-to-map.py, [generate_map]: the caller's table is changed in
    place.  However the call ends, the table is afterwards the cleaned one
    if it has both columns, and untouched if it lacks one. *)
Theorem generate_map_cleans_the_callers_table `{Externals}
    wp op cmap vcol ccol m :
  frame (PainToMap.generate_map wp op cmap vcol ccol m).2
  = if bool_decide (ccol ∈ columns (frame m) ∧ vcol ∈ columns (frame m))
    then cleaned ccol (frame m) else frame m.
Proof.
  unfold PainToMap.generate_map. cbv zeta. rewrite run_bind. cbn [get_frame].
  case_bool_decide as Hmiss.
  - rewrite bool_decide_false by tauto. done.
  - assert (ccol ∈ columns (frame m)) as Hc.
    { destruct (decide (ccol ∈ columns (frame m))); tauto. }
    assert (vcol ∈ columns (frame m)) as Hv.
    { destruct (decide (vcol ∈ columns (frame m))); tauto. }
    rewrite bool_decide_true by done.
    unfold PainToMap.join_stage. rewrite run_bind, run_bind.
    rewrite clean_codes_run by done.
    set (mc := mkMachine (cleaned ccol (frame m)) (log m)).
    change (cleaned ccol (frame m)) with (frame mc).
    rewrite <- run_bind.
    apply keeps_bind.
    + apply keeps_bind; [apply _load_world_keeps|].
      intros world. apply ptm_merge_block_keeps.
    + intros merged. apply keeps_bind; [apply warn_unmatched_keeps|].
      intros _. apply keeps_bind; [apply ptm_projection_block_keeps|].
      intros projected. apply ptm_draw_stage_keeps.
Qed.

(** X15. Cleaning the codes twice is cleaning them once: the step
    [astype(str).str.upper().str.strip()] changes nothing on a column it
    has already cleaned. *)
Theorem cleaning_twice_changes_nothing `{Externals} c m :
  (clean_codes c;; clean_codes c) m = clean_codes c m.
Proof.
  rewrite run_bind.
  destruct (decide (c ∈ columns (frame m))) as [Hc|Hc].
  - rewrite clean_codes_run by done. rewrite clean_codes_run by done.
    simpl. do 2 f_equal. unfold cleaned. simpl. f_equal.
    rewrite <- list_fmap_compose. apply list_fmap_ext. intros i r _. simpl.
    rewrite lookup_total_insert_eq, insert_insert_eq. f_equal.
    apply clean_code_idemp.
  - unfold clean_codes. rewrite !run_bind. cbn [get_frame].
    unfold getitem. by rewrite decide_False.
Qed.

(** X16. The cleaning step on one table: labels, number and order of
    rows and every other column stay.  Each code that is present becomes a
    string that [upper()] and [strip()] leave unchanged.  A missing code
    stays missing under pandas 3; under an older pandas, where
    [astype(str)] writes it as a string, it becomes that string in upper
    case. *)
Theorem cleaned_codes_are_upper_case_and_trimmed `{Externals} c m m' :
  clean_codes c m = (Done (), m') →
  log m' = log m
  ∧ columns (frame m') = columns (frame m)
  ∧ Forall2
      (λ r r',
         (∀ c', c' ≠ c → r' !! c' = r !! c')
         ∧ (r !!! c ≠ NA →
            ∃ s, r' !! c = Some (Text s)
                 ∧ PyStr.upper s = s ∧ PyStr.strip s = s)
         ∧ (r !!! c = NA →
            r' !! c
            = Some (match str_of_na with
                    | Some written => Text (PyStr.strip (PyStr.upper written))
                    | None => NA
                    end)))
      (rows (frame m)) (rows (frame m')).
Proof.
  intros [Hc ->]%clean_codes_inv. split; [done|]. split; [done|].
  simpl. apply Forall2_fmap_r, Forall_Forall2_diag, Forall_forall.
  intros r _. split; [|split].
  - intros c' Hne. by rewrite lookup_insert_ne.
  - intros Hv. rewrite lookup_insert_eq.
    assert (∃ t, astype_str_cell str_of_na (r !!! c) = Text t) as [t Ht].
    { destruct (r !!! c); [done|..]; by eexists. }
    exists (PyStr.strip (PyStr.upper t)). unfold clean_code. rewrite Ht.
    split; [done|]. split.
    + by rewrite <- PyStrFacts.upper_strip, PyStrFacts.upper_idemp.
    + apply PyStrFacts.strip_idemp.
  - intros Hv. rewrite lookup_insert_eq, Hv. unfold clean_code. simpl.
    by destruct str_of_na.
Qed.

(** X17. How the scripts can end.  [parse_args] exits with status 2 on a
    command line that it rejects and with status 0 after printing the
    help; otherwise the run is that of the parsed arguments.  After the
    command line is parsed, [main] of color_world_map.py exits with status
    1 or not at all, and [generate_map] and the block under [__main__] of
    pain-to-map.py never call [sys.exit]. *)
Theorem exit_statuses_of_the_scripts `{Externals} :
  (∀ parse argv m,
     ColorWorldMap.main_of_argv parse argv m
     = match parse argv with
       | Parsed args => ColorWorldMap.main args m
       | UsageError error => (SysExit 2, logged m [Stderr (Usage error)])
       | HelpAsked => (SysExit 0, logged m [Stdout Help])
       end)
  ∧ (∀ parse argv m,
       PainToMap.script_of_argv parse argv m
       = match parse argv with
         | Parsed DATA_MODE => PainToMap.run_as_script DATA_MODE m
         | UsageError error => (SysExit 2, logged m [Stderr (Usage error)])
         | HelpAsked => (SysExit 0, logged m [Stdout Help])
         end)
  ∧ (∀ parse argv,
       exits_only [0; 1; 2] (ColorWorldMap.main_of_argv parse argv))
  ∧ (∀ args, exits_only [1] (ColorWorldMap.main args))
  ∧ (∀ parse argv, exits_only [0; 2] (PainToMap.script_of_argv parse argv))
  ∧ (∀ mode, exits_only [] (PainToMap.run_as_script mode))
  ∧ (∀ wp op cmap vcol ccol,
       exits_only [] (PainToMap.generate_map wp op cmap vcol ccol)).
Proof.
  pose proof (@elem_of_nil Z) as Hnil.
  split; [|split; [|split; [|split; [|split; [|split]]]]].
  - intros parse argv m.
    unfold ColorWorldMap.main_of_argv, parse_args, eprint, print.
    rewrite run_bind. destruct (parse argv) as [args|error|]; [done|..];
      by rewrite run_bind, emit_logged.
  - intros parse argv m.
    unfold PainToMap.script_of_argv, parse_args, eprint, print.
    rewrite run_bind. destruct (parse argv) as [args|error|]; [done|..];
      by rewrite run_bind, emit_logged.
  - intros parse argv. apply exits_bind.
    + apply (exits_more [0; 2]); [intros x; rewrite ?elem_of_cons, ?Hnil; tauto | apply parse_args_exits].
    + intros args. apply (exits_more [1]); [intros x; rewrite ?elem_of_cons, ?Hnil; tauto | apply cwm_main_exits].
  - apply cwm_main_exits.
  - intros parse argv. apply exits_bind; [apply parse_args_exits|].
    intros mode. apply (exits_more []); [intros x; rewrite ?elem_of_cons, ?Hnil; tauto | apply run_as_script_exits].
  - apply run_as_script_exits.
  - apply ptm_generate_map_exits.
Qed.

(** X18. The warning about unmatched codes, after the cleaning of a table
    in which no code is missing: the block ends normally; the codes it
    lists are in ascending order and none is listed twice, and the count
    it gives is their number. *)
Theorem unmatched_codes_are_listed_in_order `{Externals}
    merged (df : DataFrame) code_col value_col key key_name (lg : list event) :
  code_col ∈ columns df →
  codes_present code_col df →
  value_col ∈ columns merged → key ∈ columns merged →
  ∃ missing,
    warn_unmatched merged code_col value_col key key_name
      (mkMachine (cleaned code_col df) lg)
    = (Done (),
       mkMachine (cleaned code_col df)
         (lg ++ match missing with
                | [] => []
                | _ => [Warn (UnmatchedCodes (length missing) key_name missing)]
                end))
    ∧ StronglySorted code_le missing
    ∧ NoDup missing.
Proof.
  intros Hcode Hpresent Hvalue Hkey.
  destruct (warn_unmatched_in_order merged code_col value_col key key_name
              (mkMachine (cleaned code_col df) lg))
    as (missing & Hrun & Hord & Hnd & _); try done.
  { by apply cleaned_codes_text. }
  exists missing. split; [|done]. rewrite Hrun. by destruct missing.
Qed.

(** X19. pain-to-map.py run as a script: a [--mode] that is not one of
    the nine keys of [INPUT_PATHS] raises [KeyError] for that mode
    before any file is read. *)
Theorem unknown_mode_raises `{Externals} mode m :
  mode ∉ PainToMap.INPUT_ITEMS.*1 →
  PainToMap.run_as_script mode m = (Raised (KeyError mode), m).
Proof.
  intros Hmode. unfold PainToMap.run_as_script. cbv zeta.
  rewrite run_bind. unfold dict_getitem, PainToMap.INPUT_PATHS.
  by rewrite (not_elem_of_list_to_map_1 _ _ Hmode).
Qed.

(** X20. pain-to-map.py run as a script: for each of the nine modes the
    table is read from the path of [INPUT_PATHS] and handed to
    [generate_map] with the colormap of [CMAPS], the columns [value] and
    [sov_a3], the geometry file [countries_map.zip] and the output
    [map-<mode>.png] under [out/maps]; an exception of [pd.read_csv] is
    not caught. *)
Theorem known_mode_generates_its_map `{Externals} mode m :
  mode ∈ PainToMap.INPUT_ITEMS.*1 →
  ∃ path cmap,
    PainToMap.INPUT_PATHS !! mode = Some path
    ∧ PainToMap.CMAPS !! mode = Some cmap
    ∧ PainToMap.run_as_script mode m
      = match read_csv path with
        | inl e => (Raised e, logged m [ReadCsv path])
        | inr df_pain =>
            PainToMap.generate_map
              (os_path_join os_sep PainToMap.BASE_PATH ["countries_map.zip"])
              (Some (os_path_join os_sep PainToMap.BASE_PATH
                       ["out"; "maps"; "map-" +:+ mode +:+ ".png"]))
              cmap "value" "sov_a3"
              (mkMachine df_pain (log m ++ [ReadCsv path]))
        end.
Proof.
  intros Hmode.
  assert (∃ path cmap, PainToMap.INPUT_PATHS !! mode = Some path
                       ∧ PainToMap.CMAPS !! mode = Some cmap)
    as (path & cmap & Hpath & Hcmap).
  { generalize dependent mode. intros mode Hmode. simpl in Hmode.
    repeat (apply elem_of_cons in Hmode as [-> | Hmode];
            [eexists _, _; split; reflexivity|]).
    by apply elem_of_nil in Hmode. }
  exists path, cmap. split; [done|]. split; [done|].
  unfold PainToMap.run_as_script. cbv zeta.
  rewrite run_bind. unfold dict_getitem at 1. rewrite Hpath.
  cbn [lift mret script_ret]. rewrite run_bind, emit_logged, run_bind.
  destruct (read_csv path) as [e|df]; [done|]. cbn [lift mret script_ret].
  rewrite run_bind. cbn [set_frame logged frame log].
  rewrite run_bind. unfold dict_getitem. by rewrite Hcmap.
Qed.

(** X21. color_world_map.py: a [--value-col] that is also a column of the
    geometry table does not keep its name in the merge, which gives the
    two columns the suffixes [_x] and [_y].  The merged table then has no
    column of that name, and the warning block raises [KeyError] for it. *)
Theorem value_column_of_both_tables_is_lost args world m merged m' :
  ColorWorldMap.merge_block args world m = (Done merged, m') →
  ColorWorldMap.value_col args ∈ columns world →
  ColorWorldMap.value_col args ≠ ColorWorldMap.code_col args →
  Forall (λ c, ColorWorldMap.value_col args ≠ c +:+ "_x"
               ∧ ColorWorldMap.value_col args ≠ c +:+ "_y")
    (columns world ++ ColorWorldMap.merge_labels args) →
  (ColorWorldMap.value_col args ∉ columns merged)
  ∧ ((ColorWorldMap.value_col args +:+ "_x") ∈ columns merged)
  ∧ ((ColorWorldMap.value_col args +:+ "_y") ∈ columns merged)
  ∧ warn_unmatched merged (ColorWorldMap.code_col args)
      (ColorWorldMap.value_col args) "iso_a3" "ISO-3" m'
    = (Raised (KeyError (ColorWorldMap.value_col args)), m').
Proof.
  intros [-> (right & Hsel & Hmerge)]%cwm_merge_block_inv Hworld Hne Hfree.
  apply select_inv in Hsel as (Hcols & _ & Hsub).
  apply merge_inv in Hmerge as (_ & _ & _ & _ & Hmcols & _).
  rewrite Hcols in Hmcols.
  assert (ColorWorldMap.value_col args ∈ ColorWorldMap.merge_labels args) as Hv.
  { unfold ColorWorldMap.merge_labels. apply elem_of_app. left.
    apply list_elem_of_further, list_elem_of_here. }
  assert (ColorWorldMap.code_col args ∈ ColorWorldMap.merge_labels args) as Hc.
  { unfold ColorWorldMap.merge_labels. apply elem_of_app. left.
    apply list_elem_of_here. }
  assert (ColorWorldMap.value_col args
            ∈ right_columns (ColorWorldMap.merge_labels args) "iso_a3"
                (ColorWorldMap.code_col args)) as Hrc.
  { unfold right_columns. case_decide; [|done]. by apply list_elem_of_filter. }
  assert (shared (columns world) (ColorWorldMap.merge_labels args) "iso_a3"
            (ColorWorldMap.code_col args) (ColorWorldMap.value_col args) = true)
    as Hshared by by apply bool_decide_eq_true.
  assert (ColorWorldMap.value_col args ∉ columns merged) as Hlost.
  { rewrite Hmcols. by apply merged_label_lost. }
  split; [done|]. split; [|split].
  - rewrite Hmcols. apply elem_of_app. left. apply list_elem_of_fmap.
    exists (ColorWorldMap.value_col args). split; [|done].
    unfold left_label. by rewrite Hshared.
  - rewrite Hmcols. apply elem_of_app. right. apply list_elem_of_fmap.
    exists (ColorWorldMap.value_col args). split; [|done].
    unfold right_label. by rewrite Hshared.
  - unfold warn_unmatched. rewrite run_bind. cbn [get_frame].
    rewrite run_bind, (getitem_inr _ _ (Hsub _ Hc)). cbn [lift mret script_ret].
    rewrite run_bind. unfold getitem. by rewrite decide_False.
Qed.

(** X22. pain-to-map.py, [generate_map] from end to end, on a table in
    which no code is missing: when the join, the reprojection, the plot
    and [savefig] go through and the merged table has the columns the
    later blocks ask for, the call returns [True].  It leaves the caller's
    table cleaned and does, in this order: the warning (if a code is
    unmatched), the reprojection to EPSG:4326, a 256 by 128 figure at 100
    dpi with the map, the fixed title, and the file, written to
    [output_path] or else to [../data/world.png]. *)
Theorem generate_map_returns_true `{Externals}
    wp op cmap vcol ccol m merged m1 projected :
  codes_present ccol (frame m) →
  PainToMap.join_stage wp vcol ccol m = (Done merged, m1) →
  vcol ∈ columns merged → PainToMap.CODE_COLUMN ∈ columns merged →
  to_crs merged "EPSG:4326" = inr projected →
  "value" ∈ columns projected →
  plot_error projected (mkPlot "value" (Some (ByName cmap)) None None None)
    None = None →
  savefig
    (default (".." +:+ os_sep +:+ "data" +:+ os_sep +:+ "world.png") op) 100
  = None →
  ∃ missing drawn,
    plot projected (mkPlot "value" (Some (ByName cmap)) None None None)
    = inr drawn
    ∧ PainToMap.generate_map wp op cmap vcol ccol m
      = (Done (Some true),
         mkMachine (cleaned ccol (frame m))
           (log m1
              ++ ptm_trail missing drawn
                   (default
                      (".." +:+ os_sep +:+ "data" +:+ os_sep +:+ "world.png")
                      op))).
Proof.
  intros Hpresent Hjoin Hv Hkey Hcrs Hvalue Hplot_error Hsave.
  pose proof Hjoin as (Hc0 & Hv0 & world & ma & mb & _ & Hframe & _)%ptm_join_stage_inv.
  destruct (warn_unmatched_in_order merged ccol vcol PainToMap.CODE_COLUMN
              PainToMap.CODE_COLUMN m1) as (missing & Hwarn & _); try done.
  { by rewrite Hframe. }
  { rewrite Hframe. by apply cleaned_codes_text. }
  destruct (plot projected (mkPlot "value" (Some (ByName cmap)) None None None))
    as [e|drawn] eqn:Hplot.
  { unfold plot in Hplot. simpl in Hplot. by rewrite decide_True in Hplot. }
  exists missing, drawn. split; [done|].
  unfold PainToMap.generate_map. cbv zeta. rewrite run_bind. cbn [get_frame].
  rewrite bool_decide_false by tauto.
  rewrite run_bind, Hjoin, run_bind, Hwarn, run_bind.
  rewrite ptm_projection_block_run, Hcrs.
  unfold PainToMap.draw_stage.
  rewrite run_bind, (ptm_plot_block_run _ _ _ drawn) by done.
  rewrite ptm_save_block_run.
  change PainToMap.DPI_VALUE with 100. rewrite Hsave.
  rewrite !logged_logged. unfold logged, ptm_trail. simpl.
  by rewrite Hframe.
Qed.


(** X24. color_world_map.py: the check of the CSV columns covers the code
    and the value column only.  With a [--name-col] that the CSV does not
    have, the run passes the check, cleans the codes, loads the geometry
    and then raises [KeyError] for that column when it selects the columns
    to merge. *)
Theorem name_column_is_not_checked `{Externals} args df n path raw m :
  read_csv (ColorWorldMap.data args) = inr df →
  ColorWorldMap.code_col args ∈ columns df →
  ColorWorldMap.value_col args ∈ columns df →
  ColorWorldMap.name_col args = Some n → n ≠ EmptyString → n ∉ columns df →
  get_path "naturalearth_lowres" = inr path →
  read_file path = inr raw →
  "name" ∈ columns raw → "iso_a3" ∈ columns raw →
  ColorWorldMap.main args m
  = (Raised (KeyError n),
     mkMachine (cleaned (ColorWorldMap.code_col args) df)
       (log m ++ [ReadCsv (ColorWorldMap.data args); ReadFile path])).
Proof.
  intros Hcsv Hcode Hvalue Hn Hne Hmiss Hpath Hraw Hname Hiso.
  unfold ColorWorldMap.main, ColorWorldMap.join_stage.
  rewrite run_bind, run_bind, (load_data_run args df) by done.
  rewrite run_bind, clean_codes_run by done.
  rewrite run_bind, (load_world_corrects_three_codes path raw) by done.
  unfold ColorWorldMap.merge_block. rewrite run_bind. cbn [get_frame].
  rewrite run_bind. cbn [frame logged].
  unfold select, first_missing, ColorWorldMap.merge_labels.
  rewrite Hn. simpl. rewrite bool_decide_true by done. simpl.
  rewrite filter_cons, decide_False by (by intros ?).
  rewrite filter_cons, decide_False by (by intros ?).
  rewrite filter_cons, decide_True by done. simpl.
  unfold logged. simpl. by rewrite <- app_assoc.
Qed.

(** X25. The warning about unmatched codes in the run, for each script on
    its own, on a value table in which no code is missing (or with a
    pandas whose [astype(str)] makes a string of a missing entry): after
    the join the script warns exactly when some provided code is
    unmatched, the warning block appends one warning or none, the codes it
    lists are the provided codes for which no merged row has a value, and
    whatever they are the run goes on to the projection. *)
Theorem unmatched_codes_are_warned `{Externals} :
  (∀ (args : ColorWorldMap.Args) (df : DataFrame) (m0 m1 : Machine)
     (merged : DataFrame),
     read_csv (ColorWorldMap.data args) = inr df →
     codes_present (ColorWorldMap.code_col args) df →
     ColorWorldMap.join_stage args m0 = (Done merged, m1) →
     ColorWorldMap.value_col args ∈ columns merged →
     "iso_a3" ∈ columns merged →
     ∃ missing,
       let after :=
         mkMachine (frame m1) (log m1 ++ unmatched_warning "ISO-3" missing) in
       warn_unmatched merged (ColorWorldMap.code_col args)
         (ColorWorldMap.value_col args) "iso_a3" "ISO-3" m1 = (Done (), after)
       ∧ (∀ c, c ∈ missing ↔
               provides (frame m1) (ColorWorldMap.code_col args) c ∧
               ¬ has_value_for merged "iso_a3" (ColorWorldMap.value_col args) c)
       ∧ (unmatched_warning "ISO-3" missing ≠ [] ↔ ∃ c, c ∈ missing)
       ∧ ColorWorldMap.main args m0
         = (ColorWorldMap.projection_block args merged
              ≫= ColorWorldMap.draw_stage args) after)
  ∧ (∀ (path : string) (output_path : option string) (cmap vcol ccol : string)
       (n0 n1 : Machine) (merged' : DataFrame),
       codes_present ccol (frame n0) →
       PainToMap.join_stage path vcol ccol n0 = (Done merged', n1) →
       vcol ∈ columns merged' →
       PainToMap.CODE_COLUMN ∈ columns merged' →
       ∃ missing,
         let after :=
           mkMachine (frame n1)
             (log n1 ++ unmatched_warning PainToMap.CODE_COLUMN missing) in
         warn_unmatched merged' ccol vcol PainToMap.CODE_COLUMN
           PainToMap.CODE_COLUMN n1 = (Done (), after)
         ∧ (∀ c, c ∈ missing ↔
                 provides (frame n1) ccol c ∧
                 ¬ has_value_for merged' PainToMap.CODE_COLUMN vcol c)
         ∧ (unmatched_warning PainToMap.CODE_COLUMN missing ≠ []
            ↔ ∃ c, c ∈ missing)
         ∧ PainToMap.generate_map path output_path cmap vcol ccol n0
           = (PainToMap.projection_block merged'
                ≫= λ projected,
                     PainToMap.draw_stage cmap projected vcol
                       (default
                          (".." +:+ os_sep +:+ "data" +:+ os_sep +:+ "world.png")
                          output_path)) after).
Proof.
  assert (∀ name (missing : list cell),
            unmatched_warning name missing ≠ [] ↔ ∃ c, c ∈ missing) as Hiff.
  { intros name [|c missing]; unfold unmatched_warning; simpl.
    - split; [done | by intros [c ?%elem_of_nil]].
    - split; [intros _; exists c; apply list_elem_of_here | done]. }
  split.
  - intros args df m0 m1 merged Hcsv Hpresent Hjoin Hvalue Hkey.
    pose proof Hjoin as
      (df' & world & ma & mb & Hcsv' & Hcode & _ & _ & Hframe & _)%cwm_join_stage_inv.
    assert (df' = df) as -> by congruence.
    destruct (warn_unmatched_in_order merged (ColorWorldMap.code_col args)
                (ColorWorldMap.value_col args) "iso_a3" "ISO-3" m1)
      as (missing & Hwarn & _ & _ & Hmissing); try done.
    { by rewrite Hframe. }
    { rewrite Hframe. by apply cleaned_codes_text. }
    exists missing. cbv zeta. split; [done|]. split; [done|]. split; [done|].
    unfold ColorWorldMap.main. rewrite run_bind, Hjoin, run_bind, Hwarn.
    reflexivity.
  - intros path output_path cmap vcol ccol n0 n1 merged'
      Hpresent Hjoin' Hvalue' Hkey'.
    pose proof Hjoin'
      as (Hccol & Hvcol & world & ma & mb & _ & Hframe & Hmerge)%ptm_join_stage_inv.
    destruct (warn_unmatched_in_order merged' ccol vcol PainToMap.CODE_COLUMN
                PainToMap.CODE_COLUMN n1)
      as (missing & Hwarn & _ & _ & Hmissing); try done.
    { by rewrite Hframe. }
    { rewrite Hframe. by apply cleaned_codes_text. }
    exists missing. cbv zeta. split; [done|]. split; [done|]. split; [done|].
    unfold PainToMap.generate_map. rewrite run_bind. cbn [get_frame].
    rewrite bool_decide_false by (intros [?|?]; done).
    rewrite run_bind, Hjoin', run_bind, Hwarn. reflexivity.
Qed.

(** X26. color_world_map.py with [--scheme]: the classifier is called on
    the values (line 136) after the colormap is made and before the figure
    is opened.  If that call raises, the run ends with its exception, with
    nothing drawn and nothing saved. *)
Theorem classifier_call_failure_ends_the_run `{Externals}
    args merged values s b cm e m :
  truthy (ColorWorldMap.scheme args) = true →
  getitem merged (ColorWorldMap.value_col args) = inr values →
  dropna values ≠ [] →
  ColorWorldMap.classify_values (dropna values) (ColorWorldMap.scheme args)
    (ColorWorldMap.k args)
  = ColorWorldMap.construct s →
  mc_fit s = inr b →
  get_cmap (ColorWorldMap.cmap args) (Some (length b)) = inr cm →
  mc_call (mkClassifier s b) values = inl e →
  ColorWorldMap.draw_stage args merged m = (Raised e, m).
Proof.
  intros Hscheme Hvalues Hvalid Hclass Hfit Hcmap Hcall.
  unfold ColorWorldMap.draw_stage.
  rewrite run_bind, (classification_block_run args merged values s) by done.
  unfold cwm_classes_outcome. by rewrite Hfit, Hcmap, Hcall.
Qed.

(** ** The further properties on the small worlds *)

(** X1 with a CSV file that does not exist. *)
Lemma unreadable_csv_ends_the_run_witness :
  let E := Fixture.unreadable in
  let args := Fixture.plain_args in
  let e := LibraryError "No such file or directory" in
  let m := Fixture.fresh Fixture.nothing in
  @read_csv E (ColorWorldMap.data args) = inl e
  ∧ @ColorWorldMap.main E args m
    = (SysExit 1,
       logged m [ReadCsv (ColorWorldMap.data args); Stderr (CsvReadFailure e)]).
Proof.
  intros E args e m.
  assert (@read_csv E (ColorWorldMap.data args) = inl e) as H1 by reflexivity.
  split; [exact H1|].
  exact (unreadable_csv_ends_the_run (H := E) args e m H1).
Defined.

(** X2 on the rows in the shape of the Natural Earth table. *)
Lemma load_world_fixes_three_codes_witness :
  let E := Fixture.friendly in
  let raw := Fixture.natural_earth in
  let m := Fixture.fresh Fixture.nothing in
  (@get_path E "naturalearth_lowres" = inr "naturalearth_lowres"
   ∧ @read_file E "naturalearth_lowres" = inr raw
   ∧ "name" ∈ columns raw ∧ "iso_a3" ∈ columns raw)
  ∧ ∃ world,
      @ColorWorldMap.load_world E m
      = (Done world, logged m [ReadFile "naturalearth_lowres"])
      ∧ columns world = columns raw
      ∧ Forall2
          (λ r r',
             r' = corrected "name" "iso_a3" r
             ∧ (∀ c, c ≠ "iso_a3" → r' !!! c = r !!! c)
             ∧ (r !!! "name" ∉ [Text "France"; Text "Norway"; Text "Somaliland"]
                → r' = r))
          (rows raw) (rows world).
Proof.
  intros E raw m.
  assert (@get_path E "naturalearth_lowres" = inr "naturalearth_lowres") as H1
    by reflexivity.
  assert (@read_file E "naturalearth_lowres" = inr raw) as H2 by reflexivity.
  assert ("name" ∈ columns raw) as H3 by decided.
  assert ("iso_a3" ∈ columns raw) as H4 by decided.
  split; [exact (conj H1 (conj H2 (conj H3 H4)))|].
  exact (load_world_fixes_three_codes (H := E) "naturalearth_lowres" raw m
           H1 H2 H3 H4).
Defined.

(** X3 on a geometry file that has codes and shapes only; the loader of
    pain-to-map.py where the data set [naturalearth_lowres] is not to be
    found. *)
Lemma loaders_need_the_name_column_witness :
  let E := Fixture.nameless in
  let E' :=
    Fixture.with_get_path E
      (λ name, inl (ValueError "No matching item found for the query")) in
  let raw := Fixture.nameless_earth in
  let m := Fixture.fresh Fixture.pain_csv in
  (@get_path E "naturalearth_lowres" = inr "naturalearth_lowres"
   ∧ @read_file E "naturalearth_lowres" = inr raw
   ∧ ("name" ∉ columns raw)
   ∧ @read_file E' "countries_map.zip" = inr raw
   ∧ "SOVEREIGNT" ∉ columns raw)
  ∧ @ColorWorldMap.load_world E m
    = (Raised (KeyError "name"), logged m [ReadFile "naturalearth_lowres"])
  ∧ @PainToMap._load_world E' "countries_map.zip" true m
    = (Raised (KeyError "SOVEREIGNT"),
       logged m [ReadFile "countries_map.zip"; Stdout (Printed raw)]).
Proof.
  intros E E' raw m.
  assert (@get_path E "naturalearth_lowres" = inr "naturalearth_lowres") as H1
    by reflexivity.
  assert (@read_file E "naturalearth_lowres" = inr raw) as H2 by reflexivity.
  assert ("name" ∉ columns raw) as H3 by decided.
  assert (@read_file E' "countries_map.zip" = inr raw) as H4 by reflexivity.
  assert ("SOVEREIGNT" ∉ columns raw) as H5 by decided.
  split; [exact (conj H1 (conj H2 (conj H3 (conj H4 H5))))|]. split.
  - exact (proj1 (loaders_need_the_name_column (H := E))
             "naturalearth_lowres" raw m H1 H2 H3).
  - exact (proj2 (loaders_need_the_name_column (H := E'))
             "countries_map.zip" true raw m H4 H5).
Defined.

(** X4 on the rows in the shape of the admin-0 table, which has [SOV_A3]
    and no [sov_a3]. *)
Lemma pain_loader_writes_sov_a3_witness :
  let E := Fixture.friendly in
  let raw := Fixture.countries_map in
  let m := Fixture.fresh Fixture.pain_csv in
  (@read_file E "countries_map.zip" = inr raw ∧ "SOVEREIGNT" ∈ columns raw)
  ∧ @PainToMap._load_world E "countries_map.zip" false m
    = (Done (mkFrame
               (if decide ("sov_a3" ∈ columns raw) then columns raw
                else columns raw ++ ["sov_a3"])
               ((λ r, corrected "SOVEREIGNT" "sov_a3"
                        (with_column "sov_a3" (columns raw) r)) <$> rows raw)),
       logged m [ReadFile "countries_map.zip"]).
Proof.
  intros E raw m.
  assert (@read_file E "countries_map.zip" = inr raw) as H1 by reflexivity.
  assert ("SOVEREIGNT" ∈ columns raw) as H2 by decided.
  split; [exact (conj H1 H2)|].
  exact (pain_loader_writes_sov_a3 (H := E) "countries_map.zip" false raw m
           H1 H2).
Defined.

(** X6 for [--scheme fancy] on the merged table of the small world. *)
Lemma unknown_scheme_raises_witness :
  let E := Fixture.friendly in
  let args := Fixture.with_scheme "fancy" 5 in
  let m := Fixture.fresh Fixture.nothing in
  let merged :=
    Fixture.returned Fixture.nothing
      (@ColorWorldMap.join_stage E Fixture.plain_args m).1 in
  let r := rows merged !!! 1%nat in
  (truthy (ColorWorldMap.scheme args) = true
   ∧ (PyStr.lower (default EmptyString (ColorWorldMap.scheme args))
        ∉ scheme_names)
   ∧ ColorWorldMap.value_col args ∈ columns merged
   ∧ r ∈ rows merged
   ∧ r !!! ColorWorldMap.value_col args ≠ NA)
  ∧ (∀ y, @ColorWorldMap.classify_values E y (ColorWorldMap.scheme args)
            (ColorWorldMap.k args) m = (Done None, m))
  ∧ @ColorWorldMap.draw_stage E args merged m
    = (Raised (AttributeError "bins"), m).
Proof.
  intros E args m merged r.
  assert (truthy (ColorWorldMap.scheme args) = true) as H1 by reflexivity.
  assert (PyStr.lower (default EmptyString (ColorWorldMap.scheme args))
            ∉ scheme_names) as H2 by decided.
  assert (ColorWorldMap.value_col args ∈ columns merged) as H3 by decided.
  assert (r ∈ rows merged) as H4 by decided.
  assert (r !!! ColorWorldMap.value_col args ≠ NA) as H5 by decided.
  split; [exact (conj H1 (conj H2 (conj H3 (conj H4 H5))))|].
  exact (unknown_scheme_raises (H := E) args merged r m H1 H2 H3 H4 H5).
Defined.

(** X7 for [--scheme quantiles] on a value table without values. *)
Lemma no_values_to_classify_ends_the_run_witness :
  let E := Fixture.libraries Fixture.null_csv Fixture.projecting in
  let args := Fixture.with_scheme "quantiles" 5 in
  let m := Fixture.fresh Fixture.nothing in
  let merged :=
    Fixture.returned Fixture.nothing
      (@ColorWorldMap.join_stage E Fixture.plain_args m).1 in
  (truthy (ColorWorldMap.scheme args) = true
   ∧ ColorWorldMap.value_col args ∈ columns merged
   ∧ (∀ r, r ∈ rows merged → r !!! ColorWorldMap.value_col args = NA))
  ∧ @ColorWorldMap.draw_stage E args merged m
    = (SysExit 1, logged m [Stderr NoNumericValues]).
Proof.
  intros E args m merged.
  assert (truthy (ColorWorldMap.scheme args) = true) as H1 by reflexivity.
  assert (ColorWorldMap.value_col args ∈ columns merged) as H2 by decided.
  assert (∀ r, r ∈ rows merged → r !!! ColorWorldMap.value_col args = NA) as H3
    by (apply Forall_forall; decided).
  split; [exact (conj H1 (conj H2 H3))|].
  exact (no_values_to_classify_ends_the_run (H := E) args merged m H1 H2 H3).
Defined.

(** X8 on the merged table of the small world. *)
Lemma every_row_is_drawn_once_witness :
  let args := Fixture.plain_args in
  let cmap := mkCmap "viridis" None in
  let merged :=
    Fixture.returned Fixture.nothing
      (@ColorWorldMap.join_stage Fixture.friendly args
         (Fixture.fresh Fixture.nothing)).1 in
  "value" ∈ columns merged
  ∧ ∃ drawn,
      plot merged (ColorWorldMap.plot_kwargs args cmap "value") = inr drawn
      ∧ drawn
        = (patch_of args cmap "value"
             <$> filter (λ r, r !!! "value" ≠ NA) (rows merged))
          ++ (patch_of args cmap "value"
                <$> filter (λ r, r !!! "value" = NA) (rows merged))
      ∧ drawn ≡ₚ patch_of args cmap "value" <$> rows merged.
Proof.
  intros args cmap merged.
  assert ("value" ∈ columns merged) as H1 by decided.
  split; [exact H1|].
  exact (every_row_is_drawn_once args cmap "value" merged H1).
Defined.

(** X10 with three labels asked for and a placement that raises. *)
Lemma labelling_never_stops_the_run_witness :
  let E := Fixture.mislabelling in
  let args := Fixture.decorated None false 3 in
  let m := Fixture.fresh Fixture.nothing in
  ∃ t,
    @ColorWorldMap.label_block E args Fixture.natural_earth m
    = (Done (), logged m t)
    ∧ Warn (LabelFailure (KeyError "name")) ∈ t.
Proof.
  intros E args m.
  destruct (labelling_never_stops_the_run (H := E) args Fixture.natural_earth m)
    as (t & Hrun & _ & _ & Hwarn).
  exists t. split; [exact Hrun|].
  apply Hwarn; [reflexivity|reflexivity].
Defined.


(** X13 on a merged table whose values are under [score]. *)
Lemma pain_map_plots_the_column_named_value_witness :
  let E := Fixture.friendly in
  let m := Fixture.fresh Fixture.score_csv in
  let merged :=
    Fixture.returned Fixture.nothing
      (@PainToMap.join_stage E "countries_map.zip" "score" "sov_a3" m).1 in
  ("score" ∈ columns merged ∧ "value" ∉ columns merged)
  ∧ @PainToMap.draw_stage E "Greys" merged "score" "world.png" m
    = (Raised (KeyError "value"), logged m [Figure (256 # 1) (128 # 1) 100]).
Proof.
  intros E m merged.
  assert ("score" ∈ columns merged) as H1 by decided.
  assert ("value" ∉ columns merged) as H2 by decided.
  split; [exact (conj H1 H2)|].
  exact (proj2 (pain_map_plots_the_column_named_value (H := E) "Greys" merged
                  "score" "world.png" m) H2).
Defined.

(** X16 on a table whose codes are [DEU], missing and [XXX], under
    pandas 3. *)
Lemma cleaned_codes_are_upper_case_and_trimmed_witness :
  let E := Fixture.gappy in
  let m := Fixture.fresh Fixture.gappy_csv in
  let C := @clean_codes E "iso_a3" m in
  C = (Done (), C.2)
  ∧ log C.2 = log m
  ∧ columns (frame C.2) = columns (frame m)
  ∧ Forall2
      (λ r r',
         (∀ c', c' ≠ "iso_a3" → r' !! c' = r !! c')
         ∧ (r !!! "iso_a3" ≠ NA →
            ∃ s, r' !! "iso_a3" = Some (Text s)
                 ∧ PyStr.upper s = s ∧ PyStr.strip s = s)
         ∧ (r !!! "iso_a3" = NA →
            r' !! "iso_a3"
            = Some (match @str_of_na E with
                    | Some written => Text (PyStr.strip (PyStr.upper written))
                    | None => NA
                    end)))
      (rows (frame m)) (rows (frame C.2)).
Proof.
  intros E m C.
  assert (C = (Done (), C.2)) as H1 by evaluated.
  split; [exact H1|].
  exact (cleaned_codes_are_upper_case_and_trimmed (H := E) "iso_a3" m C.2 H1).
Defined.

(** X18 on the small world, where the code XXX has no geometry. *)
Lemma unmatched_codes_are_listed_in_order_witness :
  let E := Fixture.friendly in
  let args := Fixture.plain_args in
  let J := @ColorWorldMap.join_stage E args (Fixture.fresh Fixture.nothing) in
  let merged := Fixture.returned Fixture.nothing J.1 in
  let df := Fixture.values_csv in
  ("iso_a3" ∈ columns df
   ∧ @codes_present E "iso_a3" df
   ∧ "value" ∈ columns merged ∧ "iso_a3" ∈ columns merged)
  ∧ ∃ missing,
      warn_unmatched merged "iso_a3" "value" "iso_a3" "ISO-3"
        (mkMachine (@cleaned E "iso_a3" df) [])
      = (Done (),
         mkMachine (@cleaned E "iso_a3" df)
           ([] ++ match missing with
                  | [] => []
                  | _ => [Warn (UnmatchedCodes (length missing) "ISO-3" missing)]
                  end))
      ∧ StronglySorted code_le missing
      ∧ NoDup missing.
Proof.
  intros E args J merged df.
  assert ("iso_a3" ∈ columns df) as H1 by decided.
  assert (@codes_present E "iso_a3" df) as H2 by decided.
  assert ("value" ∈ columns merged) as H3 by decided.
  assert ("iso_a3" ∈ columns merged) as H4 by decided.
  split; [exact (conj H1 (conj H2 (conj H3 H4)))|].
  exact (unmatched_codes_are_listed_in_order (H := E) merged df "iso_a3"
           "value" "iso_a3" "ISO-3" [] H1 H2 H3 H4).
Defined.

(** X19 for [--mode pain]. *)
Lemma unknown_mode_raises_witness :
  let E := Fixture.friendly in
  let m := Fixture.fresh Fixture.nothing in
  ("pain" ∉ (@PainToMap.INPUT_ITEMS E).*1)
  ∧ @PainToMap.run_as_script E "pain" m = (Raised (KeyError "pain"), m).
Proof.
  intros E m.
  assert ("pain" ∉ (@PainToMap.INPUT_ITEMS E).*1) as H1 by decided.
  split; [exact H1|].
  exact (unknown_mode_raises (H := E) "pain" m H1).
Defined.

(** X20 for [--mode emo]. *)
Lemma known_mode_generates_its_map_witness :
  let E := Fixture.friendly in
  let m := Fixture.fresh Fixture.nothing in
  "emo" ∈ (@PainToMap.INPUT_ITEMS E).*1
  ∧ ∃ path cmap,
      @PainToMap.INPUT_PATHS E !! "emo" = Some path
      ∧ PainToMap.CMAPS !! "emo" = Some cmap
      ∧ @PainToMap.run_as_script E "emo" m
        = match @read_csv E path with
          | inl e => (Raised e, logged m [ReadCsv path])
          | inr df_pain =>
              @PainToMap.generate_map E
                (os_path_join (@os_sep E) (@PainToMap.BASE_PATH E)
                   ["countries_map.zip"])
                (Some (os_path_join (@os_sep E) (@PainToMap.BASE_PATH E)
                         ["out"; "maps"; "map-" +:+ "emo" +:+ ".png"]))
                cmap "value" "sov_a3"
                (mkMachine df_pain (log m ++ [ReadCsv path]))
          end.
Proof.
  intros E m.
  assert ("emo" ∈ (@PainToMap.INPUT_ITEMS E).*1) as H1 by decided.
  split; [exact H1|].
  exact (known_mode_generates_its_map (H := E) "emo" m H1).
Defined.

(** X21 for [--value-col pop_est], a column of both tables. *)
Lemma value_column_of_both_tables_is_lost_witness :
  let args := Fixture.with_value_col "pop_est" in
  let world := Fixture.census_earth in
  let m := Fixture.fresh Fixture.census_csv in
  let B := ColorWorldMap.merge_block args world m in
  let merged := Fixture.returned Fixture.nothing B.1 in
  (B = (Done merged, B.2)
   ∧ ColorWorldMap.value_col args ∈ columns world
   ∧ ColorWorldMap.value_col args ≠ ColorWorldMap.code_col args
   ∧ Forall (λ c, ColorWorldMap.value_col args ≠ c +:+ "_x"
                  ∧ ColorWorldMap.value_col args ≠ c +:+ "_y")
       (columns world ++ ColorWorldMap.merge_labels args))
  ∧ (ColorWorldMap.value_col args ∉ columns merged)
  ∧ ((ColorWorldMap.value_col args +:+ "_x") ∈ columns merged)
  ∧ ((ColorWorldMap.value_col args +:+ "_y") ∈ columns merged)
  ∧ warn_unmatched merged (ColorWorldMap.code_col args)
      (ColorWorldMap.value_col args) "iso_a3" "ISO-3" B.2
    = (Raised (KeyError (ColorWorldMap.value_col args)), B.2).
Proof.
  intros args world m B merged.
  assert (B = (Done merged, B.2)) as H1 by evaluated.
  assert (ColorWorldMap.value_col args ∈ columns world) as H2 by decided.
  assert (ColorWorldMap.value_col args ≠ ColorWorldMap.code_col args) as H3
    by decided.
  assert (Forall (λ c, ColorWorldMap.value_col args ≠ c +:+ "_x"
                       ∧ ColorWorldMap.value_col args ≠ c +:+ "_y")
            (columns world ++ ColorWorldMap.merge_labels args)) as H4
    by decided.
  split; [exact (conj H1 (conj H2 (conj H3 H4)))|].
  exact (value_column_of_both_tables_is_lost args world m merged B.2
           H1 H2 H3 H4).
Defined.

(** X22 on the small world, with every optional argument left out. *)
Lemma generate_map_returns_true_witness :
  let E := Fixture.friendly in
  let m := Fixture.fresh Fixture.pain_csv in
  let J := @PainToMap.join_stage E "countries_map.zip" "value" "sov_a3" m in
  let merged := Fixture.returned Fixture.nothing J.1 in
  let projected :=
    Fixture.given Fixture.nothing (@to_crs E merged "EPSG:4326") in
  let out := ".." +:+ @os_sep E +:+ "data" +:+ @os_sep E +:+ "world.png" in
  (@codes_present E "sov_a3" (frame m)
   ∧ J = (Done merged, J.2)
   ∧ "value" ∈ columns merged ∧ PainToMap.CODE_COLUMN ∈ columns merged
   ∧ @to_crs E merged "EPSG:4326" = inr projected
   ∧ "value" ∈ columns projected
   ∧ @plot_error E projected
       (mkPlot "value" (Some (ByName "Greys")) None None None) None = None
   ∧ @savefig E (default out None) 100 = None)
  ∧ ∃ missing drawn,
      plot projected (mkPlot "value" (Some (ByName "Greys")) None None None)
      = inr drawn
      ∧ @PainToMap.generate_map E "countries_map.zip" None "Greys" "value"
          "sov_a3" m
        = (Done (Some true),
           mkMachine (@cleaned E "sov_a3" (frame m))
             (log J.2 ++ ptm_trail missing drawn (default out None))).
Proof.
  intros E m J merged projected out.
  assert (@codes_present E "sov_a3" (frame m)) as H0 by decided.
  assert (J = (Done merged, J.2)) as H1 by evaluated.
  assert ("value" ∈ columns merged) as H2 by decided.
  assert (PainToMap.CODE_COLUMN ∈ columns merged) as H3 by decided.
  assert (@to_crs E merged "EPSG:4326" = inr projected) as H4 by evaluated.
  assert ("value" ∈ columns projected) as H5 by decided.
  assert (@plot_error E projected
            (mkPlot "value" (Some (ByName "Greys")) None None None) None
          = None) as H51 by reflexivity.
  assert (@savefig E (default out None) 100 = None) as H6 by reflexivity.
  split;
    [exact (conj H0 (conj H1 (conj H2 (conj H3 (conj H4 (conj H5
              (conj H51 H6)))))))|].
  exact (generate_map_returns_true (H := E) "countries_map.zip" None "Greys"
           "value" "sov_a3" m merged J.2 projected H0 H1 H2 H3 H4 H5 H51 H6).
Defined.


(** X24 for [--name-col label] on a CSV with codes and values only. *)
Lemma name_column_is_not_checked_witness :
  let E := Fixture.friendly in
  let args := Fixture.with_name_col "label" in
  let df := Fixture.values_csv in
  let raw := Fixture.natural_earth in
  let m := Fixture.fresh Fixture.nothing in
  (@read_csv E (ColorWorldMap.data args) = inr df
   ∧ ColorWorldMap.code_col args ∈ columns df
   ∧ ColorWorldMap.value_col args ∈ columns df
   ∧ ColorWorldMap.name_col args = Some "label"
   ∧ "label" ≠ EmptyString
   ∧ ("label" ∉ columns df)
   ∧ @get_path E "naturalearth_lowres" = inr "naturalearth_lowres"
   ∧ @read_file E "naturalearth_lowres" = inr raw
   ∧ "name" ∈ columns raw ∧ "iso_a3" ∈ columns raw)
  ∧ @ColorWorldMap.main E args m
    = (Raised (KeyError "label"),
       mkMachine (cleaned (ColorWorldMap.code_col args) df)
         (log m ++ [ReadCsv (ColorWorldMap.data args);
                    ReadFile "naturalearth_lowres"])).
Proof.
  intros E args df raw m.
  assert (@read_csv E (ColorWorldMap.data args) = inr df) as H1 by reflexivity.
  assert (ColorWorldMap.code_col args ∈ columns df) as H2 by decided.
  assert (ColorWorldMap.value_col args ∈ columns df) as H3 by decided.
  assert (ColorWorldMap.name_col args = Some "label") as H4 by reflexivity.
  assert ("label" ≠ EmptyString) as H5 by decided.
  assert ("label" ∉ columns df) as H6 by decided.
  assert (@get_path E "naturalearth_lowres" = inr "naturalearth_lowres") as H7
    by reflexivity.
  assert (@read_file E "naturalearth_lowres" = inr raw) as H8 by reflexivity.
  assert ("name" ∈ columns raw) as H9 by decided.
  assert ("iso_a3" ∈ columns raw) as H10 by decided.
  split;
    [exact (conj H1 (conj H2 (conj H3 (conj H4 (conj H5 (conj H6 (conj H7
              (conj H8 (conj H9 H10)))))))))|].
  exact (name_column_is_not_checked (H := E) args df "label"
           "naturalearth_lowres" raw m H1 H2 H3 H4 H5 H6 H7 H8 H9 H10).
Defined.

(** X25 on the small worlds: one unmatched code in each run;
    pain-to-map.py where color_world_map.py has no data set to load. *)
Lemma unmatched_codes_are_warned_witness :
  let E := Fixture.friendly in
  let E' := Fixture.offline in
  let args := Fixture.plain_args in
  let m0 := Fixture.fresh Fixture.nothing in
  let n0 := Fixture.fresh Fixture.pain_csv in
  let J := @ColorWorldMap.join_stage E args m0 in
  let merged := Fixture.returned Fixture.nothing J.1 in
  let J' := @PainToMap.join_stage E' "countries_map.zip" "value" "sov_a3" n0 in
  let merged' := Fixture.returned Fixture.nothing J'.1 in
  (@read_csv E (ColorWorldMap.data args) = inr Fixture.values_csv
   ∧ @codes_present E (ColorWorldMap.code_col args) Fixture.values_csv
   ∧ J = (Done merged, J.2)
   ∧ ColorWorldMap.value_col args ∈ columns merged
   ∧ "iso_a3" ∈ columns merged
   ∧ @codes_present E' "sov_a3" (frame n0)
   ∧ J' = (Done merged', J'.2)
   ∧ "value" ∈ columns merged'
   ∧ PainToMap.CODE_COLUMN ∈ columns merged')
  ∧ (∃ missing,
       let after :=
         mkMachine (frame J.2) (log J.2 ++ unmatched_warning "ISO-3" missing) in
       warn_unmatched merged (ColorWorldMap.code_col args)
         (ColorWorldMap.value_col args) "iso_a3" "ISO-3" J.2 = (Done (), after)
       ∧ (∀ c, c ∈ missing ↔
               provides (frame J.2) (ColorWorldMap.code_col args) c ∧
               ¬ has_value_for merged "iso_a3" (ColorWorldMap.value_col args) c)
       ∧ (unmatched_warning "ISO-3" missing ≠ [] ↔ ∃ c, c ∈ missing)
       ∧ @ColorWorldMap.main E args m0
         = (@ColorWorldMap.projection_block E args merged
              ≫= @ColorWorldMap.draw_stage E args) after)
  ∧ (∃ missing,
       let after :=
         mkMachine (frame J'.2)
           (log J'.2 ++ unmatched_warning PainToMap.CODE_COLUMN missing) in
       warn_unmatched merged' "sov_a3" "value" PainToMap.CODE_COLUMN
         PainToMap.CODE_COLUMN J'.2 = (Done (), after)
       ∧ (∀ c, c ∈ missing ↔
               provides (frame J'.2) "sov_a3" c ∧
               ¬ has_value_for merged' PainToMap.CODE_COLUMN "value" c)
       ∧ (unmatched_warning PainToMap.CODE_COLUMN missing ≠ []
          ↔ ∃ c, c ∈ missing)
       ∧ @PainToMap.generate_map E' "countries_map.zip" None
           "Greys" "value" "sov_a3" n0
         = (@PainToMap.projection_block E' merged'
              ≫= λ projected,
                   @PainToMap.draw_stage E' "Greys" projected "value"
                     (default
                        (".." +:+ @os_sep E' +:+ "data"
                           +:+ @os_sep E' +:+ "world.png")
                        None)) after).
Proof.
  intros E E' args m0 n0 J merged J' merged'.
  assert (@read_csv E (ColorWorldMap.data args) = inr Fixture.values_csv) as H0
    by reflexivity.
  assert (@codes_present E (ColorWorldMap.code_col args) Fixture.values_csv)
    as H0' by decided.
  assert (J = (Done merged, J.2)) as H1 by evaluated.
  assert (ColorWorldMap.value_col args ∈ columns merged) as H2 by decided.
  assert ("iso_a3" ∈ columns merged) as H3 by decided.
  assert (@codes_present E' "sov_a3" (frame n0)) as H4' by decided.
  assert (J' = (Done merged', J'.2)) as H4 by evaluated.
  assert ("value" ∈ columns merged') as H5 by decided.
  assert (PainToMap.CODE_COLUMN ∈ columns merged') as H6 by decided.
  split;
    [exact (conj H0 (conj H0' (conj H1 (conj H2 (conj H3 (conj H4'
              (conj H4 (conj H5 H6))))))))|].
  split.
  - exact (proj1 (unmatched_codes_are_warned (H := E)) args Fixture.values_csv
             m0 J.2 merged H0 H0' H1 H2 H3).
  - exact (proj2 (unmatched_codes_are_warned (H := E')) "countries_map.zip"
             None "Greys" "value" "sov_a3" n0 J'.2 merged' H4' H4 H5 H6).
Defined.

(** X26 for [--scheme Quantiles --k 4], with a classifier whose call does
    not take the keyword [y]. *)
Lemma classifier_call_failure_ends_the_run_witness :
  let E := Fixture.friendly in
  let args := Fixture.with_scheme "Quantiles" 4 in
  let m := Fixture.fresh Fixture.nothing in
  let merged :=
    Fixture.returned Fixture.nothing
      (@ColorWorldMap.join_stage E Fixture.plain_args m).1 in
  let values :=
    Fixture.given [] (getitem merged (ColorWorldMap.value_col args)) in
  let s := Quantiles (dropna values) 4 in
  let b := Fixture.given [] (@mc_fit E s) in
  let cm := mkCmap "viridis" (Some (length b)) in
  (truthy (ColorWorldMap.scheme args) = true
   ∧ getitem merged (ColorWorldMap.value_col args) = inr values
   ∧ dropna values ≠ []
   ∧ @ColorWorldMap.classify_values E (dropna values)
       (ColorWorldMap.scheme args) (ColorWorldMap.k args)
     = @ColorWorldMap.construct E s
   ∧ @mc_fit E s = inr b
   ∧ @get_cmap E (ColorWorldMap.cmap args) (Some (length b)) = inr cm
   ∧ @mc_call E (mkClassifier s b) values = inl TypeError)
  ∧ @ColorWorldMap.draw_stage E args merged m = (Raised TypeError, m).
Proof.
  intros E args m merged values s b cm.
  assert (truthy (ColorWorldMap.scheme args) = true) as H1 by reflexivity.
  assert (getitem merged (ColorWorldMap.value_col args) = inr values) as H2
    by evaluated.
  assert (dropna values ≠ []) as H3 by decided.
  assert (@ColorWorldMap.classify_values E (dropna values)
            (ColorWorldMap.scheme args) (ColorWorldMap.k args)
          = @ColorWorldMap.construct E s) as H4 by reflexivity.
  assert (@mc_fit E s = inr b) as H5 by reflexivity.
  assert (@get_cmap E (ColorWorldMap.cmap args) (Some (length b)) = inr cm)
    as H6 by reflexivity.
  assert (@mc_call E (mkClassifier s b) values = inl TypeError) as H7
    by reflexivity.
  split;
    [exact (conj H1 (conj H2 (conj H3 (conj H4 (conj H5 (conj H6 H7))))))|].
  exact (classifier_call_failure_ends_the_run (H := E) args merged values s b
           cm TypeError m H1 H2 H3 H4 H5 H6 H7).
Defined.
